(** * Debt ledger core of socongno: customers, transactions, balances

    A shallow embedding of the ledger core of the application:

      - [src/models/customer.py], [src/models/transaction.py]: the dataclasses;
      - [src/core/database.py]: the two tables and the cascading foreign key;
      - [src/repositories/customer_repo.py],
        [src/repositories/transaction_repo.py]: the SQL statements;
      - [src/services/debt_service.py]: validation and orchestration;
      - [src/controllers/customer_controller.py]: the (success, message,
        payload) adapter;
      - [src/views/main_window.py]: the totals of the status bar;
      - [src/core/migrations.py], [src/core/backup_service.py]: schema
        versions, backups and restores.

    Modelling conventions.

      - The SQLite connection is a value of type [Database]: the rows of the
        two tables in rowid order and the two AUTOINCREMENT counters.  Every
        repository method is a computation in the monad [M], which threads
        the database and either returns a value or raises a Python exception;
        the database that an exception leaves behind is kept, as every
        statement is committed on its own.
      - Python [str] is [string] (the UTF-8 bytes), [int] is [Z], [None] is
        [None].  A [float] amount and a [REAL] value are IEEE binary64
        numbers, the primitive [float] of Rocq, with the rounding, the
        infinities and the NaN of the hardware.  The integer 0 that
        [COALESCE(SUM(amount), 0)] gives over no rows is the [float] zero:
        it only occurs in a subtraction, where Python converts it to the
        double 0.0 when the other operand is a [float], and where 0 - 0 is
        the [int] 0, which equals 0.0.
      - Ids handed to the repositories lie in the [INTEGER] range of SQLite
        (64 bits, signed).  Outside of it the [sqlite3] binding raises
        [OverflowError] before the statement runs; that error is not
        modelled, and the theorems about ids that no row carries state the
        range ([in_int64]).
      - The modification time of a backup file is only ever compared; it is
        a rational number.
      - [datetime.now().isoformat()], the default of the [created_at] fields,
        is an explicit argument [now] of every function that builds an object.
      - Calls to [logger] do not touch the ledger and are left out. *)

From Stdlib Require Import ZArith QArith String Ascii List Bool Lia.
From Stdlib Require Import Permutation Sorted DecimalString OrdersEx Floats.
Import ListNotations.

Local Open Scope string_scope.
Local Open Scope Z_scope.

(** ** Python values *)

(** [str(n)] / [f"{n}"] for an [int]. *)
Definition str_of_int (n : Z) : string := NilZero.string_of_int (Z.to_int n).

(** [x or ''] for an optional string: [None] and [''] both give ['']. *)
Definition or_empty (x : option string) : string :=
  match x with
  | Some s => s
  | None => ""
  end.

(** Exceptions that the modelled code can raise: [ValueError] from the
    service layer, [sqlite3.IntegrityError] from a violated constraint. *)
Inductive exn : Type :=
| ValueError (msg : string)
| IntegrityError (msg : string).

(** [str(e)] *)
Definition str_of_exn (e : exn) : string :=
  match e with
  | ValueError msg => msg
  | IntegrityError msg => msg
  end.

(** ** models/transaction.py *)

Inductive TransactionType : Type :=
| CHO_VAY
| THU_NO.

Module TransactionTypeEnum.
Definition value (t : TransactionType) : string :=
  match t with
  | CHO_VAY => "CHO_VAY"
  | THU_NO => "THU_NO"
  end.

Definition eqb (a b : TransactionType) : bool :=
  match a, b with
  | CHO_VAY, CHO_VAY => true
  | THU_NO, THU_NO => true
  | _, _ => false
  end.
End TransactionTypeEnum.

Module Transaction.
Record t : Type := mk {
  customer_id : Z;
  amount : float;
  transaction_type : TransactionType;
  note : string;
  id : option Z;
  created_at : string
}.

(** [transaction.id = rowid] *)
Definition set_id (tr : t) (rowid : Z) : t :=
  {| customer_id := customer_id tr;
     amount := amount tr;
     transaction_type := transaction_type tr;
     note := note tr;
     id := Some rowid;
     created_at := created_at tr |}.
End Transaction.

(** ** models/customer.py *)

Module Customer.
Record t : Type := mk {
  name : string;
  phone : string;
  address : string;
  id : option Z;
  created_at : string
}.

(** [customer.id = rowid] *)
Definition set_id (c : t) (rowid : Z) : t :=
  {| name := name c;
     phone := phone c;
     address := address c;
     id := Some rowid;
     created_at := created_at c |}.
End Customer.

(** ** core/database.py: the schema *)

(** A row of [customers]: [phone] and [address] are nullable. *)
Record customers_row : Type := {
  c_id : Z;
  c_name : string;
  c_phone : option string;
  c_address : option string;
  c_created_at : string
}.

(** A row of [transactions]: [note] is nullable; the [transaction_type]
    column only ever receives [TransactionType.value] and is read back with
    [TransactionType(...)], so the row carries the enumeration member. *)
Record transactions_row : Type := {
  t_id : Z;
  t_customer_id : Z;
  t_amount : float;
  t_transaction_type : TransactionType;
  t_note : option string;
  t_created_at : string
}.

(** The connection: both tables in rowid order, and for each table the
    [sqlite_sequence] entry kept by [AUTOINCREMENT]. *)
Record Database : Type := {
  customers : list customers_row;
  transactions : list transactions_row;
  customers_seq : Z;
  transactions_seq : Z
}.

(** [init_schema] on a fresh file: two empty tables. *)
Definition init_schema : Database :=
  {| customers := []; transactions := [];
     customers_seq := 0; transactions_seq := 0 |}.

(** ** The monad of repository, service and controller code *)

Inductive outcome (A : Type) : Type :=
| Returned (a : A)
| Raised (e : exn).
Arguments Returned {A} a.
Arguments Raised {A} e.

Definition M (A : Type) : Type := Database -> outcome A * Database.

Definition ret {A : Type} (a : A) : M A := fun db => (Returned a, db).

Definition raise {A : Type} (e : exn) : M A := fun db => (Raised e, db).

Definition bind {A B : Type} (m : M A) (k : A -> M B) : M B :=
  fun db =>
    match m db with
    | (Returned a, db') => k a db'
    | (Raised e, db') => (Raised e, db')
    end.

(** [try: m  except Exception as e: h e] *)
Definition try_except {A : Type} (m : M A) (h : exn -> M A) : M A :=
  fun db =>
    match m db with
    | (Returned a, db') => (Returned a, db')
    | (Raised e, db') => h e db'
    end.

Definition get_db : M Database := fun db => (Returned db, db).

Definition put_db (db' : Database) : M unit := fun _ => (Returned tt, db').

Declare Scope ledger_scope.
Delimit Scope ledger_scope with ledger.
Notation "x <- m ;; k" := (bind m (fun x => k))
  (at level 100, m at next level, right associativity) : ledger_scope.
Notation "m ;;; k" := (bind m (fun _ => k))
  (at level 100, right associativity) : ledger_scope.
Local Open Scope ledger_scope.

(** ** SQL building blocks *)

Module Sql.
(** The largest rowid of a table, 0 for an empty one. *)
Definition max_rowid (ids : list Z) : Z := fold_right Z.max 0 ids.

(** The rowid that [INTEGER PRIMARY KEY AUTOINCREMENT] gives to a new row:
    one more than the largest rowid the table has ever held. *)
Definition next_rowid (ids : list Z) (seq : Z) : Z :=
  Z.max (max_rowid ids) seq + 1.

(** [SUM(x)] over [REAL] values: [NULL] over no rows, otherwise the
    accumulator, a double that starts at 0.0 and to which the value of each
    row is added in the order of the scan.  A result that is NaN leaves
    SQLite as [NULL]. *)
Definition sum (xs : list float) : option float :=
  match xs with
  | [] => None
  | _ =>
      let rSum := fold_left PrimFloat.add xs 0%float in
      if PrimFloat.is_nan rSum then None else Some rSum
  end.

(** [COALESCE(x, d)] *)
Definition coalesce (x : option float) (d : float) : float :=
  match x with
  | Some v => v
  | None => d
  end.

(** Comparison of [TEXT] values under the [BINARY] collation. *)
Definition text_leb (a b : string) : bool :=
  match String_as_OT.compare a b with
  | Gt => false
  | _ => true
  end.

(** [ORDER BY key DESC]: the rows sorted by decreasing key; rows with equal
    keys keep the order of the scan. *)
Fixpoint insert_desc {A : Type} (key : A -> string) (x : A) (l : list A)
  : list A :=
  match l with
  | [] => [x]
  | y :: l' =>
      if text_leb (key y) (key x)
      then x :: y :: l'
      else y :: insert_desc key x l'
  end.

Definition order_by_desc {A : Type} (key : A -> string) (rows : list A)
  : list A :=
  fold_right (insert_desc key) [] rows.
End Sql.

(** ** repositories/customer_repo.py *)

Module CustomerRepository.
(** [Customer(id=row['id'], name=row['name'], phone=row['phone'] or '',
    address=row['address'] or '', created_at=row['created_at'])] *)
Definition of_row (row : customers_row) : Customer.t :=
  {| Customer.name := c_name row;
     Customer.phone := or_empty (c_phone row);
     Customer.address := or_empty (c_address row);
     Customer.id := Some (c_id row);
     Customer.created_at := c_created_at row |}.

(** [INSERT INTO customers (name, phone, address, created_at)
    VALUES (?, ?, ?, ?)], then [customer.id = cursor.lastrowid]. *)
Definition create (customer : Customer.t) : M Customer.t :=
  db <- get_db ;;
  let rowid := Sql.next_rowid (map c_id (customers db)) (customers_seq db) in
  let row := {| c_id := rowid;
                c_name := Customer.name customer;
                c_phone := Some (Customer.phone customer);
                c_address := Some (Customer.address customer);
                c_created_at := Customer.created_at customer |} in
  put_db {| customers := customers db ++ [row];
            transactions := transactions db;
            customers_seq := rowid;
            transactions_seq := transactions_seq db |} ;;;
  ret (Customer.set_id customer rowid).

(** [SELECT * FROM customers WHERE id = ?], [fetchone()]. *)
Definition get_by_id (customer_id : Z) : M (option Customer.t) :=
  db <- get_db ;;
  match find (fun row => c_id row =? customer_id) (customers db) with
  | Some row => ret (Some (of_row row))
  | None => ret None
  end.

(** [SELECT * FROM customers ORDER BY created_at DESC] *)
Definition get_all : M (list Customer.t) :=
  db <- get_db ;;
  ret (map of_row (Sql.order_by_desc c_created_at (customers db))).

(** The [SET name = ?, phone = ?, address = ?] of [update] on one row. *)
Definition set_fields (customer : Customer.t) (row : customers_row)
  : customers_row :=
  {| c_id := c_id row;
     c_name := Customer.name customer;
     c_phone := Some (Customer.phone customer);
     c_address := Some (Customer.address customer);
     c_created_at := c_created_at row |}.

(** The [WHERE id = ?] of [update] and its parameter [customer.id]:
    [id = NULL] holds for no row. *)
Definition matches (id : option Z) (row : customers_row) : bool :=
  match id with
  | Some i => c_id row =? i
  | None => false
  end.

(** [UPDATE customers SET name = ?, phone = ?, address = ? WHERE id = ?],
    then [cursor.rowcount > 0]. *)
Definition update (customer : Customer.t) : M bool :=
  db <- get_db ;;
  let hit := matches (Customer.id customer) in
  let rowcount := Z.of_nat (length (filter hit (customers db))) in
  put_db {| customers :=
              map (fun row => if hit row then set_fields customer row
                              else row) (customers db);
            transactions := transactions db;
            customers_seq := customers_seq db;
            transactions_seq := transactions_seq db |} ;;;
  if rowcount >? 0 then ret true else ret false.

(** [DELETE FROM customers WHERE id = ?], then [cursor.rowcount > 0].
    The connection runs with [PRAGMA foreign_keys = ON] and [transactions]
    declares [FOREIGN KEY (customer_id) REFERENCES customers(id) ON DELETE
    CASCADE]: every deleted customer row takes the transaction rows that
    reference it along. *)
Definition delete (customer_id : Z) : M bool :=
  db <- get_db ;;
  let hit := fun row => c_id row =? customer_id in
  let rowcount := Z.of_nat (length (filter hit (customers db))) in
  put_db {| customers := filter (fun row => negb (hit row)) (customers db);
            transactions :=
              if rowcount >? 0
              then filter (fun row => negb (t_customer_id row =? customer_id))
                          (transactions db)
              else transactions db;
            customers_seq := customers_seq db;
            transactions_seq := transactions_seq db |} ;;;
  if rowcount >? 0 then ret true else ret false.
End CustomerRepository.

(** ** repositories/transaction_repo.py *)

Module TransactionRepository.
(** [Transaction(id=row['id'], customer_id=row['customer_id'],
    amount=row['amount'],
    transaction_type=TransactionType(row['transaction_type']),
    note=row['note'] or '', created_at=row['created_at'])] *)
Definition of_row (row : transactions_row) : Transaction.t :=
  {| Transaction.customer_id := t_customer_id row;
     Transaction.amount := t_amount row;
     Transaction.transaction_type := t_transaction_type row;
     Transaction.note := or_empty (t_note row);
     Transaction.id := Some (t_id row);
     Transaction.created_at := t_created_at row |}.

(** [INSERT INTO transactions (customer_id, amount, transaction_type, note,
    created_at) VALUES (?, ?, ?, ?, ?)], then
    [transaction.id = cursor.lastrowid].  A NaN is bound as [NULL], which
    [amount REAL NOT NULL] refuses; with foreign keys enforced the statement
    then fails when [customer_id] references no customer. *)
Definition create (transaction : Transaction.t) : M Transaction.t :=
  db <- get_db ;;
  if PrimFloat.is_nan (Transaction.amount transaction)
  then raise (IntegrityError "NOT NULL constraint failed: transactions.amount")
  else if existsb (fun row => c_id row =? Transaction.customer_id transaction)
                  (customers db)
  then
    let rowid :=
      Sql.next_rowid (map t_id (transactions db)) (transactions_seq db) in
    let row :=
      {| t_id := rowid;
         t_customer_id := Transaction.customer_id transaction;
         t_amount := Transaction.amount transaction;
         t_transaction_type := Transaction.transaction_type transaction;
         t_note := Some (Transaction.note transaction);
         t_created_at := Transaction.created_at transaction |} in
    put_db {| customers := customers db;
              transactions := transactions db ++ [row];
              customers_seq := customers_seq db;
              transactions_seq := rowid |} ;;;
    ret (Transaction.set_id transaction rowid)
  else raise (IntegrityError "FOREIGN KEY constraint failed").

(** [SELECT * FROM transactions WHERE customer_id = ?
    ORDER BY created_at DESC] *)
Definition get_by_customer_id (customer_id : Z) : M (list Transaction.t) :=
  db <- get_db ;;
  let rows := filter (fun row => t_customer_id row =? customer_id)
                     (transactions db) in
  ret (map of_row (Sql.order_by_desc t_created_at rows)).

(** [SELECT * FROM transactions ORDER BY created_at DESC] *)
Definition get_all : M (list Transaction.t) :=
  db <- get_db ;;
  ret (map of_row (Sql.order_by_desc t_created_at (transactions db))).

(** [DELETE FROM transactions WHERE id = ?], then [cursor.rowcount > 0]. *)
Definition delete (transaction_id : Z) : M bool :=
  db <- get_db ;;
  let hit := fun row => t_id row =? transaction_id in
  let rowcount := Z.of_nat (length (filter hit (transactions db))) in
  put_db {| customers := customers db;
            transactions :=
              filter (fun row => negb (hit row)) (transactions db);
            customers_seq := customers_seq db;
            transactions_seq := transactions_seq db |} ;;;
  if rowcount >? 0 then ret true else ret false.

(** [SELECT COALESCE(SUM(amount), 0) as total FROM transactions
    WHERE customer_id = ? AND transaction_type = ?]: the rows of the customer
    are met in rowid order, through the table or through
    [idx_transactions_customer_id]. *)
Definition total (customer_id : Z) (type : TransactionType)
                 (db : Database) : float :=
  Sql.coalesce
    (Sql.sum
       (map t_amount
          (filter (fun row =>
                     (t_customer_id row =? customer_id)
                     && TransactionTypeEnum.eqb (t_transaction_type row) type)
                  (transactions db))))
    0.

Definition get_customer_balance (customer_id : Z) : M float :=
  db <- get_db ;;
  let cho_vay := total customer_id CHO_VAY db in
  let thu_no := total customer_id THU_NO db in
  let balance := PrimFloat.sub cho_vay thu_no in
  ret balance.
End TransactionRepository.

(** ** services/debt_service.py *)

Module DebtService.
Definition msg_customer_not_found (customer_id : Z) : string :=
  "Không tìm thấy khách hàng với ID: " ++ str_of_int customer_id.

Definition msg_loan_amount : string := "Số tiền cho vay phải lớn hơn 0".

Definition msg_payment_amount : string := "Số tiền thu nợ phải lớn hơn 0".

Definition calculate_debt (customer_id : Z) : M float :=
  customer <- CustomerRepository.get_by_id customer_id ;;
  match customer with
  | None => raise (ValueError (msg_customer_not_found customer_id))
  | Some _ => TransactionRepository.get_customer_balance customer_id
  end.

Definition add_loan (customer_id : Z) (amount : float) (note : string)
                    (now : string) : M Transaction.t :=
  customer <- CustomerRepository.get_by_id customer_id ;;
  match customer with
  | None => raise (ValueError (msg_customer_not_found customer_id))
  | Some _ =>
      if PrimFloat.leb amount 0
      then raise (ValueError msg_loan_amount)
      else
        let transaction :=
          {| Transaction.customer_id := customer_id;
             Transaction.amount := amount;
             Transaction.transaction_type := CHO_VAY;
             Transaction.note := note;
             Transaction.id := None;
             Transaction.created_at := now |} in
        result <- TransactionRepository.create transaction ;;
        ret result
  end.

Definition add_payment (customer_id : Z) (amount : float) (note : string)
                       (now : string) : M Transaction.t :=
  customer <- CustomerRepository.get_by_id customer_id ;;
  match customer with
  | None => raise (ValueError (msg_customer_not_found customer_id))
  | Some _ =>
      if PrimFloat.leb amount 0
      then raise (ValueError msg_payment_amount)
      else
        let transaction :=
          {| Transaction.customer_id := customer_id;
             Transaction.amount := amount;
             Transaction.transaction_type := THU_NO;
             Transaction.note := note;
             Transaction.id := None;
             Transaction.created_at := now |} in
        result <- TransactionRepository.create transaction ;;
        ret result
  end.

Definition get_customer_history (customer_id : Z)
  : M (list Transaction.t) :=
  customer <- CustomerRepository.get_by_id customer_id ;;
  match customer with
  | None => raise (ValueError (msg_customer_not_found customer_id))
  | Some _ => TransactionRepository.get_by_customer_id customer_id
  end.
End DebtService.

(** ** [str.strip()] *)

Module PyStr.
(** The whitespace code points below U+0080 ([str.isspace]): U+0009 to
    U+000D, U+001C to U+001F and U+0020. *)
Definition is_space1 (c : N) : bool :=
  ((9 <=? c) && (c <=? 13) || (28 <=? c) && (c <=? 31) || (c =? 32))%N.

(** U+0085 and U+00A0 in UTF-8: C2 85, C2 A0. *)
Definition is_space2 (c1 c2 : N) : bool :=
  ((c1 =? 194) && ((c2 =? 133) || (c2 =? 160)))%N.

(** U+1680 (E1 9A 80), U+2000 to U+200A (E2 80 80 to E2 80 8A), U+2028,
    U+2029, U+202F (E2 80 A8, E2 80 A9, E2 80 AF), U+205F (E2 81 9F) and
    U+3000 (E3 80 80). *)
Definition is_space3 (c1 c2 c3 : N) : bool :=
  ((c1 =? 225) && (c2 =? 154) && (c3 =? 128)
   || (c1 =? 226) && (c2 =? 128)
      && ((128 <=? c3) && (c3 <=? 138)
          || (c3 =? 168) || (c3 =? 169) || (c3 =? 175))
   || (c1 =? 226) && (c2 =? 129) && (c3 =? 159)
   || (c1 =? 227) && (c2 =? 128) && (c3 =? 128))%N.

(** Drop the leading whitespace of a byte sequence; [sp2] and [sp3]
    recognise the encodings of two and three bytes. *)
Fixpoint drop_spaces (sp2 : N -> N -> bool) (sp3 : N -> N -> N -> bool)
                     (l : list N) : list N :=
  match l with
  | [] => []
  | c1 :: r1 =>
      if is_space1 c1 then drop_spaces sp2 sp3 r1
      else
        match r1 with
        | [] => l
        | c2 :: r2 =>
            if sp2 c1 c2 then drop_spaces sp2 sp3 r2
            else
              match r2 with
              | [] => l
              | c3 :: r3 =>
                  if sp3 c1 c2 c3 then drop_spaces sp2 sp3 r3 else l
              end
        end
  end.

Definition bytes (s : string) : list N :=
  map N_of_ascii (list_ascii_of_string s).

Definition of_bytes (l : list N) : string :=
  string_of_list_ascii (map ascii_of_N l).

Definition lstrip_bytes (l : list N) : list N :=
  drop_spaces is_space2 is_space3 l.

(** From the right the encodings are met last byte first. *)
Definition rstrip_bytes (l : list N) : list N :=
  rev (drop_spaces (fun c2 c1 => is_space2 c1 c2)
                   (fun c3 c2 c1 => is_space3 c1 c2 c3)
                   (rev l)).

Definition strip (s : string) : string :=
  of_bytes (rstrip_bytes (lstrip_bytes (bytes s))).
End PyStr.

(** ** controllers/customer_controller.py *)

Module CustomerController.
Definition msg_empty_name : string := "Tên khách hàng không được để trống".

Definition msg_invalid_id : string := "ID khách hàng không hợp lệ".

Definition msg_not_found : string := "Không tìm thấy khách hàng".

(** [f"Lỗi: {str(e)}"] *)
Definition msg_error (e : exn) : string := "Lỗi: " ++ str_of_exn e.

(** [not name or not name.strip()] *)
Definition blank (name : string) : bool :=
  (name =? "")%string || (PyStr.strip name =? "")%string.

(** The handlers of [except ValueError as e] and [except Exception as e]
    of the debt operations. *)
Definition on_error {P : Type} (payload : P) (e : exn)
  : M (bool * string * P) :=
  match e with
  | ValueError _ => ret (false, str_of_exn e, payload)
  | _ => ret (false, msg_error e, payload)
  end.

Definition create_customer (name phone address : string) (now : string)
  : M (bool * string * option Customer.t) :=
  try_except
    (if blank name
     then ret (false, msg_empty_name, None)
     else
       let customer :=
         {| Customer.name := PyStr.strip name;
            Customer.phone := PyStr.strip phone;
            Customer.address := PyStr.strip address;
            Customer.id := None;
            Customer.created_at := now |} in
       result <- CustomerRepository.create customer ;;
       ret (true, "Tạo khách hàng thành công", Some result))
    (fun e => ret (false, msg_error e, None)).

(** [not customer.id]: [None] or [0]. *)
Definition no_id (id : option Z) : bool :=
  match id with
  | Some i => i =? 0
  | None => true
  end.

Definition update_customer (customer : Customer.t)
  : M (bool * string * unit) :=
  try_except
    (if blank (Customer.name customer)
     then ret (false, msg_empty_name, tt)
     else if no_id (Customer.id customer)
     then ret (false, msg_invalid_id, tt)
     else
       success <- CustomerRepository.update customer ;;
       if success : bool
       then ret (true, "Cập nhật khách hàng thành công", tt)
       else ret (false, msg_not_found, tt))
    (fun e => ret (false, msg_error e, tt)).

Definition delete_customer (customer_id : Z) : M (bool * string * unit) :=
  try_except
    (success <- CustomerRepository.delete customer_id ;;
     if success : bool
     then ret (true, "Xóa khách hàng thành công", tt)
     else ret (false, msg_not_found, tt))
    (fun e => ret (false, msg_error e, tt)).

Definition get_all_customers : M (bool * string * list Customer.t) :=
  try_except
    (customers <- CustomerRepository.get_all ;;
     ret (true, "", customers))
    (fun e => ret (false, msg_error e, [])).

Definition add_loan (customer_id : Z) (amount : float) (note : string)
                    (now : string) : M (bool * string * unit) :=
  try_except
    (DebtService.add_loan customer_id amount note now ;;;
     ret (true, "Đã thêm khoản cho vay thành công", tt))
    (on_error tt).

Definition add_payment (customer_id : Z) (amount : float) (note : string)
                       (now : string) : M (bool * string * unit) :=
  try_except
    (DebtService.add_payment customer_id amount note now ;;;
     ret (true, "Đã thu nợ thành công", tt))
    (on_error tt).

Definition get_customer_debt (customer_id : Z)
  : M (bool * string * float) :=
  try_except
    (debt <- DebtService.calculate_debt customer_id ;;
     ret (true, "", debt))
    (on_error 0%float).
End CustomerController.

(** ** views/main_window.py: the totals of the status bar *)

Module MainWindow.
(** What [update_status_bar] puts on the label: "Lỗi khi tải dữ liệu", the
    text built from [total_customers] and [total_debt], or "Lỗi". *)
Inductive status : Type :=
| load_error
| totals (total_customers : Z) (total_debt : float)
| error.

(** [self.controller.get_customer_debt(customer.id)]: an id [None] matches
    no row, which the service reports as a customer that is not found. *)
Definition debt_of (id : option Z) : M (bool * string * float) :=
  match id with
  | Some customer_id => CustomerController.get_customer_debt customer_id
  | None => ret (false, "Không tìm thấy khách hàng với ID: None", 0%float)
  end.

(** [for customer in customers: ... if success_debt: total_debt += debt] *)
Fixpoint add_debts (customers : list Customer.t) (total_debt : float)
  : M float :=
  match customers with
  | [] => ret total_debt
  | customer :: rest =>
      r <- debt_of (Customer.id customer) ;;
      let '(success_debt, _, debt) := r in
      add_debts rest (if success_debt : bool
                      then PrimFloat.add total_debt debt else total_debt)
  end.

Definition update_status_bar : M status :=
  try_except
    (r <- CustomerController.get_all_customers ;;
     let '(success, _, customers) := r in
     if negb success
     then ret load_error
     else
       let total_customers := Z.of_nat (length customers) in
       total_debt <- add_debts customers 0%float ;;
       ret (totals total_customers total_debt))
    (fun _ => ret error).
End MainWindow.

(** ** core/migrations.py and [Database.init_schema] on an existing file *)

Module Migrations.
(** A row of [schema_version]. *)
Record version_row : Type := {
  v_version : Z;
  v_applied_at : string;
  v_description : option string
}.

(** The database file as the migration code finds it: each of the three
    tables is there or not yet.  [applied_at] takes its default
    [CURRENT_TIMESTAMP], the argument [now] of the functions below.  The
    index on [transactions(customer_id)] changes no result and is left
    out. *)
Record File : Type := {
  schema_version : option (list version_row);
  customers_table : option (list customers_row);
  transactions_table : option (list transactions_row);
  customers_counter : Z;
  transactions_counter : Z
}.

(** A file that holds no table. *)
Definition empty_file : File :=
  {| schema_version := None;
     customers_table := None;
     transactions_table := None;
     customers_counter := 0;
     transactions_counter := 0 |}.

(** The errors of [sqlite3] that the statements below can raise. *)
Inductive error : Type :=
| OperationalError (msg : string)
| IntegrityError (msg : string).

Inductive result (A : Type) : Type :=
| Ok (a : A)
| Raise (e : error).
Arguments Ok {A} a.
Arguments Raise {A} e.

(** [CREATE TABLE IF NOT EXISTS]: an existing table keeps its rows. *)
Definition create_if_not_exists {A : Type} (table : option (list A))
  : option (list A) :=
  match table with
  | Some rows => Some rows
  | None => Some []
  end.

(** [Database.init_schema] *)
Definition init_schema (f : File) : File :=
  {| schema_version := schema_version f;
     customers_table := create_if_not_exists (customers_table f);
     transactions_table := create_if_not_exists (transactions_table f);
     customers_counter := customers_counter f;
     transactions_counter := transactions_counter f |}.

(** [MigrationManager._ensure_version_table] *)
Definition _ensure_version_table (f : File) : File :=
  {| schema_version := create_if_not_exists (schema_version f);
     customers_table := customers_table f;
     transactions_table := transactions_table f;
     customers_counter := customers_counter f;
     transactions_counter := transactions_counter f |}.

(** [SELECT MAX(version)]: [NULL] over no rows. *)
Fixpoint max_version (rows : list version_row) : option Z :=
  match rows with
  | [] => None
  | row :: rest =>
      match max_version rest with
      | Some m => Some (Z.max (v_version row) m)
      | None => Some (v_version row)
      end
  end.

Definition no_such_table : error :=
  OperationalError "no such table: schema_version".

(** [MigrationManager.get_current_version] *)
Definition get_current_version (f : File) : result Z :=
  match schema_version f with
  | None => Raise no_such_table
  | Some rows =>
      match max_version rows with
      | Some version => Ok version
      | None => Ok 0
      end
  end.

(** [MigrationManager._record_migration]: [version] is the primary key. *)
Definition _record_migration (version : Z) (description : string)
                             (now : string) (f : File) : result unit * File :=
  match schema_version f with
  | None => (Raise no_such_table, f)
  | Some rows =>
      if existsb (fun row => v_version row =? version) rows
      then (Raise (IntegrityError
                     "UNIQUE constraint failed: schema_version.version"), f)
      else
        (Ok tt,
         {| schema_version :=
              Some (rows ++ [{| v_version := version;
                                v_applied_at := now;
                                v_description := Some description |}])%list;
            customers_table := customers_table f;
            transactions_table := transactions_table f;
            customers_counter := customers_counter f;
            transactions_counter := transactions_counter f |})
  end.

(** [MigrationManager._migration_1_initial_schema] *)
Definition _migration_1_initial_schema (now : string) (f : File)
  : result unit * File :=
  _record_migration 1 "Initial schema - customers and transactions tables"
                    now (init_schema f).

(** The list [migrations] of [apply_migrations]. *)
Definition migrations : list (Z * (string -> File -> result unit * File)) :=
  [ (1, _migration_1_initial_schema) ].

(** [for version, migration_func in migrations: if version >
    current_version: migration_func()], an exception being raised again. *)
Fixpoint apply_pending (current_version : Z)
         (pending : list (Z * (string -> File -> result unit * File)))
         (now : string) (f : File) : result unit * File :=
  match pending with
  | [] => (Ok tt, f)
  | (version, migration_func) :: rest =>
      if version >? current_version
      then
        match migration_func now f with
        | (Ok _, f') => apply_pending current_version rest now f'
        | (Raise e, f') => (Raise e, f')
        end
      else apply_pending current_version rest now f
  end.

(** [MigrationManager.apply_migrations] *)
Definition apply_migrations (now : string) (f : File) : result unit * File :=
  match get_current_version f with
  | Raise e => (Raise e, f)
  | Ok current_version =>
      match apply_pending current_version migrations now f with
      | (Raise e, f') => (Raise e, f')
      | (Ok _, f') =>
          match get_current_version f' with
          | Raise e => (Raise e, f')
          | Ok final_version => (Ok tt, f')
          end
      end
  end.

(** [run_migrations]: [MigrationManager()] and then [apply_migrations]. *)
Definition run_migrations (now : string) (f : File) : result unit * File :=
  apply_migrations now (_ensure_version_table f).

(** The ledger of a file, once both of its tables are there. *)
Definition ledger (f : File) : option Database :=
  match customers_table f, transactions_table f with
  | Some cs, Some ts =>
      Some {| customers := cs;
              transactions := ts;
              customers_seq := customers_counter f;
              transactions_seq := transactions_counter f |}
  | _, _ => None
  end.

(** The version that [get_current_version] reports once the version table
    is ensured. *)
Definition recorded_version (f : File) : Z :=
  match schema_version f with
  | Some rows =>
      match max_version rows with
      | Some version => version
      | None => 0
      end
  | None => 0
  end.
End Migrations.

(** ** core/backup_service.py: the backup directory *)

Module BackupService.
(** A file of the backup directory: its name, [stat().st_mtime] and its
    bytes.  The directory is the list of its files in the order in which
    [glob] meets them; names are unique in a directory. *)
Record file : Type := {
  name : string;
  st_mtime : Q;
  data : string
}.

Definition max_backups : nat := 30.

(** [f"socongno_backup_{timestamp}.db"], [timestamp] being
    [datetime.now().strftime("%Y%m%d_%H%M%S")]. *)
Definition _get_backup_filename (timestamp : string) : string :=
  "socongno_backup_" ++ timestamp ++ ".db".

Definition ends_with (suffix s : string) : bool :=
  (String.length suffix <=? String.length s)%nat
  && (substring (String.length s - String.length suffix)
                (String.length suffix) s =? suffix)%string.

(** The pattern ["socongno_backup_*.db"], letter case taken as it is. *)
Definition is_backup (file_name : string) : bool :=
  prefix "socongno_backup_" file_name
  && ends_with ".db" file_name
  && (String.length "socongno_backup_.db" <=? String.length file_name)%nat.

(** [self.backup_dir.glob("socongno_backup_*.db")] *)
Definition glob (dir : list file) : list file :=
  filter (fun f => is_backup (name f)) dir.

(** [sorted(..., key=lambda p: p.stat().st_mtime, reverse=True)]: the sort
    is stable, files of equal time keep their order. *)
Fixpoint insert_newest_first (x : file) (l : list file) : list file :=
  match l with
  | [] => [x]
  | y :: l' =>
      if Qle_bool (st_mtime y) (st_mtime x)
      then x :: y :: l'
      else y :: insert_newest_first x l'
  end.

Definition sorted_newest_first (l : list file) : list file :=
  fold_right insert_newest_first [] l.

(** [BackupService.get_backup_list] *)
Definition get_backup_list (dir : list file) : list file :=
  sorted_newest_first (glob dir).

(** [backup_file.unlink()] *)
Definition unlink (file_name : string) (dir : list file) : list file :=
  filter (fun f => negb (name f =? file_name)%string) dir.

(** [for backup_file in backup_files[self.max_backups:]:
    backup_file.unlink()] inside [try]: the first [unlink] that fails ends
    the loop.  [unlink_ok] tells which files the system lets go. *)
Fixpoint unlink_each (unlink_ok : string -> bool) (victims : list file)
                     (dir : list file) : list file :=
  match victims with
  | [] => dir
  | victim :: rest =>
      if unlink_ok (name victim)
      then unlink_each unlink_ok rest (unlink (name victim) dir)
      else dir
  end.

(** [BackupService._cleanup_old_backups] *)
Definition _cleanup_old_backups (unlink_ok : string -> bool)
                                (dir : list file) : list file :=
  unlink_each unlink_ok (skipn max_backups (get_backup_list dir)) dir.

(** [shutil.copy2(src, backup_dir / file_name)]: the copy carries the bytes
    and the modification time of the source and replaces a file of that
    name. *)
Definition copy2 (src : file) (file_name : string) (dir : list file)
  : list file :=
  let copy := {| name := file_name;
                 st_mtime := st_mtime src;
                 data := data src |} in
  if existsb (fun f => (name f =? file_name)%string) dir
  then map (fun f => if (name f =? file_name)%string then copy else f) dir
  else (dir ++ [copy])%list.

(** How a call of [shutil.copy2] ends: it goes through, or it raises.  A
    copy that raises may have created or truncated the destination already:
    [debris] is the modification time and the bytes of what the destination
    then holds, [None] when the destination was not touched. *)
Inductive copy_result : Type :=
| copied
| failed (debris : option (Q * string)).

(** The directory after a [copy2] to [file_name] that raised. *)
Definition interrupted_copy2 (debris : option (Q * string))
                             (file_name : string)
                             (dir : list file) : list file :=
  match debris with
  | None => dir
  | Some (mtime, bytes) =>
      copy2 {| name := file_name; st_mtime := mtime; data := bytes |}
            file_name dir
  end.

(** [BackupService.backup_now]: [db] is the database file if it exists,
    [copy] how [copy2] ends.  The result is the name of the backup inside
    the backup directory, or [None]; when [copy2] raises,
    [_cleanup_old_backups] is not reached. *)
Definition backup_now (unlink_ok : string -> bool) (copy : copy_result)
                      (timestamp : string) (db : option file)
                      (dir : list file) : option string * list file :=
  match db with
  | None => (None, dir)
  | Some db_file =>
      let backup_filename := _get_backup_filename timestamp in
      match copy with
      | copied =>
          let dir' := copy2 db_file backup_filename dir in
          (Some backup_filename, _cleanup_old_backups unlink_ok dir')
      | failed debris => (None, interrupted_copy2 debris backup_filename dir)
      end
  end.

(** [x] is at least as new as [y]. *)
Definition newer_or_equal (x y : file) : Prop :=
  (st_mtime y <= st_mtime x)%Q.
End BackupService.

(** ** core/backup_service.py: restoring *)

Module Restore.
(** The [backup_path] handed to [restore_from_backup]: a file of the backup
    directory, or a path outside of it, other than the database file
    itself, with the file found there, if any. *)
Inductive path : Type :=
| in_backup_dir (file_name : string)
| elsewhere (f : option BackupService.file).

Definition lookup (file_name : string) (dir : list BackupService.file)
  : option BackupService.file :=
  find (fun f => (BackupService.name f =? file_name)%string) dir.

Definition resolve (backup_path : path) (dir : list BackupService.file)
  : option BackupService.file :=
  match backup_path with
  | in_backup_dir file_name => lookup file_name dir
  | elsewhere f => f
  end.

(** [f"pre_restore_{self._get_backup_filename()}"] *)
Definition safety_backup (timestamp : string) : string :=
  "pre_restore_" ++ BackupService._get_backup_filename timestamp.

(** [BackupService.restore_from_backup]: [db] is the database file if it
    exists, [dir] the backup directory; [safety_ok] and [restore_ok] tell
    whether the first and the second [copy2] go through.  The result is
    the boolean returned, the database file and the backup directory. *)
Definition restore_from_backup (safety_ok restore_ok : bool)
                               (timestamp : string) (backup_path : path)
                               (db : option BackupService.file)
                               (dir : list BackupService.file)
  : bool * option BackupService.file * list BackupService.file :=
  match resolve backup_path dir with
  | None => (false, db, dir)
  | Some _ =>
      let saved :=
        match db with
        | Some db_file =>
            if safety_ok
            then Some (BackupService.copy2 db_file (safety_backup timestamp)
                                           dir)
            else None
        | None => Some dir
        end in
      match saved with
      | None => (false, db, dir)
      | Some dir' =>
          if restore_ok
          then
            match resolve backup_path dir' with
            | Some src =>
                (true,
                 Some {| BackupService.name := "socongno.db";
                         BackupService.st_mtime := BackupService.st_mtime src;
                         BackupService.data := BackupService.data src |},
                 dir')
            | None => (false, db, dir')
            end
          else (false, db, dir')
      end
  end.
End Restore.

(** ** Vocabulary of the specification *)

(** A customer with this id is in the [customers] table. *)
Definition customer_exists (customer_id : Z) (db : Database) : bool :=
  existsb (fun row => c_id row =? customer_id) (customers db).

(** The transaction rows of a customer, in rowid order. *)
Definition rows_of (customer_id : Z) (db : Database) : list transactions_row :=
  filter (fun row => t_customer_id row =? customer_id) (transactions db).

(** The amounts of a customer's rows of one type. *)
Definition amounts_of (type : TransactionType) (customer_id : Z)
                      (db : Database) : list float :=
  map t_amount
      (filter (fun row => TransactionTypeEnum.eqb (t_transaction_type row) type)
              (rows_of customer_id db)).

(** The sum of a list of doubles as a machine computes it from left to
    right: [acc] is what has been added up so far, and every addition
    rounds. *)
Fixpoint running_sum (acc : float) (xs : list float) : float :=
  match xs with
  | [] => acc
  | x :: rest => running_sum (PrimFloat.add acc x) rest
  end.

Definition float_sum (xs : list float) : float := running_sum 0%float xs.

(** What [COALESCE(SUM(amount), 0)] shows of the amounts [xs]: their
    running sum, and 0 when that sum is not a number, which takes amounts
    that are infinite and of both signs. *)
Definition summed (xs : list float) : float :=
  if PrimFloat.eqb (float_sum xs) (float_sum xs)
  then float_sum xs
  else 0%float.

(** [0 < amount]: a positive number or plus infinity; not NaN. *)
Definition positive (amount : float) : Prop :=
  PrimFloat.ltb 0%float amount = true.

(** [amount <= 0]: a negative number, a zero or minus infinity; not NaN. *)
Definition nonpositive (amount : float) : Prop :=
  PrimFloat.leb amount 0%float = true.

(** [amount == amount]: every double but NaN. *)
Definition is_number (amount : float) : Prop :=
  PrimFloat.eqb amount amount = true.

(** The range of an [INTEGER] of SQLite. *)
Definition in_int64 (i : Z) : Prop := - 2 ^ 63 <= i < 2 ^ 63.

(** One call of [add_loan] or [add_payment]: what is added, with which note,
    at which time. *)
Record entry : Type := {
  e_type : TransactionType;
  e_amount : float;
  e_note : string;
  e_now : string
}.

Definition add_entry (customer_id : Z) (e : entry) : M Transaction.t :=
  match e_type e with
  | CHO_VAY => DebtService.add_loan customer_id (e_amount e) (e_note e) (e_now e)
  | THU_NO =>
      DebtService.add_payment customer_id (e_amount e) (e_note e) (e_now e)
  end.

(** The calls of a list of entries made one after the other. *)
Fixpoint add_all (customer_id : Z) (es : list entry) : M unit :=
  match es with
  | [] => ret tt
  | e :: es' => add_entry customer_id e ;;; add_all customer_id es'
  end.

(** The amounts of the entries of one type. *)
Definition entry_amounts (type : TransactionType) (es : list entry)
  : list float :=
  map e_amount (filter (fun e => TransactionTypeEnum.eqb (e_type e) type) es).

(** [a] is at least as recent as [b]: [created_at] compared as text. *)
Definition not_older (a b : Transaction.t) : Prop :=
  Sql.text_leb (Transaction.created_at b) (Transaction.created_at a) = true.

(** Rows in descending order of a text key: the key of [y] is at most that
    of [x]. *)
Definition desc {A : Type} (key : A -> string) (x y : A) : Prop :=
  Sql.text_leb (key y) (key x) = true.

(** A controller method only adapts the outcome of the lower-layer call
    [inner]: its result is a function of that outcome, and the database is
    the one that call leaves. *)
Definition only_adapts {A R : Type} (ctl : M R) (inner : M A) : Prop :=
  exists f : outcome A -> R,
    forall db, ctl db = (Returned (f (fst (inner db))), snd (inner db)).

(** A name that is empty, or empty once its surrounding whitespace is
    taken off. *)
Definition is_blank (name : string) : Prop :=
  name = "" \/ PyStr.strip name = "".

(** [text] read from a nullable column: [NULL] reads as the empty string. *)
Definition text_of (column : option string) (text : string) : Prop :=
  match column with
  | Some s => text = s
  | None => text = ""
  end.

(** The object [tr] shows the row [row] of [transactions], field by field. *)
Record shows_transaction (row : transactions_row) (tr : Transaction.t)
  : Prop := {
  shows_t_id : Transaction.id tr = Some (t_id row);
  shows_t_customer_id : Transaction.customer_id tr = t_customer_id row;
  shows_t_amount : Transaction.amount tr = t_amount row;
  shows_t_type : Transaction.transaction_type tr = t_transaction_type row;
  shows_t_note : text_of (t_note row) (Transaction.note tr);
  shows_t_created_at : Transaction.created_at tr = t_created_at row
}.

(** The object [c] shows the row [row] of [customers], field by field. *)
Record shows_customer (row : customers_row) (c : Customer.t) : Prop := {
  shows_c_id : Customer.id c = Some (c_id row);
  shows_c_name : Customer.name c = c_name row;
  shows_c_phone : text_of (c_phone row) (Customer.phone c);
  shows_c_address : text_of (c_address row) (Customer.address c);
  shows_c_created_at : Customer.created_at c = c_created_at row
}.

(** What the customer owes by the rows of the ledger: the loans summed
    minus the payments summed, each in rowid order. *)
Definition balance_of (customer_id : Z) (db : Database) : float :=
  PrimFloat.sub (summed (amounts_of CHO_VAY customer_id db))
                (summed (amounts_of THU_NO customer_id db)).

(** The row that a successful [add_loan] or [add_payment] appends, and the
    database it leaves. *)
Definition new_transaction_id (db : Database) : Z :=
  Sql.next_rowid (map t_id (transactions db)) (transactions_seq db).

Definition appended_row (type : TransactionType) (customer_id : Z)
                        (amount : float) (note now : string) (db : Database)
  : transactions_row :=
  {| t_id := new_transaction_id db;
     t_customer_id := customer_id;
     t_amount := amount;
     t_transaction_type := type;
     t_note := Some note;
     t_created_at := now |}.

Definition with_row (row : transactions_row) (db : Database) : Database :=
  {| customers := customers db;
     transactions := transactions db ++ [row];
     customers_seq := customers_seq db;
     transactions_seq := t_id row |}.

(** The object that a successful [add_loan] or [add_payment] returns. *)
Definition created_transaction (type : TransactionType) (customer_id : Z)
                               (amount : float) (note now : string)
                               (db : Database) : Transaction.t :=
  {| Transaction.customer_id := customer_id;
     Transaction.amount := amount;
     Transaction.transaction_type := type;
     Transaction.note := note;
     Transaction.id := Some (new_transaction_id db);
     Transaction.created_at := now |}.

(** A computation that never raises a validation error. *)
Definition never_raises_ValueError {A : Type} (m : M A) : Prop :=
  forall db msg, fst (m db) <> Raised (ValueError msg).

(** A computation that returns normally from every database. *)
Definition always_returns {A : Type} (m : M A) : Prop :=
  forall db, exists a, fst (m db) = Returned a.

(** The [Customer] that [create_customer] builds from its arguments. *)
Definition stripped_customer (name phone address now : string) : Customer.t :=
  {| Customer.name := PyStr.strip name;
     Customer.phone := PyStr.strip phone;
     Customer.address := PyStr.strip address;
     Customer.id := None;
     Customer.created_at := now |}.

(** *** The example scenario of the specification *)

Definition scenario_customer : Customer.t :=
  {| Customer.name := "An";
     Customer.phone := "";
     Customer.address := "";
     Customer.id := None;
     Customer.created_at := "2024-01-01T08:00:00" |}.

(** The database after [create] of the customer "An": id 1. *)
Definition scenario_db : Database :=
  snd (CustomerRepository.create scenario_customer init_schema).

Definition scenario_entries : list entry :=
  [ {| e_type := CHO_VAY; e_amount := 500000; e_note := "xe may";
       e_now := "2024-01-02T09:00:00" |};
    {| e_type := THU_NO; e_amount := 200000; e_note := "tra gop";
       e_now := "2024-01-03T09:00:00" |};
    {| e_type := THU_NO; e_amount := 400000; e_note := "";
       e_now := "2024-01-04T09:00:00" |} ].

(** Three loans whose sum depends on the order of the additions: 1 is
    less than half the distance between 1e16 and the next double. *)
Definition rounding_entries : list entry :=
  [ {| e_type := CHO_VAY; e_amount := 1e16; e_note := "";
       e_now := "2024-01-02T09:00:00" |};
    {| e_type := CHO_VAY; e_amount := 1; e_note := "";
       e_now := "2024-01-03T09:00:00" |};
    {| e_type := CHO_VAY; e_amount := 1; e_note := "";
       e_now := "2024-01-04T09:00:00" |} ].

Definition rounding_entries_reordered : list entry :=
  [ {| e_type := CHO_VAY; e_amount := 1; e_note := "";
       e_now := "2024-01-03T09:00:00" |};
    {| e_type := CHO_VAY; e_amount := 1; e_note := "";
       e_now := "2024-01-04T09:00:00" |};
    {| e_type := CHO_VAY; e_amount := 1e16; e_note := "";
       e_now := "2024-01-02T09:00:00" |} ].

(** The database after the loan of 500000 of the scenario. *)
Definition scenario_db_loan : Database :=
  snd (DebtService.add_loan 1 500000 "xe may" "2024-01-02T09:00:00"
                            scenario_db).

(** The database after the payment of 200000 that follows it. *)
Definition scenario_db_payment : Database :=
  snd (DebtService.add_payment 1 200000 "tra gop" "2024-01-03T09:00:00"
                               scenario_db_loan).

(** *** Backup directories *)

(** No name occurs twice in a list of names. *)
Fixpoint distinct_names (names : list string) : bool :=
  match names with
  | [] => true
  | n :: rest => negb (existsb (String.eqb n) rest) && distinct_names rest
  end.

(** The backup number [i], last modified at time [i]. *)
Definition numbered_backup (i : nat) : BackupService.file :=
  {| BackupService.name :=
       BackupService._get_backup_filename (str_of_int (Z.of_nat i));
     BackupService.st_mtime := inject_Z (Z.of_nat i);
     BackupService.data := "" |}.

(** A directory with the backups 1 to 32, a safety copy made by a restore
    and a file of another kind. *)
Definition scenario_backup_dir : list BackupService.file :=
  (map numbered_backup (seq 1 32)
   ++ [ {| BackupService.name := "pre_restore_socongno_backup_20240101_080000.db";
           BackupService.st_mtime := 0;
           BackupService.data := "old" |};
        {| BackupService.name := "notes.txt";
           BackupService.st_mtime := 5;
           BackupService.data := "keep" |} ])%list.

(** A directory that holds the 30 backups 1 to 30, and a database file
    that was last modified before all of them. *)
Definition scenario_full_dir : list BackupService.file :=
  map numbered_backup (seq 1 30).

Definition scenario_old_db : BackupService.file :=
  {| BackupService.name := "socongno.db";
     BackupService.st_mtime := 0;
     BackupService.data := "restored" |}.

(** The copy that [backup_now] makes of the database file. *)
Definition backup_copy (timestamp : string) (db_file : BackupService.file)
  : BackupService.file :=
  {| BackupService.name := BackupService._get_backup_filename timestamp;
     BackupService.st_mtime := BackupService.st_mtime db_file;
     BackupService.data := BackupService.data db_file |}.

(** The backups of a directory under another name than [file_name]. *)
Definition other_backups (file_name : string) (dir : list BackupService.file)
  : list BackupService.file :=
  filter (fun f => negb (BackupService.name f =? file_name)%string)
         (BackupService.glob dir).

(** *** Invariants of the store *)

(** What the schema promises of the two tables: ids are primary keys, every
    id was handed out by [AUTOINCREMENT] (it is at least 1 and at most the
    counter of its table), and every transaction references a customer. *)
Record well_formed (db : Database) : Prop := {
  wf_customer_ids : NoDup (map c_id (customers db));
  wf_transaction_ids : NoDup (map t_id (transactions db));
  wf_customers_seq :
    Forall (fun i => 1 <= i <= customers_seq db) (map c_id (customers db));
  wf_transactions_seq :
    Forall (fun i => 1 <= i <= transactions_seq db)
           (map t_id (transactions db));
  wf_foreign_key :
    Forall (fun row => customer_exists (t_customer_id row) db = true)
           (transactions db)
}.

(** The amounts of one type in a list of transactions read from the
    database. *)
Definition history_amounts (type : TransactionType)
                           (history : list Transaction.t) : list float :=
  map Transaction.amount
      (filter (fun tr => TransactionTypeEnum.eqb
                           (Transaction.transaction_type tr) type)
              history).

(** The scenario with its loan and its payment, and a second customer. *)
Definition scenario_db_two : Database :=
  snd (CustomerRepository.create
         {| Customer.name := "Binh";
            Customer.phone := "0912";
            Customer.address := "Hue";
            Customer.id := None;
            Customer.created_at := "2024-01-03T12:00:00" |}
         scenario_db_payment).

(** ** Basic facts *)

(** *** Doubles *)

Lemma positive_leb (amount : float) :
  positive amount -> PrimFloat.leb amount 0 = false.
Proof.
  unfold positive. rewrite ltb_spec, leb_spec. unfold SFltb, SFleb.
  change (Prim2SF 0) with (S754_zero false).
  destruct (Prim2SF amount) as [s|s| |s m e]; simpl;
    try discriminate; destruct s; simpl; try discriminate; reflexivity.
Qed.

Lemma positive_is_number (amount : float) : positive amount -> is_number amount.
Proof.
  unfold positive, is_number. rewrite ltb_spec, eqb_spec. unfold SFltb, SFeqb.
  change (Prim2SF 0) with (S754_zero false).
  destruct (Prim2SF amount) as [s|s| |s m e]; simpl; try discriminate.
  - destruct s; reflexivity.
  - intros _.
    destruct s; rewrite Z.compare_refl, Pos.compare_cont_refl; reflexivity.
Qed.

Lemma is_number_not_nan (amount : float) :
  is_number amount -> PrimFloat.is_nan amount = false.
Proof. unfold is_number, PrimFloat.is_nan. intros ->. reflexivity. Qed.

(** The accumulator of [SUM] is the running sum. *)
Lemma fold_left_running_sum (xs : list float) (acc : float) :
  fold_left PrimFloat.add xs acc = running_sum acc xs.
Proof.
  revert acc. induction xs as [|x xs IH]; intros acc; simpl;
    [reflexivity | apply IH].
Qed.

Lemma running_sum_app (xs ys : list float) (acc : float) :
  running_sum acc (xs ++ ys) = running_sum (running_sum acc xs) ys.
Proof.
  revert acc. induction xs as [|x xs IH]; intros acc; simpl;
    [reflexivity | apply IH].
Qed.

(** [COALESCE(SUM(amount), 0)] is the amounts summed. *)
Lemma coalesce_sum (xs : list float) :
  Sql.coalesce (Sql.sum xs) 0 = summed xs.
Proof.
  destruct xs as [|x xs]; [reflexivity|].
  unfold Sql.sum, Sql.coalesce, summed, float_sum, PrimFloat.is_nan.
  rewrite fold_left_running_sum.
  destruct (PrimFloat.eqb _ _); reflexivity.
Qed.

Lemma filter_filter_and {A : Type} (f g : A -> bool) (l : list A) :
  filter g (filter f l) = filter (fun x => f x && g x) l.
Proof.
  induction l as [|x l IH]; simpl; [reflexivity|].
  destruct (f x); simpl; [destruct (g x)|]; rewrite IH; reflexivity.
Qed.

(** The two [SELECT COALESCE(SUM(amount), 0)] queries in the vocabulary of
    the specification. *)
Lemma total_amounts_of (customer_id : Z) (type : TransactionType)
                       (db : Database) :
  TransactionRepository.total customer_id type db
  = summed (amounts_of type customer_id db).
Proof.
  unfold TransactionRepository.total, amounts_of, rows_of.
  rewrite coalesce_sum, filter_filter_and. reflexivity.
Qed.

Lemma get_customer_balance_run (customer_id : Z) (db : Database) :
  TransactionRepository.get_customer_balance customer_id db
  = (Returned (balance_of customer_id db), db).
Proof.
  unfold TransactionRepository.get_customer_balance, bind, get_db, ret.
  rewrite !total_amounts_of. reflexivity.
Qed.

Lemma get_by_id_run (customer_id : Z) (db : Database) :
  CustomerRepository.get_by_id customer_id db =
  (Returned (option_map CustomerRepository.of_row
               (find (fun row => c_id row =? customer_id) (customers db))),
   db).
Proof.
  unfold CustomerRepository.get_by_id, bind, get_db.
  destruct (find _ _); reflexivity.
Qed.

Lemma get_by_id_missing (customer_id : Z) (db : Database) :
  customer_exists customer_id db = false ->
  CustomerRepository.get_by_id customer_id db = (Returned None, db).
Proof.
  intros H. rewrite get_by_id_run.
  unfold customer_exists in H.
  destruct (find _ _) as [row|] eqn:F; [|reflexivity].
  apply find_some in F. destruct F as [Hin Hid].
  assert (E : existsb (fun row => c_id row =? customer_id) (customers db)
              = true) by (apply existsb_exists; eauto).
  congruence.
Qed.

Lemma get_by_id_present (customer_id : Z) (db : Database) :
  customer_exists customer_id db = true ->
  exists customer,
    CustomerRepository.get_by_id customer_id db = (Returned (Some customer), db).
Proof.
  intros H. rewrite get_by_id_run.
  unfold customer_exists in H. apply existsb_exists in H.
  destruct H as [row [Hin Hid]].
  destruct (find _ _) as [row'|] eqn:F.
  - eexists. reflexivity.
  - apply (find_none _ _ F) in Hin. congruence.
Qed.

(** *** Fresh rowids *)

Lemma max_rowid_bound (ids : list Z) :
  Forall (fun i => i <= Sql.max_rowid ids) ids.
Proof.
  induction ids as [|i ids IH]; constructor.
  - simpl. lia.
  - eapply Forall_impl; [|exact IH]. simpl. intros; lia.
Qed.

Lemma next_rowid_above (ids : list Z) (seq : Z) :
  Forall (fun i => i < Sql.next_rowid ids seq) ids.
Proof.
  eapply Forall_impl; [|apply max_rowid_bound].
  unfold Sql.next_rowid. simpl. intros; lia.
Qed.

Lemma fresh_rowid (db : Database) :
  ~ In (new_transaction_id db) (map t_id (transactions db)).
Proof.
  intros Hin.
  pose proof (next_rowid_above (map t_id (transactions db))
                               (transactions_seq db)) as H.
  rewrite Forall_forall in H. apply H in Hin.
  unfold new_transaction_id in Hin. lia.
Qed.

(** *** The three paths of [add_loan] and [add_payment] *)

Ltac run_service :=
  unfold DebtService.add_loan, DebtService.add_payment,
         DebtService.calculate_debt, DebtService.get_customer_history, bind.

Lemma add_loan_missing customer_id amount note now db :
  customer_exists customer_id db = false ->
  DebtService.add_loan customer_id amount note now db =
  (Raised (ValueError (DebtService.msg_customer_not_found customer_id)), db).
Proof.
  intros H. run_service. rewrite (get_by_id_missing _ _ H). reflexivity.
Qed.

Lemma add_payment_missing customer_id amount note now db :
  customer_exists customer_id db = false ->
  DebtService.add_payment customer_id amount note now db =
  (Raised (ValueError (DebtService.msg_customer_not_found customer_id)), db).
Proof.
  intros H. run_service. rewrite (get_by_id_missing _ _ H). reflexivity.
Qed.

Lemma add_loan_nonpositive customer_id amount note now db :
  customer_exists customer_id db = true ->
  nonpositive amount ->
  DebtService.add_loan customer_id amount note now db =
  (Raised (ValueError DebtService.msg_loan_amount), db).
Proof.
  intros H Ha. run_service.
  destruct (get_by_id_present _ _ H) as [c ->].
  unfold nonpositive in Ha. rewrite Ha. reflexivity.
Qed.

Lemma add_payment_nonpositive customer_id amount note now db :
  customer_exists customer_id db = true ->
  nonpositive amount ->
  DebtService.add_payment customer_id amount note now db =
  (Raised (ValueError DebtService.msg_payment_amount), db).
Proof.
  intros H Ha. run_service.
  destruct (get_by_id_present _ _ H) as [c ->].
  unfold nonpositive in Ha. rewrite Ha. reflexivity.
Qed.

Lemma create_transaction_run (tr : Transaction.t) (db : Database) :
  is_number (Transaction.amount tr) ->
  customer_exists (Transaction.customer_id tr) db = true ->
  TransactionRepository.create tr db =
  (Returned (Transaction.set_id tr (new_transaction_id db)),
   with_row {| t_id := new_transaction_id db;
               t_customer_id := Transaction.customer_id tr;
               t_amount := Transaction.amount tr;
               t_transaction_type := Transaction.transaction_type tr;
               t_note := Some (Transaction.note tr);
               t_created_at := Transaction.created_at tr |} db).
Proof.
  intros Hn H. unfold TransactionRepository.create, bind, get_db.
  rewrite (is_number_not_nan _ Hn).
  unfold customer_exists in H. rewrite H. reflexivity.
Qed.

(** A NaN never reaches the table. *)
Lemma create_transaction_nan (tr : Transaction.t) (db : Database) :
  PrimFloat.is_nan (Transaction.amount tr) = true ->
  TransactionRepository.create tr db =
  (Raised (IntegrityError "NOT NULL constraint failed: transactions.amount"),
   db).
Proof.
  intros Hn. unfold TransactionRepository.create, bind, get_db.
  rewrite Hn. reflexivity.
Qed.

Lemma create_transaction_no_customer (tr : Transaction.t) (db : Database) :
  is_number (Transaction.amount tr) ->
  customer_exists (Transaction.customer_id tr) db = false ->
  TransactionRepository.create tr db =
  (Raised (IntegrityError "FOREIGN KEY constraint failed"), db).
Proof.
  intros Hn H. unfold TransactionRepository.create, bind, get_db.
  rewrite (is_number_not_nan _ Hn).
  unfold customer_exists in H. rewrite H. reflexivity.
Qed.

Lemma add_loan_ok customer_id amount note now db :
  customer_exists customer_id db = true ->
  positive amount ->
  DebtService.add_loan customer_id amount note now db =
  (Returned (created_transaction CHO_VAY customer_id amount note now db),
   with_row (appended_row CHO_VAY customer_id amount note now db) db).
Proof.
  intros H Ha. run_service.
  destruct (get_by_id_present _ _ H) as [c ->].
  rewrite (positive_leb _ Ha).
  rewrite create_transaction_run;
    [reflexivity | exact (positive_is_number _ Ha) | exact H].
Qed.

Lemma add_payment_ok customer_id amount note now db :
  customer_exists customer_id db = true ->
  positive amount ->
  DebtService.add_payment customer_id amount note now db =
  (Returned (created_transaction THU_NO customer_id amount note now db),
   with_row (appended_row THU_NO customer_id amount note now db) db).
Proof.
  intros H Ha. run_service.
  destruct (get_by_id_present _ _ H) as [c ->].
  rewrite (positive_leb _ Ha).
  rewrite create_transaction_run;
    [reflexivity | exact (positive_is_number _ Ha) | exact H].
Qed.

Lemma add_entry_ok customer_id (e : entry) db :
  customer_exists customer_id db = true ->
  positive (e_amount e) ->
  add_entry customer_id e db =
  (Returned (created_transaction (e_type e) customer_id (e_amount e)
                                 (e_note e) (e_now e) db),
   with_row (appended_row (e_type e) customer_id (e_amount e)
                          (e_note e) (e_now e) db) db).
Proof.
  intros H Ha. unfold add_entry. destruct (e_type e).
  - apply add_loan_ok; assumption.
  - apply add_payment_ok; assumption.
Qed.

(** *** What an appended row does to the sums *)

Lemma amounts_of_with_row type row customer_id db :
  amounts_of type customer_id (with_row row db) =
  (amounts_of type customer_id db
   ++ (if (t_customer_id row =? customer_id)
          && TransactionTypeEnum.eqb (t_transaction_type row) type
       then [t_amount row] else []))%list.
Proof.
  unfold amounts_of, rows_of, with_row; simpl.
  rewrite !filter_app, map_app. simpl.
  destruct (t_customer_id row =? customer_id); simpl;
    [destruct (TransactionTypeEnum.eqb _ _)|]; reflexivity.
Qed.

(** All entries positive and the customer present: every call succeeds, and
    the customer's amounts of each type grow by the entries of that type, in
    the order of the calls. *)
Lemma add_all_ok customer_id (es : list entry) :
  forall db,
    customer_exists customer_id db = true ->
    Forall (fun e => positive (e_amount e)) es ->
    exists db',
      add_all customer_id es db = (Returned tt, db')
      /\ customers db' = customers db
      /\ forall type,
           amounts_of type customer_id db' =
           (amounts_of type customer_id db ++ entry_amounts type es)%list.
Proof.
  induction es as [|e es IH]; intros db Hc Hpos.
  - exists db. split; [reflexivity|]. split; [reflexivity|].
    intros type. unfold entry_amounts. simpl. rewrite app_nil_r. reflexivity.
  - inversion Hpos as [|? ? He Hes]; subst.
    set (row := appended_row (e_type e) customer_id (e_amount e)
                             (e_note e) (e_now e) db).
    destruct (IH (with_row row db)) as (db' & Hrun & Hcust & Hamt);
      [exact Hc | exact Hes |].
    exists db'. split; [|split].
    + simpl. unfold bind. rewrite (add_entry_ok _ _ _ Hc He). exact Hrun.
    + exact Hcust.
    + intros type. rewrite Hamt, amounts_of_with_row. subst row. simpl.
      rewrite Z.eqb_refl. simpl. unfold entry_amounts. simpl.
      destruct (TransactionTypeEnum.eqb (e_type e) type); simpl.
      * rewrite <- app_assoc. reflexivity.
      * rewrite app_nil_r. reflexivity.
Qed.

Lemma calculate_debt_present customer_id db :
  customer_exists customer_id db = true ->
  DebtService.calculate_debt customer_id db =
  TransactionRepository.get_customer_balance customer_id db.
Proof.
  intros H. run_service. destruct (get_by_id_present _ _ H) as [c ->].
  reflexivity.
Qed.

Lemma calculate_debt_missing customer_id db :
  customer_exists customer_id db = false ->
  DebtService.calculate_debt customer_id db =
  (Raised (ValueError (DebtService.msg_customer_not_found customer_id)), db).
Proof.
  intros H. run_service. rewrite (get_by_id_missing _ _ H). reflexivity.
Qed.

(** ** The balance *)

Lemma amounts_of_no_rows type customer_id db :
  rows_of customer_id db = [] -> amounts_of type customer_id db = [].
Proof. intros H. unfold amounts_of. rewrite H. reflexivity. Qed.

(** C1, as the specification states it, fails: the balance depends on the
    order in which the transactions were inserted.  The same three loans,
    1e16, 1 and 1, are added to the customer of the scenario in two orders.
    With the large loan first each addition of 1 is rounded away and the
    debt is 1e16; with the large loan last it is 10000000000000002, the sum
    of the three numbers.  The two results are different doubles, so the
    first is not the sum of the loans minus the sum of the payments. *)
Lemma balance_depends_on_insertion_order :
  Permutation rounding_entries rounding_entries_reordered
  /\ Forall (fun e => positive (e_amount e)) rounding_entries
  /\ exists db1 db2,
       add_all 1 rounding_entries scenario_db = (Returned tt, db1)
       /\ add_all 1 rounding_entries_reordered scenario_db = (Returned tt, db2)
       /\ DebtService.calculate_debt 1 db1 = (Returned 1e16%float, db1)
       /\ DebtService.calculate_debt 1 db2
          = (Returned 10000000000000002%float, db2)
       /\ PrimFloat.eqb 1e16 10000000000000002 = false.
Proof.
  split; [|split].
  - unfold rounding_entries, rounding_entries_reordered.
    eapply perm_trans; [apply perm_swap | apply perm_skip, perm_swap].
  - repeat constructor.
  - exists (snd (add_all 1 rounding_entries scenario_db)),
           (snd (add_all 1 rounding_entries_reordered scenario_db)).
    repeat split; vm_compute; reflexivity.
Qed.

(** C1, amended.  For an existing customer and entries with positive
    amounts, every call succeeds, the amounts of the customer's rows of each
    type are those that were there followed by those of the entries in the
    order of the calls, and [get_customer_balance], and [calculate_debt]
    through it, return the loan amounts summed minus the payment amounts
    summed, each sum being the running sum in doubles, from 0, in rowid
    order (and 0 should it not be a number): for a customer without earlier
    rows, the loans of [es] summed minus the payments of [es] summed.  When
    the customer has no transaction row the value returned is the number
    0. *)
Theorem calculate_debt_is_loans_minus_payments
  (customer_id : Z) (db : Database) (es : list entry) :
  customer_exists customer_id db = true ->
  Forall (fun e => positive (e_amount e)) es ->
  exists db' balance,
    add_all customer_id es db = (Returned tt, db')
    /\ (forall type,
          amounts_of type customer_id db'
          = (amounts_of type customer_id db ++ entry_amounts type es)%list)
    /\ TransactionRepository.get_customer_balance customer_id db'
       = (Returned balance, db')
    /\ DebtService.calculate_debt customer_id db' = (Returned balance, db')
    /\ balance
       = PrimFloat.sub (summed (amounts_of CHO_VAY customer_id db'))
                       (summed (amounts_of THU_NO customer_id db'))
    /\ (rows_of customer_id db = [] ->
        balance = PrimFloat.sub (summed (entry_amounts CHO_VAY es))
                                (summed (entry_amounts THU_NO es)))
    /\ (rows_of customer_id db' = [] -> balance = 0%float).
Proof.
  intros Hc Hpos.
  destruct (add_all_ok customer_id es db Hc Hpos) as (db' & Hrun & Hcust & Hamt).
  assert (Hc' : customer_exists customer_id db' = true).
  { unfold customer_exists. rewrite Hcust. exact Hc. }
  exists db', (balance_of customer_id db').
  split; [exact Hrun|]. split; [exact Hamt|].
  split; [apply get_customer_balance_run|].
  split; [rewrite (calculate_debt_present _ _ Hc');
          apply get_customer_balance_run|].
  split; [reflexivity|]. split.
  - intros Hnone. unfold balance_of. rewrite !Hamt.
    rewrite !(amounts_of_no_rows _ _ _ Hnone). reflexivity.
  - intros Hnone. unfold balance_of.
    rewrite !(amounts_of_no_rows _ _ _ Hnone). reflexivity.
Qed.

(** The scenario of the specification: after the loan of 500000 and the
    payments of 200000 and 400000 the debt is -100000; and the customer
    "An" before any entry owes 0. *)
Lemma calculate_debt_is_loans_minus_payments_witness :
  customer_exists 1 scenario_db = true
  /\ Forall (fun e => positive (e_amount e)) scenario_entries
  /\ (exists db',
        add_all 1 scenario_entries scenario_db = (Returned tt, db')
        /\ amounts_of CHO_VAY 1 db' = [500000%float]
        /\ amounts_of THU_NO 1 db' = [200000%float; 400000%float]
        /\ DebtService.calculate_debt 1 db' = (Returned (-100000)%float, db'))
  /\ DebtService.calculate_debt 1 scenario_db = (Returned 0%float, scenario_db).
Proof.
  assert (Hc : customer_exists 1 scenario_db = true) by reflexivity.
  assert (Hpos : Forall (fun e => positive (e_amount e)) scenario_entries)
    by (repeat constructor).
  split; [exact Hc|]. split; [exact Hpos|]. split.
  - destruct (calculate_debt_is_loans_minus_payments
                1 scenario_db scenario_entries Hc Hpos)
      as (db' & balance & Hrun & Hamt & _ & Hdebt & _ & Hfresh & _).
    exists db'. split; [exact Hrun|].
    split; [rewrite Hamt; reflexivity|].
    split; [rewrite Hamt; reflexivity|].
    rewrite Hdebt, (Hfresh eq_refl). reflexivity.
  - destruct (calculate_debt_is_loans_minus_payments 1 scenario_db [] Hc
                (Forall_nil _))
      as (db' & balance & Hrun & _ & _ & Hdebt & _ & _ & Hzero).
    injection Hrun as <-. rewrite Hdebt, (Hzero eq_refl). reflexivity.
Defined.

(** ** Validation in [add_loan] and [add_payment] *)

Lemma not_found_is_not_loan_message customer_id :
  DebtService.msg_customer_not_found customer_id <> DebtService.msg_loan_amount.
Proof. unfold DebtService.msg_customer_not_found. simpl. discriminate. Qed.

Lemma not_found_is_not_payment_message customer_id :
  DebtService.msg_customer_not_found customer_id
  <> DebtService.msg_payment_amount.
Proof. unfold DebtService.msg_customer_not_found. simpl. discriminate. Qed.



(** C3.  [add_loan] and [add_payment] on an id, of the [INTEGER] range, that
    no customer has raise the not-found [ValueError] and leave the database
    as it was.  For an existing customer and a positive amount they append
    one row of type [CHO_VAY], respectively [THU_NO], with the given
    customer, amount, note and time under a fresh id, change nothing else,
    and return the transaction with that id. *)
Theorem add_transaction_checks_customer
  (customer_id : Z) (amount : float) (note now : string) (db : Database) :
  (in_int64 customer_id ->
   customer_exists customer_id db = false ->
   DebtService.add_loan customer_id amount note now db
   = (Raised (ValueError (DebtService.msg_customer_not_found customer_id)), db)
   /\ DebtService.add_payment customer_id amount note now db
      = (Raised (ValueError (DebtService.msg_customer_not_found customer_id)),
         db))
  /\ (customer_exists customer_id db = true -> positive amount ->
      DebtService.add_loan customer_id amount note now db
      = (Returned (created_transaction CHO_VAY customer_id amount note now db),
         with_row (appended_row CHO_VAY customer_id amount note now db) db)
      /\ DebtService.add_payment customer_id amount note now db
         = (Returned
              (created_transaction THU_NO customer_id amount note now db),
            with_row (appended_row THU_NO customer_id amount note now db) db)
      /\ ~ In (new_transaction_id db) (map t_id (transactions db))).
Proof.
  split.
  - intros _ Hc. split; [apply add_loan_missing | apply add_payment_missing];
      exact Hc.
  - intros Hc Ha. split; [apply add_loan_ok; assumption|].
    split; [apply add_payment_ok; assumption|].
    apply fresh_rowid.
Qed.

(** Scenario 4 of the specification, [add_loan(999, 100, "")], and the loan
    of scenario 1 with the row it leaves in the table. *)
Lemma add_transaction_checks_customer_witness :
  in_int64 999
  /\ customer_exists 999 scenario_db = false
  /\ customer_exists 1 scenario_db = true
  /\ positive 500000
  /\ DebtService.add_loan 999 100 "" "2024-01-02T09:00:00" scenario_db
     = (Raised (ValueError (DebtService.msg_customer_not_found 999)),
        scenario_db)
  /\ DebtService.add_loan 1 500000 "xe may" "2024-01-02T09:00:00" scenario_db
     = (Returned {| Transaction.customer_id := 1;
                    Transaction.amount := 500000;
                    Transaction.transaction_type := CHO_VAY;
                    Transaction.note := "xe may";
                    Transaction.id := Some 1;
                    Transaction.created_at := "2024-01-02T09:00:00" |},
        {| customers := customers scenario_db;
           transactions := [ {| t_id := 1;
                                t_customer_id := 1;
                                t_amount := 500000;
                                t_transaction_type := CHO_VAY;
                                t_note := Some "xe may";
                                t_created_at := "2024-01-02T09:00:00" |} ];
           customers_seq := 1;
           transactions_seq := 1 |}).
Proof.
  assert (Hr : in_int64 999) by (unfold in_int64; lia).
  assert (H0 : customer_exists 999 scenario_db = false) by reflexivity.
  assert (H1 : customer_exists 1 scenario_db = true) by reflexivity.
  assert (Ha : positive 500000) by reflexivity.
  split; [exact Hr|]. split; [exact H0|]. split; [exact H1|].
  split; [exact Ha|]. split.
  - exact (proj1 (proj1 (add_transaction_checks_customer
                           999 100 "" "2024-01-02T09:00:00" scenario_db)
                        Hr H0)).
  - rewrite (proj1 (proj2 (add_transaction_checks_customer
                             1 500000 "xe may" "2024-01-02T09:00:00"
                             scenario_db) H1 Ha)).
    reflexivity.
Defined.

(** C10.  The existence check comes first: with an unknown customer, of an
    id in the [INTEGER] range, and an amount that is not positive, both
    operations raise the not-found error, which is not the error about the
    amount. *)
Theorem existence_is_checked_before_amount
  (customer_id : Z) (amount : float) (note now : string) (db : Database) :
  in_int64 customer_id ->
  customer_exists customer_id db = false ->
  nonpositive amount ->
  DebtService.add_loan customer_id amount note now db
  = (Raised (ValueError (DebtService.msg_customer_not_found customer_id)), db)
  /\ DebtService.add_payment customer_id amount note now db
     = (Raised (ValueError (DebtService.msg_customer_not_found customer_id)),
        db)
  /\ DebtService.msg_customer_not_found customer_id
     <> DebtService.msg_loan_amount
  /\ DebtService.msg_customer_not_found customer_id
     <> DebtService.msg_payment_amount.
Proof.
  intros _ Hc _.
  split; [apply add_loan_missing; exact Hc|].
  split; [apply add_payment_missing; exact Hc|].
  split; [apply not_found_is_not_loan_message
         | apply not_found_is_not_payment_message].
Qed.

Lemma existence_is_checked_before_amount_witness :
  in_int64 999
  /\ customer_exists 999 scenario_db = false
  /\ nonpositive (-50)
  /\ DebtService.add_loan 999 (-50) "" "2024-01-05T09:00:00" scenario_db
     = (Raised (ValueError "Không tìm thấy khách hàng với ID: 999"),
        scenario_db)
  /\ DebtService.add_payment 999 (-50) "" "2024-01-05T09:00:00" scenario_db
     = (Raised (ValueError "Không tìm thấy khách hàng với ID: 999"),
        scenario_db).
Proof.
  assert (Hr : in_int64 999) by (unfold in_int64; lia).
  assert (Hc : customer_exists 999 scenario_db = false) by reflexivity.
  assert (Ha : nonpositive (-50)) by reflexivity.
  split; [exact Hr|]. split; [exact Hc|]. split; [exact Ha|].
  destruct (existence_is_checked_before_amount
              999 (-50) "" "2024-01-05T09:00:00" scenario_db Hr Hc Ha)
    as (Hl & Hp & _).
  split; assumption.
Defined.

(** C4.  [add_payment] does not look at the balance: for an existing
    customer, whatever the customer owes, every positive amount is accepted,
    a [THU_NO] transaction is returned and its row appended, and the debt
    afterwards is the loans summed minus the payments summed with the new
    amount added last, a number that can be below zero. *)
Theorem add_payment_ignores_balance
  (customer_id : Z) (amount : float) (note now : string) (db : Database) :
  customer_exists customer_id db = true ->
  positive amount ->
  exists transaction db',
    DebtService.add_payment customer_id amount note now db
    = (Returned transaction, db')
    /\ Transaction.transaction_type transaction = THU_NO
    /\ Transaction.amount transaction = amount
    /\ transactions db'
       = (transactions db
          ++ [appended_row THU_NO customer_id amount note now db])%list
    /\ amounts_of CHO_VAY customer_id db' = amounts_of CHO_VAY customer_id db
    /\ amounts_of THU_NO customer_id db'
       = (amounts_of THU_NO customer_id db ++ [amount])%list
    /\ DebtService.calculate_debt customer_id db
       = (Returned
            (PrimFloat.sub (summed (amounts_of CHO_VAY customer_id db))
                           (summed (amounts_of THU_NO customer_id db))),
          db)
    /\ DebtService.calculate_debt customer_id db'
       = (Returned
            (PrimFloat.sub
               (summed (amounts_of CHO_VAY customer_id db))
               (summed (amounts_of THU_NO customer_id db ++ [amount]))),
          db').
Proof.
  intros Hc Ha.
  set (row := appended_row THU_NO customer_id amount note now db).
  exists (created_transaction THU_NO customer_id amount note now db),
         (with_row row db).
  assert (Hl : amounts_of CHO_VAY customer_id (with_row row db)
               = amounts_of CHO_VAY customer_id db).
  { rewrite amounts_of_with_row. subst row. simpl.
    rewrite Z.eqb_refl. simpl. apply app_nil_r. }
  assert (Hp : amounts_of THU_NO customer_id (with_row row db)
               = (amounts_of THU_NO customer_id db ++ [amount])%list).
  { rewrite amounts_of_with_row. subst row. simpl.
    rewrite Z.eqb_refl. reflexivity. }
  split; [apply add_payment_ok; assumption|].
  split; [reflexivity|]. split; [reflexivity|]. split; [reflexivity|].
  split; [exact Hl|]. split; [exact Hp|]. split.
  - rewrite (calculate_debt_present _ _ Hc). apply get_customer_balance_run.
  - rewrite calculate_debt_present by exact Hc.
    rewrite get_customer_balance_run. unfold balance_of.
    rewrite Hl, Hp. reflexivity.
Qed.

(** Scenarios 1 to 3 of the specification: after the loan of 500000 and the
    payment of 200000 the customer owes 300000; the payment of 400000 is
    accepted and the debt is -100000. *)
Lemma add_payment_ignores_balance_witness :
  customer_exists 1 scenario_db_payment = true
  /\ positive 400000
  /\ DebtService.calculate_debt 1 scenario_db_payment
     = (Returned 300000%float, scenario_db_payment)
  /\ PrimFloat.ltb 300000 400000 = true
  /\ exists transaction db',
       DebtService.add_payment 1 400000 "" "2024-01-04T09:00:00"
                               scenario_db_payment
       = (Returned transaction, db')
       /\ Transaction.transaction_type transaction = THU_NO
       /\ DebtService.calculate_debt 1 db' = (Returned (-100000)%float, db')
       /\ PrimFloat.ltb (-100000) 0 = true.
Proof.
  assert (Hc : customer_exists 1 scenario_db_payment = true) by reflexivity.
  assert (Ha : positive 400000) by reflexivity.
  split; [exact Hc|]. split; [exact Ha|].
  destruct (add_payment_ignores_balance
              1 400000 "" "2024-01-04T09:00:00" scenario_db_payment Hc Ha)
    as (transaction & db' & Hrun & Htype & _ & _ & _ & _ & Hb & Hd).
  split; [rewrite Hb; reflexivity|]. split; [reflexivity|].
  exists transaction, db'. split; [exact Hrun|]. split; [exact Htype|].
  split; [rewrite Hd; reflexivity | reflexivity].
Defined.

(** ** [ORDER BY created_at DESC] *)

Lemma text_leb_total (a b : string) :
  Sql.text_leb a b = true \/ Sql.text_leb b a = true.
Proof.
  unfold Sql.text_leb.
  destruct (String_as_OT.compare_spec a b) as [E|L|G]; auto.
  right. unfold String_as_OT.lt in G. rewrite G. reflexivity.
Qed.

Lemma text_leb_trans (a b c : string) :
  Sql.text_leb a b = true -> Sql.text_leb b c = true ->
  Sql.text_leb a c = true.
Proof.
  unfold Sql.text_leb.
  destruct (String_as_OT.compare_spec a b) as [E1|L1|G1]; try discriminate;
    destruct (String_as_OT.compare_spec b c) as [E2|L2|G2]; try discriminate;
    intros _ _; unfold String_as_OT.eq in *.
  - subst. destruct (String_as_OT.compare_spec c c) as [E|L|L];
      try reflexivity.
    exfalso. exact (StrictOrder_Irreflexive (R := String_as_OT.lt) c L).
  - subst. unfold String_as_OT.lt in L2. rewrite L2. reflexivity.
  - subst. unfold String_as_OT.lt in L1. rewrite L1. reflexivity.
  - pose proof (StrictOrder_Transitive _ _ _ L1 L2) as L.
    unfold String_as_OT.lt in L. rewrite L. reflexivity.
Qed.

Section OrderBy.
Context {A : Type} (key : A -> string).

Lemma insert_desc_Permutation (x : A) (l : list A) :
  Permutation (Sql.insert_desc key x l) (x :: l).
Proof.
  induction l as [|y l IH]; simpl.
  - apply Permutation_refl.
  - destruct (Sql.text_leb (key y) (key x)).
    + apply Permutation_refl.
    + eapply perm_trans; [apply perm_skip, IH | apply perm_swap].
Qed.

Lemma order_by_desc_Permutation (l : list A) :
  Permutation (Sql.order_by_desc key l) l.
Proof.
  induction l as [|x l IH]; simpl.
  - constructor.
  - eapply perm_trans; [apply insert_desc_Permutation|].
    apply perm_skip, IH.
Qed.

Lemma insert_desc_sorted (x : A) (l : list A) :
  StronglySorted (desc key) l -> StronglySorted (desc key) (Sql.insert_desc key x l).
Proof.
  induction 1 as [|y l Hs IH Hy]; simpl.
  - constructor; constructor.
  - destruct (Sql.text_leb (key y) (key x)) eqn:E.
    + constructor; [constructor; assumption|].
      constructor; [exact E|].
      eapply Forall_impl; [|exact Hy].
      intros z Hz. unfold desc in *.
      apply text_leb_trans with (b := key y); assumption.
    + constructor; [exact IH|].
      assert (Hyx : desc key y x).
      { unfold desc. destruct (text_leb_total (key x) (key y)) as [H|H];
          [exact H | congruence]. }
      rewrite Forall_forall in *. intros z Hz.
      apply (Permutation_in _ (insert_desc_Permutation x l)) in Hz.
      destruct Hz as [<-|Hz]; [exact Hyx | apply Hy; exact Hz].
Qed.

Lemma order_by_desc_sorted (l : list A) :
  StronglySorted (desc key) (Sql.order_by_desc key l).
Proof.
  induction l as [|x l IH]; simpl.
  - constructor.
  - apply insert_desc_sorted, IH.
Qed.
End OrderBy.

Lemma StronglySorted_map {A B : Type} (f : A -> B)
      (R : A -> A -> Prop) (R' : B -> B -> Prop) (l : list A) :
  (forall x y, R x y -> R' (f x) (f y)) ->
  StronglySorted R l -> StronglySorted R' (map f l).
Proof.
  intros HR. induction 1 as [|x l Hs IH Hx]; simpl; constructor.
  - exact IH.
  - rewrite Forall_forall in *. intros y Hy.
    apply in_map_iff in Hy. destruct Hy as (z & <- & Hz). auto.
Qed.

Lemma get_by_customer_id_run customer_id db :
  TransactionRepository.get_by_customer_id customer_id db =
  (Returned (map TransactionRepository.of_row
               (Sql.order_by_desc t_created_at (rows_of customer_id db))), db).
Proof. reflexivity. Qed.

(** ** The reading operations of the service *)

Lemma of_row_shows_transaction (row : transactions_row) :
  shows_transaction row (TransactionRepository.of_row row).
Proof.
  constructor; try reflexivity.
  simpl. destruct (t_note row); reflexivity.
Qed.

Lemma of_row_shows_customer (row : customers_row) :
  shows_customer row (CustomerRepository.of_row row).
Proof.
  constructor; try reflexivity; simpl.
  - destruct (c_phone row); reflexivity.
  - destruct (c_address row); reflexivity.
Qed.

Lemma Forall2_map_r {A B : Type} (R : A -> B -> Prop) (f : A -> B)
      (l : list A) :
  (forall x, R x (f x)) -> Forall2 R l (map f l).
Proof.
  intros H. induction l as [|x l IH]; simpl; constructor; auto.
Qed.

(** C6.  [calculate_debt] and [get_customer_history] look the customer up
    first.  Without the customer, the id being of the [INTEGER] range, both
    raise the not-found [ValueError] and leave the database alone.  With the
    customer, [calculate_debt] is the balance query of the repository, and
    [get_customer_history] returns one [Transaction] for each transaction
    row of the customer and for no other row, showing the id, customer,
    amount, type, note and time of its row, ordered by [created_at] from the
    most recent to the oldest. *)
Theorem debt_reads_check_existence (customer_id : Z) (db : Database) :
  (in_int64 customer_id ->
   customer_exists customer_id db = false ->
   DebtService.calculate_debt customer_id db
   = (Raised (ValueError (DebtService.msg_customer_not_found customer_id)), db)
   /\ DebtService.get_customer_history customer_id db
      = (Raised (ValueError (DebtService.msg_customer_not_found customer_id)),
         db))
  /\ (customer_exists customer_id db = true ->
      DebtService.calculate_debt customer_id db
      = TransactionRepository.get_customer_balance customer_id db
      /\ exists rows history,
           DebtService.get_customer_history customer_id db
           = (Returned history, db)
           /\ Permutation rows (rows_of customer_id db)
           /\ StronglySorted (desc t_created_at) rows
           /\ Forall2 shows_transaction rows history
           /\ StronglySorted not_older history).
Proof.
  split.
  - intros _ Hc. split; [apply calculate_debt_missing; exact Hc|].
    run_service. rewrite (get_by_id_missing _ _ Hc). reflexivity.
  - intros Hc. split; [apply calculate_debt_present; exact Hc|].
    exists (Sql.order_by_desc t_created_at (rows_of customer_id db)),
           (map TransactionRepository.of_row
              (Sql.order_by_desc t_created_at (rows_of customer_id db))).
    split; [|split; [|split; [|split]]].
    + run_service. destruct (get_by_id_present _ _ Hc) as [c ->].
      apply get_by_customer_id_run.
    + apply order_by_desc_Permutation.
    + apply order_by_desc_sorted.
    + apply Forall2_map_r, of_row_shows_transaction.
    + apply StronglySorted_map with (R := desc t_created_at);
        [|apply order_by_desc_sorted].
      intros x y H. exact H.
Qed.

(** The scenario after its loan and its first payment, with a second
    customer: the history of customer 1 is the payment, then the loan; that
    of customer 2 is empty; customer 999 is not found. *)
Lemma debt_reads_check_existence_witness :
  in_int64 999
  /\ customer_exists 999 scenario_db_two = false
  /\ customer_exists 1 scenario_db_two = true
  /\ DebtService.calculate_debt 999 scenario_db_two
     = (Raised (ValueError "Không tìm thấy khách hàng với ID: 999"),
        scenario_db_two)
  /\ DebtService.get_customer_history 999 scenario_db_two
     = (Raised (ValueError "Không tìm thấy khách hàng với ID: 999"),
        scenario_db_two)
  /\ DebtService.calculate_debt 1 scenario_db_two
     = (Returned 300000%float, scenario_db_two)
  /\ (exists rows history,
        DebtService.get_customer_history 1 scenario_db_two
        = (Returned history, scenario_db_two)
        /\ Forall2 shows_transaction rows history
        /\ history
           = [ {| Transaction.customer_id := 1;
                  Transaction.amount := 200000;
                  Transaction.transaction_type := THU_NO;
                  Transaction.note := "tra gop";
                  Transaction.id := Some 2;
                  Transaction.created_at := "2024-01-03T09:00:00" |};
               {| Transaction.customer_id := 1;
                  Transaction.amount := 500000;
                  Transaction.transaction_type := CHO_VAY;
                  Transaction.note := "xe may";
                  Transaction.id := Some 1;
                  Transaction.created_at := "2024-01-02T09:00:00" |} ])
  /\ DebtService.get_customer_history 2 scenario_db_two
     = (Returned [], scenario_db_two).
Proof.
  assert (Hr : in_int64 999) by (unfold in_int64; lia).
  assert (H0 : customer_exists 999 scenario_db_two = false) by reflexivity.
  assert (H1 : customer_exists 1 scenario_db_two = true) by reflexivity.
  split; [exact Hr|]. split; [exact H0|]. split; [exact H1|].
  destruct (proj1 (debt_reads_check_existence 999 scenario_db_two) Hr H0)
    as [Hd Hh].
  split; [exact Hd|]. split; [exact Hh|].
  destruct (proj2 (debt_reads_check_existence 1 scenario_db_two) H1)
    as (Hbal & rows & history & Hrun & _ & _ & Hshows & _).
  split; [rewrite Hbal; reflexivity|]. split; [|reflexivity].
  exists rows, history. split; [exact Hrun|]. split; [exact Hshows|].
  vm_compute in Hrun. injection Hrun as <-. reflexivity.
Defined.

(** ** The customer repository *)

Lemma find_app_last {A : Type} (f : A -> bool) (l : list A) (x : A) :
  Forall (fun y => f y = false) l ->
  find f (l ++ [x]) = if f x then Some x else None.
Proof.
  induction 1 as [|y l Hy _ IH]; simpl.
  - reflexivity.
  - rewrite Hy. exact IH.
Qed.

Lemma customer_create_run (customer : Customer.t) (db : Database) :
  CustomerRepository.create customer db =
  (let rowid := Sql.next_rowid (map c_id (customers db)) (customers_seq db) in
   (Returned (Customer.set_id customer rowid),
    {| customers :=
         customers db
         ++ [{| c_id := rowid;
                c_name := Customer.name customer;
                c_phone := Some (Customer.phone customer);
                c_address := Some (Customer.address customer);
                c_created_at := Customer.created_at customer |}];
       transactions := transactions db;
       customers_seq := rowid;
       transactions_seq := transactions_seq db |})).
Proof. reflexivity. Qed.

(** C8.  [create] followed by [get_by_id] on the id that [create] assigned
    returns a customer equal to the one [create] returned: the assigned id,
    and the name, phone, address and [created_at] that were passed in, the
    last one as the very same text.  This holds for every customer value,
    in particular for those with a non-empty name. *)
Theorem create_then_get_by_id (customer : Customer.t) (db : Database) :
  exists rowid created db',
    CustomerRepository.create customer db = (Returned created, db')
    /\ Customer.id created = Some rowid
    /\ exists fetched,
         CustomerRepository.get_by_id rowid db' = (Returned (Some fetched), db')
         /\ fetched = created
         /\ Customer.id fetched = Some rowid
         /\ Customer.name fetched = Customer.name customer
         /\ Customer.phone fetched = Customer.phone customer
         /\ Customer.address fetched = Customer.address customer
         /\ Customer.created_at fetched = Customer.created_at customer.
Proof.
  set (rowid := Sql.next_rowid (map c_id (customers db)) (customers_seq db)).
  exists rowid, (Customer.set_id customer rowid).
  eexists. split; [apply customer_create_run|]. split; [reflexivity|].
  exists (Customer.set_id customer rowid).
  split; [|repeat split].
  rewrite get_by_id_run. simpl. rewrite find_app_last.
  - simpl. fold rowid. rewrite Z.eqb_refl. reflexivity.
  - pose proof (next_rowid_above (map c_id (customers db)) (customers_seq db))
      as H.
    fold rowid in H. rewrite Forall_map in H.
    eapply Forall_impl; [|exact H]. simpl. intros row Hrow.
    apply Z.eqb_neq. lia.
Qed.

Lemma rowcount_positive {A : Type} (f : A -> bool) (l : list A) :
  (Z.of_nat (length (filter f l)) >? 0) = existsb f l.
Proof.
  induction l as [|x l IH]; simpl; [reflexivity|].
  destruct (f x); simpl; [|exact IH].
  destruct (Z.gtb_spec (Z.pos (Pos.of_succ_nat (length (filter f l)))) 0);
    [reflexivity | lia].
Qed.

Lemma update_run (customer : Customer.t) (db : Database) :
  CustomerRepository.update customer db =
  (Returned (existsb (CustomerRepository.matches (Customer.id customer))
                     (customers db)),
   {| customers :=
        map (fun row =>
               if CustomerRepository.matches (Customer.id customer) row
               then CustomerRepository.set_fields customer row else row)
            (customers db);
      transactions := transactions db;
      customers_seq := customers_seq db;
      transactions_seq := transactions_seq db |}).
Proof.
  unfold CustomerRepository.update, bind, get_db, put_db.
  rewrite rowcount_positive. destruct (existsb _ _); reflexivity.
Qed.

Lemma matches_iff (id : option Z) (row : customers_row) :
  CustomerRepository.matches id row = true <-> Some (c_id row) = id.
Proof.
  destruct id as [i|]; simpl.
  - rewrite Z.eqb_eq. split; [intros ->; reflexivity | congruence].
  - split; discriminate.
Qed.


Lemma delete_run (customer_id : Z) (db : Database) :
  CustomerRepository.delete customer_id db =
  (Returned (customer_exists customer_id db),
   {| customers :=
        filter (fun row => negb (c_id row =? customer_id)) (customers db);
      transactions :=
        if customer_exists customer_id db
        then filter (fun row => negb (t_customer_id row =? customer_id))
                    (transactions db)
        else transactions db;
      customers_seq := customers_seq db;
      transactions_seq := transactions_seq db |}).
Proof.
  unfold CustomerRepository.delete, bind, get_db, put_db, customer_exists.
  rewrite rowcount_positive. destruct (existsb _ _); reflexivity.
Qed.

Lemma filter_none {A : Type} (f : A -> bool) (l : list A) :
  (forall x, In x l -> f x = false) -> filter f l = [].
Proof.
  induction l as [|x l IH]; simpl; intros H; [reflexivity|].
  rewrite (H x (or_introl eq_refl)). apply IH. intros y Hy. apply H. auto.
Qed.

(** C5.  Deleting an existing customer through the repository returns
    [True], removes the customer and every transaction row of that customer,
    keeps the rows of every other customer, and afterwards
    [get_customer_history] on the deleted id raises the not-found
    [ValueError]. *)
Theorem delete_customer_cascades (customer_id : Z) (db : Database) :
  customer_exists customer_id db = true ->
  exists db',
    CustomerRepository.delete customer_id db = (Returned true, db')
    /\ customer_exists customer_id db' = false
    /\ rows_of customer_id db' = []
    /\ (forall row, In row (transactions db') ->
                    t_customer_id row <> customer_id)
    /\ (forall other, other <> customer_id ->
                      rows_of other db' = rows_of other db)
    /\ DebtService.get_customer_history customer_id db'
       = (Raised (ValueError (DebtService.msg_customer_not_found customer_id)),
          db').
Proof.
  intros Hc. eexists. split; [rewrite delete_run, Hc; reflexivity|].
  assert (Hgone : customer_exists customer_id
                    {| customers :=
                         filter (fun row => negb (c_id row =? customer_id))
                                (customers db);
                       transactions :=
                         filter (fun row =>
                                   negb (t_customer_id row =? customer_id))
                                (transactions db);
                       customers_seq := customers_seq db;
                       transactions_seq := transactions_seq db |} = false).
  { unfold customer_exists. simpl.
    destruct (existsb _ _) eqn:E; [|reflexivity].
    apply existsb_exists in E. destruct E as (row & Hin & Hid).
    apply filter_In in Hin. destruct Hin as [_ Hn].
    rewrite Hid in Hn. discriminate. }
  split; [exact Hgone|]. split; [|split; [|split]].
  - unfold rows_of. simpl. rewrite filter_filter_and. apply filter_none.
    intros row _. destruct (t_customer_id row =? customer_id); reflexivity.
  - simpl. intros row Hin. apply filter_In in Hin. destruct Hin as [_ Hn].
    intros He. rewrite He, Z.eqb_refl in Hn. discriminate.
  - intros other Hne. unfold rows_of. simpl. rewrite filter_filter_and.
    apply filter_ext. intros row.
    destruct (t_customer_id row =? customer_id) eqn:E1; simpl; [|reflexivity].
    apply Z.eqb_eq in E1. symmetry. apply Z.eqb_neq. congruence.
  - run_service. rewrite (get_by_id_missing _ _ Hgone). reflexivity.
Qed.

(** Scenario 6 of the specification: the customer "An" with a loan and a
    payment is deleted. *)
Lemma delete_customer_cascades_witness :
  customer_exists 1 scenario_db_payment = true
  /\ exists db',
       CustomerRepository.delete 1 scenario_db_payment = (Returned true, db')
       /\ rows_of 1 db' = []
       /\ DebtService.get_customer_history 1 db'
          = (Raised (ValueError (DebtService.msg_customer_not_found 1)), db').
Proof.
  assert (Hc : customer_exists 1 scenario_db_payment = true) by reflexivity.
  split; [exact Hc|].
  destruct (delete_customer_cascades 1 scenario_db_payment Hc)
    as (db' & Hrun & _ & Hrows & _ & _ & Hhist).
  exists db'. repeat split; assumption.
Defined.

(** ** Which layer validates *)

Ltac run_controller :=
  unfold CustomerController.add_loan, CustomerController.add_payment,
         CustomerController.get_customer_debt,
         CustomerController.delete_customer,
         CustomerController.create_customer,
         CustomerController.update_customer,
         CustomerController.on_error, try_except, bind, ret.

Lemma create_customer_blank name phone address now db :
  CustomerController.blank name = true ->
  CustomerController.create_customer name phone address now db
  = (Returned (false, CustomerController.msg_empty_name, None), db).
Proof. intros H. run_controller. rewrite H. reflexivity. Qed.

Lemma update_customer_blank customer db :
  CustomerController.blank (Customer.name customer) = true ->
  CustomerController.update_customer customer db
  = (Returned (false, CustomerController.msg_empty_name, tt), db).
Proof. intros H. run_controller. rewrite H. reflexivity. Qed.

(** C7, as the specification states it, fails: the rule that a name must not
    be empty is applied by the controller.  [create_customer] with the empty
    name reports a failure and writes nothing, although the repository call
    it would otherwise make returns normally and inserts the row; its result
    is therefore no adaptation of the outcome of that call. *)
Lemma create_customer_validates_in_controller :
  CustomerController.create_customer "" "" "" "2024-01-01T08:00:00" init_schema
  = (Returned (false, CustomerController.msg_empty_name, None), init_schema)
  /\ fst (CustomerRepository.create
            (stripped_customer "" "" "" "2024-01-01T08:00:00") init_schema)
     = Returned {| Customer.name := "";
                   Customer.phone := "";
                   Customer.address := "";
                   Customer.id := Some 1;
                   Customer.created_at := "2024-01-01T08:00:00" |}
  /\ ~ only_adapts
        (CustomerController.create_customer "" "" "" "2024-01-01T08:00:00")
        (CustomerRepository.create
           (stripped_customer "" "" "" "2024-01-01T08:00:00")).
Proof.
  split; [reflexivity|]. split; [reflexivity|].
  intros [f H]. specialize (H init_schema).
  vm_compute in H. discriminate H.
Qed.

Lemma blank_iff (name : string) :
  CustomerController.blank name = true <-> is_blank name.
Proof.
  unfold CustomerController.blank, is_blank.
  rewrite orb_true_iff, !String.eqb_eq. reflexivity.
Qed.

Lemma not_blank (name : string) :
  ~ is_blank name -> CustomerController.blank name = false.
Proof.
  intros H. destruct (CustomerController.blank name) eqn:E; [|reflexivity].
  apply blank_iff in E. contradiction.
Qed.

(** C7, amended.  The repositories never raise a validation error:
    [CustomerRepository.create] takes every name, and
    [TransactionRepository.create] every amount that is a number, for an
    existing customer; a NaN is refused by the [NOT NULL] constraint of the
    schema, with an [IntegrityError].  The unknown customer id and the
    amount that is not positive are rejected by the service with a
    [ValueError].  The controller methods [add_loan], [add_payment],
    [get_customer_debt] and [delete_customer] only adapt the outcome of the
    one service or repository call they make: one function of that outcome,
    the same for all arguments, gives their answer.  The rule on the name is
    the controller's own: [create_customer] and [update_customer] reject a
    name that is empty, or empty once stripped, before anything is called,
    writing nothing, and with any other name [create_customer] only adapts
    the outcome of the repository's [create]; [update_customer] also
    rejects an id that is [None] or 0 itself, and otherwise only adapts the
    outcome of the repository's [update]. *)
Theorem validation_by_layer :
  (* repositories *)
  (forall customer,
      never_raises_ValueError (CustomerRepository.create customer)
      /\ always_returns (CustomerRepository.create customer)
      /\ never_raises_ValueError (CustomerRepository.update customer))
  /\ (forall id,
        never_raises_ValueError (CustomerRepository.get_by_id id)
        /\ never_raises_ValueError (CustomerRepository.delete id)
        /\ never_raises_ValueError (TransactionRepository.get_by_customer_id id)
        /\ never_raises_ValueError (TransactionRepository.get_customer_balance id)
        /\ never_raises_ValueError (TransactionRepository.delete id))
  /\ (forall transaction,
        never_raises_ValueError (TransactionRepository.create transaction)
        /\ (forall db,
              is_number (Transaction.amount transaction) ->
              customer_exists (Transaction.customer_id transaction) db = true ->
              exists created,
                fst (TransactionRepository.create transaction db)
                = Returned created)
        /\ (forall db,
              PrimFloat.eqb (Transaction.amount transaction)
                            (Transaction.amount transaction) = false ->
              exists msg,
                TransactionRepository.create transaction db
                = (Raised (IntegrityError msg), db)))
  (* service *)
  /\ (forall customer_id amount note now db,
        in_int64 customer_id ->
        customer_exists customer_id db = false ->
        fst (DebtService.add_loan customer_id amount note now db)
        = Raised (ValueError (DebtService.msg_customer_not_found customer_id))
        /\ fst (DebtService.add_payment customer_id amount note now db)
           = Raised (ValueError
                       (DebtService.msg_customer_not_found customer_id))
        /\ fst (DebtService.calculate_debt customer_id db)
           = Raised (ValueError
                       (DebtService.msg_customer_not_found customer_id))
        /\ fst (DebtService.get_customer_history customer_id db)
           = Raised (ValueError
                       (DebtService.msg_customer_not_found customer_id)))
  /\ (forall customer_id amount note now db,
        customer_exists customer_id db = true ->
        nonpositive amount ->
        fst (DebtService.add_loan customer_id amount note now db)
        = Raised (ValueError DebtService.msg_loan_amount)
        /\ fst (DebtService.add_payment customer_id amount note now db)
           = Raised (ValueError DebtService.msg_payment_amount))
  (* controller: adapters *)
  /\ (exists f, forall customer_id amount note now db,
        CustomerController.add_loan customer_id amount note now db
        = (Returned
             (f (fst (DebtService.add_loan customer_id amount note now db))),
           snd (DebtService.add_loan customer_id amount note now db)))
  /\ (exists f, forall customer_id amount note now db,
        CustomerController.add_payment customer_id amount note now db
        = (Returned
             (f (fst (DebtService.add_payment customer_id amount note now db))),
           snd (DebtService.add_payment customer_id amount note now db)))
  /\ (exists f, forall customer_id db,
        CustomerController.get_customer_debt customer_id db
        = (Returned (f (fst (DebtService.calculate_debt customer_id db))),
           snd (DebtService.calculate_debt customer_id db)))
  /\ (exists f, forall customer_id db,
        CustomerController.delete_customer customer_id db
        = (Returned (f (fst (CustomerRepository.delete customer_id db))),
           snd (CustomerRepository.delete customer_id db)))
  (* controller: the rule on the name *)
  /\ (forall name phone address now db,
        is_blank name ->
        CustomerController.create_customer name phone address now db
        = (Returned (false, CustomerController.msg_empty_name, None), db))
  /\ (exists f, forall name phone address now db,
        ~ is_blank name ->
        CustomerController.create_customer name phone address now db
        = (Returned
             (f (fst (CustomerRepository.create
                        (stripped_customer name phone address now) db))),
           snd (CustomerRepository.create
                  (stripped_customer name phone address now) db)))
  /\ (forall customer db,
        is_blank (Customer.name customer) ->
        CustomerController.update_customer customer db
        = (Returned (false, CustomerController.msg_empty_name, tt), db))
  /\ (forall customer db,
        ~ is_blank (Customer.name customer) ->
        Customer.id customer = None \/ Customer.id customer = Some 0 ->
        CustomerController.update_customer customer db
        = (Returned (false, CustomerController.msg_invalid_id, tt), db))
  /\ (exists f, forall customer id db,
        ~ is_blank (Customer.name customer) ->
        Customer.id customer = Some id ->
        id <> 0 ->
        CustomerController.update_customer customer db
        = (Returned (f (fst (CustomerRepository.update customer db))),
           snd (CustomerRepository.update customer db))).
Proof.
  split; [|split; [|split; [|split; [|split]]]].
  - intros customer. split; [|split].
    + intros db msg. rewrite customer_create_run. discriminate.
    + intros db. rewrite customer_create_run. eexists. reflexivity.
    + intros db msg. rewrite update_run. discriminate.
  - intros id. repeat split; intros db msg.
    + rewrite get_by_id_run. discriminate.
    + rewrite delete_run. discriminate.
    + discriminate.
    + discriminate.
    + unfold TransactionRepository.delete, bind, get_db, put_db.
      destruct (_ >? 0); discriminate.
  - intros transaction. split; [|split].
    + intros db msg. unfold TransactionRepository.create, bind, get_db.
      destruct (PrimFloat.is_nan _); [discriminate|].
      destruct (existsb _ _); discriminate.
    + intros db Hn Hc. rewrite (create_transaction_run _ _ Hn Hc).
      eexists. reflexivity.
    + intros db Hn. eexists. apply create_transaction_nan.
      unfold PrimFloat.is_nan. rewrite Hn. reflexivity.
  - intros customer_id amount note now db _ Hc.
    rewrite add_loan_missing, add_payment_missing, calculate_debt_missing
      by exact Hc.
    repeat split.
    run_service. rewrite (get_by_id_missing _ _ Hc). reflexivity.
  - intros customer_id amount note now db Hc Ha.
    rewrite add_loan_nonpositive, add_payment_nonpositive by assumption.
    split; reflexivity.
  - split; [|split; [|split; [|split; [|split; [|split; [|split; [|split]]]]]]].
    + exists (fun o => match o with
                       | Returned _ =>
                           (true, "Đã thêm khoản cho vay thành công", tt)
                       | Raised (ValueError msg) => (false, msg, tt)
                       | Raised e => (false, CustomerController.msg_error e, tt)
                       end).
      intros customer_id amount note now db. run_controller.
      destruct (DebtService.add_loan _ _ _ _ db) as [[a|[m|m]] db'];
        reflexivity.
    + exists (fun o => match o with
                       | Returned _ => (true, "Đã thu nợ thành công", tt)
                       | Raised (ValueError msg) => (false, msg, tt)
                       | Raised e => (false, CustomerController.msg_error e, tt)
                       end).
      intros customer_id amount note now db. run_controller.
      destruct (DebtService.add_payment _ _ _ _ db) as [[a|[m|m]] db'];
        reflexivity.
    + exists (fun o => match o with
                       | Returned debt => (true, "", debt)
                       | Raised (ValueError msg) => (false, msg, 0%float)
                       | Raised e =>
                           (false, CustomerController.msg_error e, 0%float)
                       end).
      intros customer_id db. run_controller.
      destruct (DebtService.calculate_debt _ db) as [[a|[m|m]] db'];
        reflexivity.
    + exists (fun o => match o with
                       | Returned true =>
                           (true, "Xóa khách hàng thành công", tt)
                       | Returned false =>
                           (false, CustomerController.msg_not_found, tt)
                       | Raised e => (false, CustomerController.msg_error e, tt)
                       end).
      intros customer_id db. run_controller. rewrite delete_run.
      destruct (customer_exists customer_id db); reflexivity.
    + intros name phone address now db Hb. apply create_customer_blank.
      apply blank_iff. exact Hb.
    + exists (fun o => match o with
                       | Returned result =>
                           (true, "Tạo khách hàng thành công", Some result)
                       | Raised e =>
                           (false, CustomerController.msg_error e, None)
                       end).
      intros name phone address now db Hb. run_controller.
      rewrite (not_blank _ Hb).
      fold (stripped_customer name phone address now).
      rewrite customer_create_run. reflexivity.
    + intros customer db Hb. apply update_customer_blank.
      apply blank_iff. exact Hb.
    + intros customer db Hb Hid. run_controller. rewrite (not_blank _ Hb).
      destruct Hid as [-> | ->]; reflexivity.
    + exists (fun o => match o with
                       | Returned true =>
                           (true, "Cập nhật khách hàng thành công", tt)
                       | Returned false =>
                           (false, CustomerController.msg_not_found, tt)
                       | Raised e => (false, CustomerController.msg_error e, tt)
                       end).
      intros customer id db Hb Hid Hnz. run_controller.
      rewrite (not_blank _ Hb), Hid. simpl.
      apply Z.eqb_neq in Hnz. rewrite Hnz, update_run.
      destruct (existsb _ _); reflexivity.
Qed.

(** A blank name and an id 0 at the controller, an unknown id and a negative
    amount at the service, a NaN at the schema. *)
Lemma validation_by_layer_witness :
  is_blank "   "
  /\ in_int64 999
  /\ customer_exists 999 scenario_db = false
  /\ customer_exists 1 scenario_db = true
  /\ nonpositive (-50)
  /\ CustomerController.create_customer "   " "0912" "Ha Noi"
                                        "2024-01-06T09:00:00" scenario_db
     = (Returned (false, "Tên khách hàng không được để trống", None),
        scenario_db)
  /\ CustomerController.update_customer
       {| Customer.name := "An"; Customer.phone := ""; Customer.address := "";
          Customer.id := Some 0; Customer.created_at := "" |} scenario_db
     = (Returned (false, "ID khách hàng không hợp lệ", tt), scenario_db)
  /\ fst (DebtService.add_loan 999 100 "" "2024-01-06T09:00:00" scenario_db)
     = Raised (ValueError "Không tìm thấy khách hàng với ID: 999")
  /\ fst (DebtService.add_loan 1 (-50) "" "2024-01-06T09:00:00" scenario_db)
     = Raised (ValueError "Số tiền cho vay phải lớn hơn 0")
  /\ (exists msg,
        TransactionRepository.create
          {| Transaction.customer_id := 1;
             Transaction.amount := nan;
             Transaction.transaction_type := CHO_VAY;
             Transaction.note := "";
             Transaction.id := None;
             Transaction.created_at := "2024-01-06T09:00:00" |} scenario_db
        = (Raised (IntegrityError msg), scenario_db)).
Proof.
  assert (Hb : is_blank "   ") by (right; reflexivity).
  assert (Hn : ~ is_blank "An").
  { intros [H | H]; vm_compute in H; discriminate H. }
  assert (Hr : in_int64 999) by (unfold in_int64; lia).
  assert (H0 : customer_exists 999 scenario_db = false) by reflexivity.
  assert (H1 : customer_exists 1 scenario_db = true) by reflexivity.
  assert (Ha : nonpositive (-50)) by reflexivity.
  destruct validation_by_layer
    as (_ & _ & Hcreate & Hmissing & Hamount & _ & _ & _ & _
        & Hname & _ & _ & Hid & _).
  split; [exact Hb|]. split; [exact Hr|]. split; [exact H0|].
  split; [exact H1|]. split; [exact Ha|].
  split; [|split; [|split; [|split]]].
  - exact (Hname "   " "0912" "Ha Noi" "2024-01-06T09:00:00" scenario_db Hb).
  - exact (Hid {| Customer.name := "An"; Customer.phone := "";
                  Customer.address := ""; Customer.id := Some 0;
                  Customer.created_at := "" |} scenario_db Hn
               (or_intror eq_refl)).
  - exact (proj1 (Hmissing 999 100%float "" "2024-01-06T09:00:00" scenario_db
                           Hr H0)).
  - exact (proj1 (Hamount 1 (-50)%float "" "2024-01-06T09:00:00" scenario_db
                          H1 Ha)).
  - exact (proj2 (proj2 (Hcreate
                           {| Transaction.customer_id := 1;
                              Transaction.amount := nan;
                              Transaction.transaction_type := CHO_VAY;
                              Transaction.note := "";
                              Transaction.id := None;
                              Transaction.created_at := "2024-01-06T09:00:00" |}))
                 scenario_db eq_refl).
Defined.

(** ** Invariants kept by the repositories *)

Lemma well_formed_init_schema : well_formed init_schema.
Proof.
  constructor; simpl; constructor.
Qed.

Lemma NoDup_map_filter {A B : Type} (f : A -> B) (g : A -> bool)
      (l : list A) :
  NoDup (map f l) -> NoDup (map f (filter g l)).
Proof.
  induction l as [|x l IH]; simpl; intros H; [constructor|].
  inversion H as [|? ? Hx Hl]; subst.
  destruct (g x); simpl; [|apply IH; exact Hl].
  constructor; [|apply IH; exact Hl].
  intros Hin. apply Hx. apply in_map_iff in Hin.
  destruct Hin as (y & Hy & Hin). apply filter_In in Hin.
  apply in_map_iff. exists y. tauto.
Qed.

Lemma Forall_map_filter {A B : Type} (f : A -> B) (g : A -> bool)
      (P : B -> Prop) (l : list A) :
  Forall P (map f l) -> Forall P (map f (filter g l)).
Proof.
  rewrite !Forall_map, !Forall_forall. intros H x Hx.
  apply filter_In in Hx. apply H. tauto.
Qed.

Lemma NoDup_snoc {A : Type} (l : list A) (x : A) :
  NoDup l -> ~ In x l -> NoDup (l ++ [x]).
Proof.
  intros Hl Hx.
  apply Permutation_NoDup with (l := x :: l).
  - apply Permutation_cons_append.
  - constructor; assumption.
Qed.

Lemma next_rowid_fresh (ids : list Z) (seq : Z) :
  ~ In (Sql.next_rowid ids seq) ids.
Proof.
  intros Hin. pose proof (next_rowid_above ids seq) as H.
  rewrite Forall_forall in H. apply H in Hin. lia.
Qed.

Lemma next_rowid_positive (ids : list Z) (seq : Z) :
  1 <= Sql.next_rowid ids seq /\ seq < Sql.next_rowid ids seq.
Proof.
  unfold Sql.next_rowid.
  assert (0 <= Sql.max_rowid ids).
  { induction ids as [|i ids IH]; simpl; lia. }
  lia.
Qed.

Lemma customer_exists_In customer_id db :
  customer_exists customer_id db = true <-> In customer_id (map c_id (customers db)).
Proof.
  unfold customer_exists. rewrite existsb_exists, in_map_iff.
  split; intros (row & H1 & H2).
  - exists row. apply Z.eqb_eq in H2. tauto.
  - exists row. split; [tauto|]. apply Z.eqb_eq. tauto.
Qed.

Lemma well_formed_customer_create customer db :
  well_formed db -> well_formed (snd (CustomerRepository.create customer db)).
Proof.
  intros [H1 H2 H3 H4 H5]. rewrite customer_create_run. simpl.
  pose proof (next_rowid_positive (map c_id (customers db)) (customers_seq db))
    as Hpos.
  pose proof (next_rowid_fresh (map c_id (customers db)) (customers_seq db))
    as Hfresh.
  revert Hpos Hfresh.
  generalize (Sql.next_rowid (map c_id (customers db)) (customers_seq db)).
  intros rowid Hpos Hfresh.
  constructor; simpl.
  - rewrite map_app. simpl. apply NoDup_snoc; assumption.
  - exact H2.
  - rewrite map_app, Forall_app. split.
    + eapply Forall_impl; [|exact H3]. simpl. intros; lia.
    + simpl. constructor; [lia | constructor].
  - exact H4.
  - eapply Forall_impl; [|exact H5]. intros row Hrow.
    apply customer_exists_In. apply customer_exists_In in Hrow. simpl.
    rewrite map_app. apply in_or_app. left. exact Hrow.
Qed.

Lemma update_keeps_ids customer (rows : list customers_row) :
  map c_id
      (map (fun row =>
              if CustomerRepository.matches (Customer.id customer) row
              then CustomerRepository.set_fields customer row else row)
           rows)
  = map c_id rows.
Proof.
  rewrite map_map. apply map_ext. intros row.
  destruct (CustomerRepository.matches _ row); reflexivity.
Qed.

Lemma well_formed_customer_update customer db :
  well_formed db -> well_formed (snd (CustomerRepository.update customer db)).
Proof.
  intros [H1 H2 H3 H4 H5]. rewrite update_run. simpl.
  constructor; simpl; try rewrite update_keeps_ids; try assumption.
  eapply Forall_impl; [|exact H5]. intros row Hrow.
  apply customer_exists_In. apply customer_exists_In in Hrow. simpl.
  rewrite update_keeps_ids. exact Hrow.
Qed.

Lemma well_formed_customer_delete customer_id db :
  well_formed db ->
  well_formed (snd (CustomerRepository.delete customer_id db)).
Proof.
  intros [H1 H2 H3 H4 H5]. rewrite delete_run. simpl.
  assert (Hkeep : forall row,
             In row (transactions db) ->
             (customer_exists customer_id db = true ->
              t_customer_id row <> customer_id) ->
             In (t_customer_id row)
                (map c_id (filter (fun r => negb (c_id r =? customer_id))
                                  (customers db)))).
  { intros row Hin Hne. rewrite Forall_forall in H5.
    pose proof (H5 row Hin) as Hex.
    unfold customer_exists in Hex. apply existsb_exists in Hex.
    destruct Hex as (c & Hc & Hid). apply Z.eqb_eq in Hid.
    apply in_map_iff. exists c. split; [exact Hid|].
    apply filter_In. split; [exact Hc|].
    apply negb_true_iff, Z.eqb_neq. rewrite Hid. intros He.
    destruct (customer_exists customer_id db) eqn:E.
    - apply Hne; [reflexivity | exact He].
    - assert (customer_exists customer_id db = true); [|congruence].
      unfold customer_exists. apply existsb_exists. exists c.
      split; [exact Hc | apply Z.eqb_eq; congruence]. }
  constructor; simpl.
  - apply NoDup_map_filter. exact H1.
  - destruct (customer_exists customer_id db);
      [apply NoDup_map_filter|]; exact H2.
  - apply Forall_map_filter. exact H3.
  - destruct (customer_exists customer_id db);
      [apply Forall_map_filter|]; exact H4.
  - apply Forall_forall. intros row Hin.
    apply customer_exists_In. simpl.
    destruct (customer_exists customer_id db) eqn:E.
    + apply filter_In in Hin. destruct Hin as [Hin Hn].
      apply Hkeep; [exact Hin|]. intros _.
      apply Z.eqb_neq, negb_true_iff. exact Hn.
    + apply Hkeep; [exact Hin|]. intros; discriminate.
Qed.

Lemma well_formed_with_row row db :
  well_formed db ->
  t_id row = new_transaction_id db ->
  customer_exists (t_customer_id row) db = true ->
  well_formed (with_row row db).
Proof.
  intros [H1 H2 H3 H4 H5] Hid Hc.
  pose proof (next_rowid_positive (map t_id (transactions db))
                                  (transactions_seq db)) as Hpos.
  pose proof (fresh_rowid db) as Hfresh.
  unfold new_transaction_id in *. rewrite <- Hid in Hpos, Hfresh.
  constructor; simpl.
  - exact H1.
  - rewrite map_app. simpl. apply NoDup_snoc; assumption.
  - exact H3.
  - rewrite map_app, Forall_app. split.
    + eapply Forall_impl; [|exact H4]. simpl. intros; lia.
    + simpl. constructor; [lia | constructor].
  - rewrite Forall_app. split; [exact H5|].
    constructor; [exact Hc | constructor].
Qed.

Lemma well_formed_transaction_create transaction db :
  well_formed db ->
  well_formed (snd (TransactionRepository.create transaction db)).
Proof.
  intros Hwf.
  destruct (PrimFloat.is_nan (Transaction.amount transaction)) eqn:En.
  { rewrite create_transaction_nan by exact En. exact Hwf. }
  apply negb_false_iff in En.
  destruct (customer_exists (Transaction.customer_id transaction) db) eqn:E.
  - rewrite (create_transaction_run _ _ En E). simpl.
    apply well_formed_with_row; [exact Hwf | reflexivity | exact E].
  - rewrite (create_transaction_no_customer _ _ En E). exact Hwf.
Qed.

Lemma transaction_delete_run transaction_id db :
  TransactionRepository.delete transaction_id db =
  (Returned (existsb (fun row => t_id row =? transaction_id) (transactions db)),
   {| customers := customers db;
      transactions :=
        filter (fun row => negb (t_id row =? transaction_id)) (transactions db);
      customers_seq := customers_seq db;
      transactions_seq := transactions_seq db |}).
Proof.
  unfold TransactionRepository.delete, bind, get_db, put_db.
  rewrite rowcount_positive. destruct (existsb _ _); reflexivity.
Qed.

Lemma well_formed_transaction_delete transaction_id db :
  well_formed db ->
  well_formed (snd (TransactionRepository.delete transaction_id db)).
Proof.
  intros [H1 H2 H3 H4 H5]. rewrite transaction_delete_run. simpl.
  constructor; simpl.
  - exact H1.
  - apply NoDup_map_filter. exact H2.
  - exact H3.
  - apply Forall_map_filter. exact H4.
  - apply Forall_forall. intros row Hin. apply filter_In in Hin.
    rewrite Forall_forall in H5. apply (H5 row). tauto.
Qed.

(** [add_loan] and [add_payment] leave the database alone or append their
    row to it. *)
Lemma add_loan_cases customer_id amount note now db :
  snd (DebtService.add_loan customer_id amount note now db) = db
  \/ (customer_exists customer_id db = true
      /\ snd (DebtService.add_loan customer_id amount note now db)
         = with_row (appended_row CHO_VAY customer_id amount note now db) db).
Proof.
  destruct (customer_exists customer_id db) eqn:E.
  - run_service. destruct (get_by_id_present _ _ E) as [c ->].
    destruct (PrimFloat.leb amount 0); [left; reflexivity|].
    destruct (PrimFloat.is_nan amount) eqn:En.
    + left. rewrite create_transaction_nan by exact En. reflexivity.
    + right. split; [reflexivity|].
      rewrite create_transaction_run;
        [reflexivity | apply negb_false_iff; exact En | exact E].
  - left. rewrite (add_loan_missing _ _ _ _ _ E). reflexivity.
Qed.

Lemma add_payment_cases customer_id amount note now db :
  snd (DebtService.add_payment customer_id amount note now db) = db
  \/ (customer_exists customer_id db = true
      /\ snd (DebtService.add_payment customer_id amount note now db)
         = with_row (appended_row THU_NO customer_id amount note now db) db).
Proof.
  destruct (customer_exists customer_id db) eqn:E.
  - run_service. destruct (get_by_id_present _ _ E) as [c ->].
    destruct (PrimFloat.leb amount 0); [left; reflexivity|].
    destruct (PrimFloat.is_nan amount) eqn:En.
    + left. rewrite create_transaction_nan by exact En. reflexivity.
    + right. split; [reflexivity|].
      rewrite create_transaction_run;
        [reflexivity | apply negb_false_iff; exact En | exact E].
  - left. rewrite (add_payment_missing _ _ _ _ _ E). reflexivity.
Qed.

Lemma well_formed_add_loan customer_id amount note now db :
  well_formed db ->
  well_formed (snd (DebtService.add_loan customer_id amount note now db)).
Proof.
  intros Hwf.
  destruct (add_loan_cases customer_id amount note now db) as [->|[Hc ->]];
    [exact Hwf|].
  apply well_formed_with_row; [exact Hwf | reflexivity | exact Hc].
Qed.

Lemma well_formed_add_payment customer_id amount note now db :
  well_formed db ->
  well_formed (snd (DebtService.add_payment customer_id amount note now db)).
Proof.
  intros Hwf.
  destruct (add_payment_cases customer_id amount note now db) as [->|[Hc ->]];
    [exact Hwf|].
  apply well_formed_with_row; [exact Hwf | reflexivity | exact Hc].
Qed.

Lemma well_formed_scenario_db_loan : well_formed scenario_db_loan.
Proof.
  apply well_formed_add_loan, well_formed_customer_create,
        well_formed_init_schema.
Qed.

Lemma well_formed_scenario_db_two : well_formed scenario_db_two.
Proof.
  apply well_formed_customer_create, well_formed_add_payment,
        well_formed_scenario_db_loan.
Qed.

(** X1.  The empty schema is well formed, and the three writes of the
    customer repository keep a well-formed store well formed: ids stay
    unique and within the counters, and after a delete no transaction is
    left that references a missing customer. *)
Theorem customer_writes_keep_store_well_formed
  (db : Database) (customer : Customer.t) (customer_id : Z) :
  well_formed db ->
  well_formed init_schema
  /\ well_formed (snd (CustomerRepository.create customer db))
  /\ well_formed (snd (CustomerRepository.update customer db))
  /\ well_formed (snd (CustomerRepository.delete customer_id db)).
Proof.
  intros Hwf. split; [apply well_formed_init_schema|].
  split; [apply well_formed_customer_create; exact Hwf|].
  split; [apply well_formed_customer_update; exact Hwf|].
  apply well_formed_customer_delete; exact Hwf.
Qed.

(** On the store with two customers, a loan and a payment of customer 1:
    a third customer is created under id 3; the update of customer 1
    rewrites its row; the delete of customer 1 takes its row and its two
    transactions, and what is left is well formed. *)
Lemma customer_writes_keep_store_well_formed_witness :
  well_formed scenario_db_two
  /\ map t_customer_id (transactions scenario_db_two) = [1; 1]
  /\ well_formed (snd (CustomerRepository.create scenario_customer
                                                 scenario_db_two))
  /\ map c_id (customers (snd (CustomerRepository.create scenario_customer
                                                         scenario_db_two)))
     = [1; 2; 3]
  /\ well_formed
       (snd (CustomerRepository.update
               {| Customer.name := "An Nguyen"; Customer.phone := "0988";
                  Customer.address := "Da Nang"; Customer.id := Some 1;
                  Customer.created_at := "" |} scenario_db_two))
  /\ map c_name
         (customers
            (snd (CustomerRepository.update
                    {| Customer.name := "An Nguyen"; Customer.phone := "0988";
                       Customer.address := "Da Nang"; Customer.id := Some 1;
                       Customer.created_at := "" |} scenario_db_two)))
     = ["An Nguyen"; "Binh"]
  /\ well_formed (snd (CustomerRepository.delete 1 scenario_db_two))
  /\ map c_id (customers (snd (CustomerRepository.delete 1 scenario_db_two)))
     = [2]
  /\ transactions (snd (CustomerRepository.delete 1 scenario_db_two)) = [].
Proof.
  assert (H2 : well_formed scenario_db_two)
    by exact well_formed_scenario_db_two.
  split; [exact H2|]. split; [reflexivity|].
  split; [|split; [reflexivity|]].
  { exact (proj1 (proj2 (customer_writes_keep_store_well_formed
                           scenario_db_two scenario_customer 1 H2))). }
  split; [|split; [reflexivity|]].
  { exact (proj1 (proj2 (proj2 (customer_writes_keep_store_well_formed
                                  scenario_db_two
                                  {| Customer.name := "An Nguyen";
                                     Customer.phone := "0988";
                                     Customer.address := "Da Nang";
                                     Customer.id := Some 1;
                                     Customer.created_at := "" |}
                                  1 H2)))). }
  split; [|split; reflexivity].
  exact (proj2 (proj2 (proj2 (customer_writes_keep_store_well_formed
                                scenario_db_two scenario_customer 1 H2)))).
Defined.

(** X2.  The writes of the transaction repository and of the debt service
    keep a well-formed store well formed, whether they succeed or raise:
    in particular no transaction ever references a customer that does not
    exist. *)
Theorem transaction_writes_keep_store_well_formed
  (db : Database) (transaction : Transaction.t) (transaction_id : Z)
  (customer_id : Z) (amount : float) (note now : string) :
  well_formed db ->
  well_formed (snd (TransactionRepository.create transaction db))
  /\ well_formed (snd (TransactionRepository.delete transaction_id db))
  /\ well_formed (snd (DebtService.add_loan customer_id amount note now db))
  /\ well_formed (snd (DebtService.add_payment customer_id amount note now db)).
Proof.
  intros Hwf.
  split; [apply well_formed_transaction_create; exact Hwf|].
  split; [apply well_formed_transaction_delete; exact Hwf|].
  split; [apply well_formed_add_loan | apply well_formed_add_payment];
    exact Hwf.
Qed.

(** On the store with two customers, a loan and a payment of customer 1:
    [create], [add_loan] and [add_payment] for customer 2 each append the
    row 3, the delete of transaction 1 leaves row 2, and the four stores
    are well formed. *)
Lemma transaction_writes_keep_store_well_formed_witness :
  well_formed scenario_db_two
  /\ map t_id (transactions scenario_db_two) = [1; 2]
  /\ well_formed
       (snd (TransactionRepository.create
               {| Transaction.customer_id := 2;
                  Transaction.amount := 100;
                  Transaction.transaction_type := CHO_VAY;
                  Transaction.note := "";
                  Transaction.id := None;
                  Transaction.created_at := "2024-01-05T09:00:00" |}
               scenario_db_two))
  /\ map t_id
         (transactions
            (snd (TransactionRepository.create
                    {| Transaction.customer_id := 2;
                       Transaction.amount := 100;
                       Transaction.transaction_type := CHO_VAY;
                       Transaction.note := "";
                       Transaction.id := None;
                       Transaction.created_at := "2024-01-05T09:00:00" |}
                    scenario_db_two)))
     = [1; 2; 3]
  /\ well_formed (snd (TransactionRepository.delete 1 scenario_db_two))
  /\ map t_id (transactions
                 (snd (TransactionRepository.delete 1 scenario_db_two)))
     = [2]
  /\ well_formed
       (snd (DebtService.add_loan 2 100 "" "2024-01-05T09:00:00"
                                  scenario_db_two))
  /\ map t_customer_id
         (transactions
            (snd (DebtService.add_loan 2 100 "" "2024-01-05T09:00:00"
                                       scenario_db_two)))
     = [1; 1; 2]
  /\ well_formed
       (snd (DebtService.add_payment 2 100 "" "2024-01-05T09:00:00"
                                     scenario_db_two))
  /\ map t_customer_id
         (transactions
            (snd (DebtService.add_payment 2 100 "" "2024-01-05T09:00:00"
                                          scenario_db_two)))
     = [1; 1; 2].
Proof.
  assert (H2 : well_formed scenario_db_two)
    by exact well_formed_scenario_db_two.
  split; [exact H2|]. split; [reflexivity|].
  destruct (transaction_writes_keep_store_well_formed
              scenario_db_two
              {| Transaction.customer_id := 2;
                 Transaction.amount := 100;
                 Transaction.transaction_type := CHO_VAY;
                 Transaction.note := "";
                 Transaction.id := None;
                 Transaction.created_at := "2024-01-05T09:00:00" |}
              1 2 100%float "" "2024-01-05T09:00:00" H2)
    as (Hcreate & Hdelete & Hloan & Hpayment).
  split; [exact Hcreate|]. split; [reflexivity|].
  split; [exact Hdelete|]. split; [reflexivity|].
  split; [exact Hloan|]. split; [reflexivity|].
  split; [exact Hpayment | reflexivity].
Defined.

(** X3.  [AUTOINCREMENT]: the id that [create] assigns is at least 1, so
    the controller's test [not customer.id] never rejects it, it is not the
    id of any row in the table, and it is not handed out again: whatever is
    deleted afterwards, the next [create] assigns a larger id. *)
Theorem customer_ids_are_never_reused
  (db : Database) (first second : Customer.t) (deleted : Z) :
  exists id1 id2 created1 created2 db1 db2,
    CustomerRepository.create first db = (Returned created1, db1)
    /\ Customer.id created1 = Some id1
    /\ 1 <= id1
    /\ ~ In id1 (map c_id (customers db))
    /\ CustomerController.no_id (Customer.id created1) = false
    /\ CustomerRepository.create
         second (snd (CustomerRepository.delete deleted db1))
       = (Returned created2, db2)
    /\ Customer.id created2 = Some id2
    /\ id1 < id2.
Proof.
  rewrite customer_create_run.
  pose proof (next_rowid_positive (map c_id (customers db)) (customers_seq db))
    as Hpos.
  pose proof (next_rowid_fresh (map c_id (customers db)) (customers_seq db))
    as Hfresh.
  revert Hpos Hfresh.
  generalize (Sql.next_rowid (map c_id (customers db)) (customers_seq db)).
  intros id1 Hpos Hfresh. simpl.
  do 6 eexists.
  split; [reflexivity|]. split; [reflexivity|]. split; [lia|].
  split; [exact Hfresh|]. split.
  - simpl. apply Z.eqb_neq. lia.
  - rewrite delete_run, customer_create_run. simpl.
    split; [reflexivity|]. split; [reflexivity|].
    match goal with
    | |- _ < Sql.next_rowid ?ids ?seq =>
        pose proof (next_rowid_positive ids seq)
    end.
    lia.
Qed.

(** ** History, balance and their composition *)

Lemma Permutation_filter_bool {A : Type} (f : A -> bool) (l l' : list A) :
  Permutation l l' -> Permutation (filter f l) (filter f l').
Proof.
  induction 1 as [|x l l' _ IH|x y l|l l' l'' _ IH1 _ IH2]; simpl.
  - constructor.
  - destruct (f x); [constructor|]; exact IH.
  - destruct (f x), (f y); try apply Permutation_refl. apply perm_swap.
  - eapply Permutation_trans; eassumption.
Qed.

Lemma history_amounts_of_rows type (rows : list transactions_row) :
  history_amounts type (map TransactionRepository.of_row rows)
  = map t_amount
        (filter (fun row =>
                   TransactionTypeEnum.eqb (t_transaction_type row) type)
                rows).
Proof.
  unfold history_amounts.
  induction rows as [|row rows IH]; simpl; [reflexivity|].
  destruct (TransactionTypeEnum.eqb (t_transaction_type row) type); simpl;
    rewrite IH; reflexivity.
Qed.

(** X4.  For an existing customer [get_customer_history] and
    [calculate_debt] read the same rows: the loan amounts and the payment
    amounts of the history are, up to their order, those that the balance
    sums in rowid order, and every transaction of the history belongs to
    the customer. *)
Theorem history_and_debt_read_the_same_rows (customer_id : Z) (db : Database) :
  customer_exists customer_id db = true ->
  exists history debt,
    DebtService.get_customer_history customer_id db = (Returned history, db)
    /\ DebtService.calculate_debt customer_id db = (Returned debt, db)
    /\ (forall type,
          Permutation (history_amounts type history)
                      (amounts_of type customer_id db))
    /\ debt = PrimFloat.sub (summed (amounts_of CHO_VAY customer_id db))
                            (summed (amounts_of THU_NO customer_id db))
    /\ Forall (fun tr => Transaction.customer_id tr = customer_id) history.
Proof.
  intros Hc.
  set (sorted := Sql.order_by_desc t_created_at (rows_of customer_id db)).
  exists (map TransactionRepository.of_row sorted),
         (balance_of customer_id db).
  assert (Hperm : Permutation sorted (rows_of customer_id db))
    by apply order_by_desc_Permutation.
  split; [|split; [|split; [|split]]].
  - run_service. destruct (get_by_id_present _ _ Hc) as [c ->]. reflexivity.
  - rewrite (calculate_debt_present _ _ Hc). apply get_customer_balance_run.
  - intros type. rewrite history_amounts_of_rows. unfold amounts_of.
    apply Permutation_map, Permutation_filter_bool, Hperm.
  - reflexivity.
  - rewrite Forall_map, Forall_forall. intros row Hin.
    apply (Permutation_in _ Hperm) in Hin.
    unfold rows_of in Hin. apply filter_In in Hin.
    destruct Hin as [_ Hid]. apply Z.eqb_eq in Hid. exact Hid.
Qed.

(** The scenario after its loan and its payment: a history of one payment
    of 200000 and one loan of 500000, a debt of 300000. *)
Lemma history_and_debt_read_the_same_rows_witness :
  customer_exists 1 scenario_db_two = true
  /\ exists history debt,
       DebtService.get_customer_history 1 scenario_db_two
       = (Returned history, scenario_db_two)
       /\ DebtService.calculate_debt 1 scenario_db_two
          = (Returned debt, scenario_db_two)
       /\ Permutation (history_amounts CHO_VAY history) [500000%float]
       /\ Permutation (history_amounts THU_NO history) [200000%float]
       /\ debt = 300000%float.
Proof.
  assert (Hc : customer_exists 1 scenario_db_two = true) by reflexivity.
  split; [exact Hc|].
  destruct (history_and_debt_read_the_same_rows 1 scenario_db_two Hc)
    as (history & debt & H1 & H2 & H3 & H4 & _).
  exists history, debt. split; [exact H1|]. split; [exact H2|].
  split; [exact (H3 CHO_VAY)|]. split; [exact (H3 THU_NO)|].
  rewrite H4. reflexivity.
Defined.

Lemma total_with_row_other other type row db :
  t_customer_id row <> other ->
  TransactionRepository.total other type (with_row row db)
  = TransactionRepository.total other type db.
Proof.
  intros Hne. unfold TransactionRepository.total, with_row. simpl.
  rewrite filter_app. simpl.
  assert (E : (t_customer_id row =? other) = false)
    by (apply Z.eqb_neq; exact Hne).
  rewrite E. simpl. rewrite app_nil_r. reflexivity.
Qed.

Lemma rows_of_with_row_other other row db :
  t_customer_id row <> other ->
  rows_of other (with_row row db) = rows_of other db.
Proof.
  intros Hne. unfold rows_of, with_row. simpl. rewrite filter_app. simpl.
  assert (E : (t_customer_id row =? other) = false)
    by (apply Z.eqb_neq; exact Hne).
  rewrite E. apply app_nil_r.
Qed.

(** X5.  A loan or a payment of one customer, accepted or rejected, leaves
    the transaction rows and the balance of every other customer as they
    were. *)
Theorem other_customers_are_untouched
  (customer_id other : Z) (amount : float) (note now : string)
  (db : Database) :
  other <> customer_id ->
  (rows_of other (snd (DebtService.add_loan customer_id amount note now db))
   = rows_of other db
   /\ fst (TransactionRepository.get_customer_balance
             other (snd (DebtService.add_loan customer_id amount note now db)))
      = fst (TransactionRepository.get_customer_balance other db))
  /\ (rows_of other
              (snd (DebtService.add_payment customer_id amount note now db))
      = rows_of other db
      /\ fst (TransactionRepository.get_customer_balance
                other
                (snd (DebtService.add_payment customer_id amount note now db)))
         = fst (TransactionRepository.get_customer_balance other db)).
Proof.
  intros Hne. split.
  - destruct (add_loan_cases customer_id amount note now db) as [->|[_ ->]];
      [split; reflexivity|].
    split; [apply rows_of_with_row_other; simpl; congruence|].
    simpl. rewrite !total_with_row_other by (simpl; congruence). reflexivity.
  - destruct (add_payment_cases customer_id amount note now db) as [->|[_ ->]];
      [split; reflexivity|].
    split; [apply rows_of_with_row_other; simpl; congruence|].
    simpl. rewrite !total_with_row_other by (simpl; congruence). reflexivity.
Qed.

(** Customer 1 holds a loan and a payment and owes 300000; a loan of 70000
    and a payment of 30000 of customer 2 are accepted, and the two rows and
    the balance of customer 1 are as before. *)
Lemma other_customers_are_untouched_witness :
  1 <> 2
  /\ map t_id (rows_of 1 scenario_db_two) = [1; 2]
  /\ fst (TransactionRepository.get_customer_balance 1 scenario_db_two)
     = Returned 300000%float
  /\ map t_customer_id
         (transactions
            (snd (DebtService.add_loan 2 70000 "" "2024-01-05T09:00:00"
                                       scenario_db_two)))
     = [1; 1; 2]
  /\ rows_of 1 (snd (DebtService.add_loan 2 70000 "" "2024-01-05T09:00:00"
                                          scenario_db_two))
     = rows_of 1 scenario_db_two
  /\ fst (TransactionRepository.get_customer_balance
            1 (snd (DebtService.add_loan 2 70000 "" "2024-01-05T09:00:00"
                                         scenario_db_two)))
     = Returned 300000%float
  /\ rows_of 1 (snd (DebtService.add_payment 2 30000 "" "2024-01-05T09:00:00"
                                             scenario_db_two))
     = rows_of 1 scenario_db_two
  /\ fst (TransactionRepository.get_customer_balance
            1 (snd (DebtService.add_payment 2 30000 "" "2024-01-05T09:00:00"
                                            scenario_db_two)))
     = Returned 300000%float.
Proof.
  assert (Hne : 1 <> 2) by lia.
  split; [exact Hne|]. split; [reflexivity|]. split; [reflexivity|].
  split; [reflexivity|].
  destruct (other_customers_are_untouched
              2 1 70000 "" "2024-01-05T09:00:00" scenario_db_two Hne)
    as [[Hrows Hbal] _].
  destruct (other_customers_are_untouched
              2 1 30000 "" "2024-01-05T09:00:00" scenario_db_two Hne)
    as [_ [Hrows' Hbal']].
  split; [exact Hrows|]. split; [rewrite Hbal; reflexivity|].
  split; [exact Hrows'|]. rewrite Hbal'. reflexivity.
Defined.

(** X6.  [add_loan] for an existing customer with a positive amount returns
    a [CHO_VAY] transaction that carries a new id, and the debt of the
    customer afterwards is the loans summed, the new amount added last,
    minus the payments summed. *)
Theorem add_loan_raises_debt
  (customer_id : Z) (amount : float) (note now : string) (db : Database) :
  customer_exists customer_id db = true ->
  positive amount ->
  exists transaction db',
    DebtService.add_loan customer_id amount note now db
    = (Returned transaction, db')
    /\ Transaction.transaction_type transaction = CHO_VAY
    /\ Transaction.id transaction = Some (new_transaction_id db)
    /\ amounts_of CHO_VAY customer_id db'
       = (amounts_of CHO_VAY customer_id db ++ [amount])%list
    /\ amounts_of THU_NO customer_id db' = amounts_of THU_NO customer_id db
    /\ DebtService.calculate_debt customer_id db'
       = (Returned
            (PrimFloat.sub
               (summed (amounts_of CHO_VAY customer_id db ++ [amount]))
               (summed (amounts_of THU_NO customer_id db))),
          db').
Proof.
  intros Hc Ha.
  set (row := appended_row CHO_VAY customer_id amount note now db).
  exists (created_transaction CHO_VAY customer_id amount note now db),
         (with_row row db).
  assert (Hl : amounts_of CHO_VAY customer_id (with_row row db)
               = (amounts_of CHO_VAY customer_id db ++ [amount])%list).
  { rewrite amounts_of_with_row. subst row. simpl.
    rewrite Z.eqb_refl. reflexivity. }
  assert (Hp : amounts_of THU_NO customer_id (with_row row db)
               = amounts_of THU_NO customer_id db).
  { rewrite amounts_of_with_row. subst row. simpl.
    rewrite Z.eqb_refl. simpl. apply app_nil_r. }
  split; [apply add_loan_ok; assumption|].
  split; [reflexivity|]. split; [reflexivity|].
  split; [exact Hl|]. split; [exact Hp|].
  rewrite calculate_debt_present by exact Hc.
  rewrite get_customer_balance_run. unfold balance_of.
  rewrite Hl, Hp. reflexivity.
Qed.

(** The customer of the scenario owes 300000 after the first loan and
    payment; a second loan, of 150000, is row 3 and brings the debt to
    450000. *)
Lemma add_loan_raises_debt_witness :
  customer_exists 1 scenario_db_payment = true
  /\ positive 150000
  /\ exists transaction db',
       DebtService.add_loan 1 150000 "" "2024-01-05T09:00:00"
                            scenario_db_payment
       = (Returned transaction, db')
       /\ Transaction.id transaction = Some 3
       /\ amounts_of CHO_VAY 1 db' = [500000%float; 150000%float]
       /\ DebtService.calculate_debt 1 db' = (Returned 450000%float, db').
Proof.
  assert (Hc : customer_exists 1 scenario_db_payment = true) by reflexivity.
  assert (Ha : positive 150000) by reflexivity.
  split; [exact Hc|]. split; [exact Ha|].
  destruct (add_loan_raises_debt
              1 150000 "" "2024-01-05T09:00:00" scenario_db_payment Hc Ha)
    as (transaction & db' & Hrun & _ & Hid & Hl & _ & Hd).
  exists transaction, db'. split; [exact Hrun|].
  split; [rewrite Hid; reflexivity|].
  split; [rewrite Hl; reflexivity|].
  rewrite Hd. reflexivity.
Defined.

(** ** Deleting and updating rows *)

Lemma filter_all_true {A : Type} (f : A -> bool) (l : list A) :
  (forall x, In x l -> f x = true) -> filter f l = l.
Proof.
  induction l as [|x l IH]; simpl; intros H; [reflexivity|].
  rewrite (H x (or_introl eq_refl)). f_equal. apply IH.
  intros y Hy. apply H. auto.
Qed.

(** X7.  In a well-formed store, deleting a transaction by its id returns
    [True], removes that row and no other, keeps the other rows in their
    order, and leaves the customers and the counters alone; the balance of
    the row's customer is afterwards computed from the rows that remain, and
    the rows of the other customers are as before. *)
Theorem transaction_delete_removes_one_row
  (row : transactions_row) (before after : list transactions_row)
  (db : Database) :
  well_formed db ->
  transactions db = (before ++ row :: after)%list ->
  exists db',
    TransactionRepository.delete (t_id row) db = (Returned true, db')
    /\ customers db' = customers db
    /\ customers_seq db' = customers_seq db
    /\ transactions_seq db' = transactions_seq db
    /\ transactions db' = (before ++ after)%list
    /\ ~ In row (transactions db')
    /\ (forall other, other <> t_customer_id row ->
                      rows_of other db' = rows_of other db)
    /\ TransactionRepository.get_customer_balance (t_customer_id row) db'
       = (Returned
            (PrimFloat.sub
               (summed (amounts_of CHO_VAY (t_customer_id row) db'))
               (summed (amounts_of THU_NO (t_customer_id row) db'))),
          db').
Proof.
  intros Hwf Hrows. rewrite transaction_delete_run.
  pose proof (wf_transaction_ids db Hwf) as Hnd.
  rewrite Hrows, map_app in Hnd. simpl in Hnd.
  apply NoDup_remove_2 in Hnd. rewrite <- map_app in Hnd.
  assert (Hkeep : filter (fun r => negb (t_id r =? t_id row))
                         (before ++ after) = (before ++ after)%list).
  { apply filter_all_true. intros r Hr.
    apply negb_true_iff, Z.eqb_neq. intros He. apply Hnd.
    rewrite <- He. apply in_map. exact Hr. }
  assert (Hfilter : filter (fun r => negb (t_id r =? t_id row))
                           (transactions db) = (before ++ after)%list).
  { rewrite Hrows, filter_app. simpl. rewrite Z.eqb_refl. simpl.
    rewrite <- filter_app. exact Hkeep. }
  assert (Hex : existsb (fun r => t_id r =? t_id row) (transactions db) = true).
  { apply existsb_exists. exists row. split; [|apply Z.eqb_refl].
    rewrite Hrows. apply in_elt. }
  rewrite Hex, Hfilter.
  eexists. split; [reflexivity|]. simpl.
  split; [reflexivity|]. split; [reflexivity|]. split; [reflexivity|].
  split; [reflexivity|]. split; [|split].
  - intros Hin. apply Hnd. apply in_map. exact Hin.
  - intros other Hne. unfold rows_of. simpl. rewrite Hrows, !filter_app. simpl.
    assert (E : (t_customer_id row =? other) = false)
      by (apply Z.eqb_neq; congruence).
    rewrite E. reflexivity.
  - apply get_customer_balance_run.
Qed.

(** On the store with two customers: deleting the loan of 500000, row 1,
    leaves the payment of 200000, row 2, and customer 1 at -200000. *)
Lemma transaction_delete_removes_one_row_witness :
  well_formed scenario_db_two
  /\ transactions scenario_db_two
     = ([] ++ {| t_id := 1;
                 t_customer_id := 1;
                 t_amount := 500000;
                 t_transaction_type := CHO_VAY;
                 t_note := Some "xe may";
                 t_created_at := "2024-01-02T09:00:00" |}
           :: [ {| t_id := 2;
                   t_customer_id := 1;
                   t_amount := 200000;
                   t_transaction_type := THU_NO;
                   t_note := Some "tra gop";
                   t_created_at := "2024-01-03T09:00:00" |} ])%list
  /\ TransactionRepository.get_customer_balance 1 scenario_db_two
     = (Returned 300000%float, scenario_db_two)
  /\ exists db',
       TransactionRepository.delete 1 scenario_db_two = (Returned true, db')
       /\ map t_id (transactions db') = [2]
       /\ TransactionRepository.get_customer_balance 1 db'
          = (Returned (-200000)%float, db').
Proof.
  assert (Hwf : well_formed scenario_db_two)
    by exact well_formed_scenario_db_two.
  split; [exact Hwf|]. split; [reflexivity|]. split; [reflexivity|].
  destruct (transaction_delete_removes_one_row
              {| t_id := 1;
                 t_customer_id := 1;
                 t_amount := 500000;
                 t_transaction_type := CHO_VAY;
                 t_note := Some "xe may";
                 t_created_at := "2024-01-02T09:00:00" |}
              []
              [ {| t_id := 2;
                   t_customer_id := 1;
                   t_amount := 200000;
                   t_transaction_type := THU_NO;
                   t_note := Some "tra gop";
                   t_created_at := "2024-01-03T09:00:00" |} ]
              scenario_db_two Hwf eq_refl)
    as (db' & Hrun & _ & _ & _ & Hrows & _ & _ & Hbal).
  exists db'. split; [exact Hrun|]. split; [rewrite Hrows; reflexivity|].
  simpl in Hbal. rewrite Hbal. unfold amounts_of, rows_of.
  rewrite Hrows. reflexivity.
Defined.

Lemma map_unchanged {A : Type} (g : A -> A) (l : list A) :
  (forall x, In x l -> g x = x) -> map g l = l.
Proof.
  induction l as [|x l IH]; simpl; intros H; [reflexivity|].
  rewrite (H x (or_introl eq_refl)). f_equal. apply IH.
  intros y Hy. apply H. auto.
Qed.




Lemma find_map_same_key {A : Type} (f : A -> bool) (g : A -> A) (l : list A) :
  (forall x, f (g x) = f x) ->
  find f (map g l) = option_map g (find f l).
Proof.
  intros H. induction l as [|x l IH]; simpl; [reflexivity|].
  rewrite H. destruct (f x); [reflexivity | exact IH].
Qed.

(** X9.  [update] followed by [get_by_id]: for a customer whose id is in
    the table, [update] returns [True] and [get_by_id] then returns the
    name, phone and address that were passed to [update], under the same id
    and with the [created_at] the customer had before, whatever
    [created_at] the updating object carries. *)
Theorem update_then_get_by_id
  (customer : Customer.t) (id : Z) (db : Database) :
  Customer.id customer = Some id ->
  customer_exists id db = true ->
  exists old db',
    CustomerRepository.get_by_id id db = (Returned (Some old), db)
    /\ CustomerRepository.update customer db = (Returned true, db')
    /\ CustomerRepository.get_by_id id db'
       = (Returned (Some {| Customer.name := Customer.name customer;
                            Customer.phone := Customer.phone customer;
                            Customer.address := Customer.address customer;
                            Customer.id := Some id;
                            Customer.created_at := Customer.created_at old |}),
          db').
Proof.
  intros Hid Hc.
  assert (Hfind : exists row,
             find (fun r => c_id r =? id) (customers db) = Some row).
  { unfold customer_exists in Hc. apply existsb_exists in Hc.
    destruct Hc as (row & Hin & Hrow).
    destruct (find _ _) as [row'|] eqn:F; [eauto|].
    apply (find_none _ _ F) in Hin. congruence. }
  destruct Hfind as [row Hfind].
  assert (Hrow : c_id row = id).
  { apply find_some in Hfind. apply Z.eqb_eq. tauto. }
  exists (CustomerRepository.of_row row). eexists.
  split; [rewrite get_by_id_run, Hfind; reflexivity|].
  split.
  - rewrite update_run. f_equal. f_equal. apply existsb_exists.
    apply find_some in Hfind. exists row. split; [tauto|].
    apply matches_iff. congruence.
  - rewrite get_by_id_run. simpl.
    rewrite find_map_same_key.
    + rewrite Hfind. simpl.
      assert (Hm : CustomerRepository.matches (Customer.id customer) row = true)
        by (apply matches_iff; congruence).
      rewrite Hm. unfold CustomerRepository.of_row. simpl.
      rewrite Hrow. reflexivity.
    + intros r. destruct (CustomerRepository.matches _ r); reflexivity.
Qed.

Lemma update_then_get_by_id_witness :
  customer_exists 1 scenario_db_payment = true
  /\ exists db',
       CustomerRepository.update
         {| Customer.name := "An Nguyen";
            Customer.phone := "0909";
            Customer.address := "Da Nang";
            Customer.id := Some 1;
            Customer.created_at := "2030-12-31T00:00:00" |}
         scenario_db_payment
       = (Returned true, db')
       /\ CustomerRepository.get_by_id 1 db'
          = (Returned (Some {| Customer.name := "An Nguyen";
                               Customer.phone := "0909";
                               Customer.address := "Da Nang";
                               Customer.id := Some 1;
                               Customer.created_at := "2024-01-01T08:00:00" |}),
             db').
Proof.
  assert (Hc : customer_exists 1 scenario_db_payment = true) by reflexivity.
  split; [exact Hc|].
  destruct (update_then_get_by_id
              {| Customer.name := "An Nguyen";
                 Customer.phone := "0909";
                 Customer.address := "Da Nang";
                 Customer.id := Some 1;
                 Customer.created_at := "2030-12-31T00:00:00" |}
              1 scenario_db_payment eq_refl Hc)
    as (old & db' & Hold & Hrun & Hget).
  exists db'. split; [exact Hrun|].
  rewrite Hget. vm_compute in Hold. injection Hold as <-. reflexivity.
Defined.

(** ** Listing rows *)

(** X10.  [get_all] of either repository reads the database without
    changing it and returns one object for every row of its table and for
    nothing else, ordered by [created_at] from the most recent to the
    oldest; every object shows the id and the other columns of its row, a
    [NULL] text read as the empty string.  The controller hands the customer
    list on with the success flag and an empty message. *)
Theorem get_all_lists_every_row_newest_first (db : Database) :
  (exists rows customers_list,
      CustomerRepository.get_all db = (Returned customers_list, db)
      /\ CustomerController.get_all_customers db
         = (Returned (true, "", customers_list), db)
      /\ Permutation rows (customers db)
      /\ StronglySorted (desc c_created_at) rows
      /\ Forall2 shows_customer rows customers_list)
  /\ (exists rows transactions_list,
         TransactionRepository.get_all db = (Returned transactions_list, db)
         /\ Permutation rows (transactions db)
         /\ StronglySorted (desc t_created_at) rows
         /\ Forall2 shows_transaction rows transactions_list).
Proof.
  split.
  - exists (Sql.order_by_desc c_created_at (customers db)),
           (map CustomerRepository.of_row
              (Sql.order_by_desc c_created_at (customers db))).
    split; [reflexivity|]. split; [reflexivity|]. split; [|split].
    + apply order_by_desc_Permutation.
    + apply order_by_desc_sorted.
    + apply Forall2_map_r, of_row_shows_customer.
  - exists (Sql.order_by_desc t_created_at (transactions db)),
           (map TransactionRepository.of_row
              (Sql.order_by_desc t_created_at (transactions db))).
    split; [reflexivity|]. split; [|split].
    + apply order_by_desc_Permutation.
    + apply order_by_desc_sorted.
    + apply Forall2_map_r, of_row_shows_transaction.
Qed.

(** The store with two customers, a loan and a payment: each list starts
    with the row that was inserted last. *)
Lemma get_all_lists_every_row_newest_first_witness :
  (exists rows customers_list,
      CustomerRepository.get_all scenario_db_two
      = (Returned customers_list, scenario_db_two)
      /\ Forall2 shows_customer rows customers_list
      /\ customers_list
         = [ {| Customer.name := "Binh";
                Customer.phone := "0912";
                Customer.address := "Hue";
                Customer.id := Some 2;
                Customer.created_at := "2024-01-03T12:00:00" |};
             {| Customer.name := "An";
                Customer.phone := "";
                Customer.address := "";
                Customer.id := Some 1;
                Customer.created_at := "2024-01-01T08:00:00" |} ])
  /\ (exists rows transactions_list,
         TransactionRepository.get_all scenario_db_two
         = (Returned transactions_list, scenario_db_two)
         /\ Forall2 shows_transaction rows transactions_list
         /\ transactions_list
            = [ {| Transaction.customer_id := 1;
                   Transaction.amount := 200000;
                   Transaction.transaction_type := THU_NO;
                   Transaction.note := "tra gop";
                   Transaction.id := Some 2;
                   Transaction.created_at := "2024-01-03T09:00:00" |};
                {| Transaction.customer_id := 1;
                   Transaction.amount := 500000;
                   Transaction.transaction_type := CHO_VAY;
                   Transaction.note := "xe may";
                   Transaction.id := Some 1;
                   Transaction.created_at := "2024-01-02T09:00:00" |} ]).
Proof.
  destruct (get_all_lists_every_row_newest_first scenario_db_two)
    as [(crows & clist & Hc & _ & _ & _ & Hcs)
        (trows & tlist & Ht & _ & _ & Hts)].
  split.
  - exists crows, clist. split; [exact Hc|]. split; [exact Hcs|].
    vm_compute in Hc. injection Hc as <-. reflexivity.
  - exists trows, tlist. split; [exact Ht|]. split; [exact Hts|].
    vm_compute in Ht. injection Ht as <-. reflexivity.
Defined.

(** ** The totals of the status bar *)

Lemma get_customer_debt_present customer_id db :
  customer_exists customer_id db = true ->
  CustomerController.get_customer_debt customer_id db
  = (Returned (true, "", balance_of customer_id db), db).
Proof.
  intros Hc. run_controller.
  rewrite (calculate_debt_present _ _ Hc), get_customer_balance_run.
  reflexivity.
Qed.

Lemma add_debts_run db (rows : list customers_row) :
  (forall row, In row rows -> customer_exists (c_id row) db = true) ->
  forall acc,
    MainWindow.add_debts (map CustomerRepository.of_row rows) acc db
    = (Returned
         (running_sum acc (map (fun row => balance_of (c_id row) db) rows)),
       db).
Proof.
  induction rows as [|row rows IH]; intros Hex acc; simpl.
  - reflexivity.
  - unfold bind.
    rewrite (get_customer_debt_present _ _ (Hex row (or_introl eq_refl))).
    apply (IH (fun r Hr => Hex r (or_intror Hr))).
Qed.

(** X11.  [update_status_bar] shows the number of customer rows and, as
    total debt, the running sum, from 0, of the debts of all customers taken
    from the most recently created to the oldest, the debt of a customer
    being its loans summed minus its payments summed: every customer's debt
    is found and added once. *)
Theorem status_bar_adds_up_the_debts (db : Database) :
  exists rows,
    Permutation rows (customers db)
    /\ StronglySorted (desc c_created_at) rows
    /\ MainWindow.update_status_bar db
       = (Returned
            (MainWindow.totals
               (Z.of_nat (length (customers db)))
               (float_sum (map (fun row => balance_of (c_id row) db) rows))),
          db).
Proof.
  set (sorted := Sql.order_by_desc c_created_at (customers db)).
  assert (Hperm : Permutation sorted (customers db))
    by apply order_by_desc_Permutation.
  assert (Hex : forall row, In row sorted ->
                            customer_exists (c_id row) db = true).
  { intros row Hin. apply (Permutation_in _ Hperm) in Hin.
    apply customer_exists_In, in_map. exact Hin. }
  exists sorted. split; [exact Hperm|].
  split; [apply order_by_desc_sorted|].
  pose proof (add_debts_run db sorted Hex 0%float) as Hrun.
  unfold MainWindow.update_status_bar, try_except, bind,
         CustomerController.get_all_customers, CustomerRepository.get_all,
         get_db, ret.
  simpl. fold sorted. rewrite Hrun.
  rewrite length_map, (Permutation_length Hperm). reflexivity.
Qed.

(** Customer 1 owes 300000 and customer 2, after a loan of 70000, owes
    70000: two customers and a total of 370000. *)
Lemma status_bar_adds_up_the_debts_witness :
  exists db,
    DebtService.add_loan 2 70000 "" "2024-01-05T09:00:00" scenario_db_two
    = (Returned {| Transaction.customer_id := 2;
                   Transaction.amount := 70000;
                   Transaction.transaction_type := CHO_VAY;
                   Transaction.note := "";
                   Transaction.id := Some 3;
                   Transaction.created_at := "2024-01-05T09:00:00" |}, db)
    /\ (exists rows,
          Permutation rows (customers db)
          /\ MainWindow.update_status_bar db
             = (Returned
                  (MainWindow.totals
                     (Z.of_nat (length (customers db)))
                     (float_sum (map (fun row => balance_of (c_id row) db)
                                     rows))), db))
    /\ (exists customers_list,
          CustomerRepository.get_all db = (Returned customers_list, db)
          /\ map Customer.id customers_list = [Some 2; Some 1])
    /\ balance_of 2 db = 70000%float
    /\ balance_of 1 db = 300000%float
    /\ MainWindow.update_status_bar db
       = (Returned (MainWindow.totals 2 370000), db).
Proof.
  exists (snd (DebtService.add_loan 2 70000 "" "2024-01-05T09:00:00"
                                    scenario_db_two)).
  split; [reflexivity|].
  destruct (status_bar_adds_up_the_debts
              (snd (DebtService.add_loan 2 70000 "" "2024-01-05T09:00:00"
                                         scenario_db_two)))
    as (rows & Hperm & _ & Hrun).
  split; [exists rows; split; [exact Hperm | exact Hrun]|].
  split; [eexists; split; vm_compute; reflexivity|].
  repeat split; vm_compute; reflexivity.
Defined.

(** ** Schema migrations *)

Lemma max_version_bound (rows : list Migrations.version_row) (m : Z) :
  Migrations.max_version rows = Some m ->
  Forall (fun row => Migrations.v_version row <= m) rows.
Proof.
  revert m. induction rows as [|row rows IH]; simpl; intros m H;
    [constructor|].
  destruct (Migrations.max_version rows) as [m'|] eqn:E.
  - injection H as <-. constructor; [lia|].
    eapply Forall_impl; [|exact (IH m' eq_refl)]. simpl. intros; lia.
  - injection H as <-. destruct rows; [|simpl in E;
      destruct (Migrations.max_version rows); discriminate].
    constructor; [lia | constructor].
Qed.

Lemma max_version_snoc (rows : list Migrations.version_row)
      (row : Migrations.version_row) :
  Migrations.max_version (rows ++ [row])
  = Some (match Migrations.max_version rows with
          | Some m => Z.max m (Migrations.v_version row)
          | None => Migrations.v_version row
          end).
Proof.
  induction rows as [|r rows IH]; simpl; [reflexivity|].
  rewrite IH. destruct (Migrations.max_version rows); f_equal; lia.
Qed.

(** A file whose version table records version 1 or more is left as it is. *)
Lemma run_migrations_up_to_date now f rows :
  Migrations.schema_version f = Some rows ->
  1 <= Migrations.recorded_version f ->
  Migrations.run_migrations now f = (Migrations.Ok tt, f).
Proof.
  intros Hrows Hv.
  assert (Hf : Migrations._ensure_version_table f = f).
  { destruct f as [sv cs ts c1 c2]; simpl in *. subst sv. reflexivity. }
  unfold Migrations.run_migrations, Migrations.apply_migrations. rewrite Hf.
  unfold Migrations.recorded_version in Hv.
  unfold Migrations.get_current_version. rewrite Hrows in *.
  destruct (Migrations.max_version rows) as [m|]; [|lia].
  simpl. destruct (Z.gtb_spec 1 m); [lia|].
  rewrite Hrows. destruct (Migrations.max_version rows); reflexivity.
Qed.

(** X12.  [run_migrations] returns normally on every file.  A file that
    records version 1 or more is left as it is.  On any other file the
    version table and the two ledger tables are created where they are
    missing, tables that exist keep their rows, and version 1 is recorded;
    on a file without tables the ledger that results is the empty schema.
    Afterwards [get_current_version] is the larger of the version recorded
    before and 1. *)
Theorem run_migrations_installs_the_schema
  (now : string) (f : Migrations.File) :
  exists f',
    Migrations.run_migrations now f = (Migrations.Ok tt, f')
    /\ Migrations.get_current_version f'
       = Migrations.Ok (Z.max (Migrations.recorded_version f) 1)
    /\ (1 <= Migrations.recorded_version f ->
        f' = Migrations._ensure_version_table f)
    /\ (Migrations.recorded_version f < 1 ->
        f' = snd (Migrations._migration_1_initial_schema
                    now (Migrations._ensure_version_table f))
        /\ Migrations.customers_table f'
           = Migrations.create_if_not_exists (Migrations.customers_table f)
        /\ Migrations.transactions_table f'
           = Migrations.create_if_not_exists (Migrations.transactions_table f))
    /\ (forall rows, Migrations.customers_table f = Some rows ->
                     Migrations.customers_table f' = Some rows)
    /\ (forall rows, Migrations.transactions_table f = Some rows ->
                     Migrations.transactions_table f' = Some rows)
    /\ (f = Migrations.empty_file ->
        Migrations.ledger f' = Some init_schema).
Proof.
  destruct f as [sv cs ts c1 c2].
  unfold Migrations.run_migrations, Migrations.apply_migrations,
         Migrations.get_current_version, Migrations.recorded_version,
         Migrations._ensure_version_table.
  simpl.
  set (rows := match sv with Some r => r | None => [] end).
  assert (Hsv : Migrations.create_if_not_exists sv = Some rows)
    by (destruct sv; reflexivity).
  assert (Hrec : match sv with
                 | Some r => match Migrations.max_version r with
                             | Some v => v
                             | None => 0
                             end
                 | None => 0
                 end
                 = match Migrations.max_version rows with
                   | Some v => v
                   | None => 0
                   end)
    by (destruct sv; reflexivity).
  rewrite Hsv, Hrec. clear Hrec.
  assert (Hnone : sv = None -> rows = []) by (intros ->; reflexivity).
  clearbody rows.
  destruct (Migrations.max_version rows) as [m|] eqn:Em.
  - simpl. destruct (Z.gtb_spec 1 m) as [Hlt|Hge].
    + (* version below 1: migration 1 runs *)
      unfold Migrations._migration_1_initial_schema,
             Migrations._record_migration, Migrations.init_schema. simpl.
      assert (Hnew : existsb (fun row => Migrations.v_version row =? 1) rows
                     = false).
      { destruct (existsb _ rows) eqn:E; [|reflexivity].
        apply existsb_exists in E. destruct E as (row & Hin & Hrow).
        apply Z.eqb_eq in Hrow.
        pose proof (max_version_bound rows m Em) as Hb.
        rewrite Forall_forall in Hb. specialize (Hb row Hin). lia. }
      rewrite Hnew. simpl. rewrite max_version_snoc.
      eexists. split; [reflexivity|]. simpl.
      rewrite max_version_snoc, Em. simpl.
      split; [f_equal; lia|]. split; [lia|].
      split; [intros _; repeat split|].
      split; [intros r ->; reflexivity|].
      split; [intros r ->; reflexivity|].
      intros H. injection H as -> -> -> -> ->.
      rewrite (Hnone eq_refl) in Em. discriminate.
    + simpl. rewrite Em. eexists. split; [reflexivity|]. simpl.
      rewrite Em. split; [f_equal; lia|].
      split; [intros _; reflexivity|]. split; [lia|].
      split; [tauto|]. split; [tauto|].
      intros H. injection H as -> -> -> -> ->.
      rewrite (Hnone eq_refl) in Em. discriminate.
  - (* no version recorded: migration 1 runs *)
    assert (Hnil : rows = []).
    { destruct rows as [|r rows']; [reflexivity|]. simpl in Em.
      destruct (Migrations.max_version rows'); discriminate. }
    subst rows. simpl.
    eexists. split; [reflexivity|]. simpl.
    split; [reflexivity|]. split; [lia|].
    split; [intros _; repeat split|].
    split; [intros r ->; reflexivity|].
    split; [intros r ->; reflexivity|].
    intros H. injection H as -> -> -> -> ->. reflexivity.
Qed.

Lemma run_migrations_installs_the_schema_witness :
  Migrations.recorded_version Migrations.empty_file < 1
  /\ exists f',
       Migrations.run_migrations "2024-01-01 08:00:00" Migrations.empty_file
       = (Migrations.Ok tt, f')
       /\ Migrations.get_current_version f' = Migrations.Ok 1
       /\ Migrations.ledger f' = Some init_schema.
Proof.
  split; [reflexivity|].
  destruct (run_migrations_installs_the_schema
              "2024-01-01 08:00:00" Migrations.empty_file)
    as (f' & Hrun & Hv & _ & _ & _ & _ & Hledger).
  exists f'. split; [exact Hrun|]. split; [exact Hv|].
  exact (Hledger eq_refl).
Defined.

(** X13.  [run_migrations] is idempotent: a second run, at any later time,
    returns normally and leaves the file exactly as the first run left it;
    no table is emptied and no version is recorded twice. *)
Theorem run_migrations_is_idempotent
  (now later : string) (f : Migrations.File) :
  Migrations.run_migrations
    later (snd (Migrations.run_migrations now f))
  = (Migrations.Ok tt, snd (Migrations.run_migrations now f)).
Proof.
  destruct (run_migrations_installs_the_schema now f)
    as (f' & Hrun & Hv & _).
  rewrite Hrun. simpl.
  unfold Migrations.get_current_version in Hv.
  destruct (Migrations.schema_version f') as [rows|] eqn:Hrows;
    [|discriminate].
  apply run_migrations_up_to_date with (rows := rows); [exact Hrows|].
  unfold Migrations.recorded_version. rewrite Hrows.
  destruct (Migrations.max_version rows); injection Hv as Hv; lia.
Qed.

(** X14.  [_record_migration] treats the version as a key.  A version
    that the table already holds is refused with an [IntegrityError] and
    the file is left as it was.  A new version is appended; the ledger
    tables are not touched, [get_current_version] becomes the largest
    version recorded, and recording the same version again is refused. *)
Theorem record_migration_keeps_versions_unique
  (version : Z) (description now : string) (f : Migrations.File)
  (rows : list Migrations.version_row) :
  Migrations.schema_version f = Some rows ->
  (In version (map Migrations.v_version rows) ->
   Migrations._record_migration version description now f
   = (Migrations.Raise
        (Migrations.IntegrityError
           "UNIQUE constraint failed: schema_version.version"), f))
  /\ (~ In version (map Migrations.v_version rows) ->
      exists f',
        Migrations._record_migration version description now f
        = (Migrations.Ok tt, f')
        /\ Migrations.customers_table f' = Migrations.customers_table f
        /\ Migrations.transactions_table f' = Migrations.transactions_table f
        /\ Migrations.get_current_version f'
           = Migrations.Ok (match Migrations.max_version rows with
                            | Some m => Z.max m version
                            | None => version
                            end)
        /\ forall description' later,
             Migrations._record_migration version description' later f'
             = (Migrations.Raise
                  (Migrations.IntegrityError
                     "UNIQUE constraint failed: schema_version.version"), f')).
Proof.
  intros Hrows. unfold Migrations._record_migration. rewrite Hrows.
  split.
  - intros Hin.
    assert (E : existsb (fun row => Migrations.v_version row =? version) rows
                = true).
    { apply in_map_iff in Hin. destruct Hin as (row & Hv & Hin).
      apply existsb_exists. exists row. split; [exact Hin|].
      apply Z.eqb_eq. exact Hv. }
    rewrite E. reflexivity.
  - intros Hnot.
    assert (E : existsb (fun row => Migrations.v_version row =? version) rows
                = false).
    { destruct (existsb _ rows) eqn:E; [|reflexivity].
      apply existsb_exists in E. destruct E as (row & Hin & Hv).
      apply Z.eqb_eq in Hv. elim Hnot. apply in_map_iff. eauto. }
    rewrite E. eexists. split; [reflexivity|]. simpl.
    split; [reflexivity|]. split; [reflexivity|]. split.
    + unfold Migrations.get_current_version. simpl.
      rewrite max_version_snoc. reflexivity.
    + intros description' later.
      rewrite existsb_app. simpl. rewrite Z.eqb_refl, orb_true_r.
      reflexivity.
Qed.

Lemma record_migration_keeps_versions_unique_witness :
  Migrations.schema_version
    (snd (Migrations.run_migrations "2024-01-01 08:00:00"
                                    Migrations.empty_file))
  = Some [ {| Migrations.v_version := 1;
              Migrations.v_applied_at := "2024-01-01 08:00:00";
              Migrations.v_description :=
                Some "Initial schema - customers and transactions tables" |} ]
  /\ In 1 [1]
  /\ ~ In 2 [1]
  /\ fst (Migrations._record_migration
            1 "again" "2024-02-01 08:00:00"
            (snd (Migrations.run_migrations "2024-01-01 08:00:00"
                                            Migrations.empty_file)))
     = Migrations.Raise
         (Migrations.IntegrityError
            "UNIQUE constraint failed: schema_version.version")
  /\ exists f',
       Migrations._record_migration
         2 "next" "2024-02-01 08:00:00"
         (snd (Migrations.run_migrations "2024-01-01 08:00:00"
                                         Migrations.empty_file))
       = (Migrations.Ok tt, f')
       /\ Migrations.get_current_version f' = Migrations.Ok 2.
Proof.
  assert (Hrows : Migrations.schema_version
                    (snd (Migrations.run_migrations "2024-01-01 08:00:00"
                                                    Migrations.empty_file))
                  = Some [ {| Migrations.v_version := 1;
                              Migrations.v_applied_at := "2024-01-01 08:00:00";
                              Migrations.v_description :=
                                Some "Initial schema - customers and transactions tables" |} ])
    by reflexivity.
  assert (Hin : In 1 [1]) by (left; reflexivity).
  assert (Hnot : ~ In 2 [1]) by (simpl; lia).
  split; [exact Hrows|]. split; [exact Hin|]. split; [exact Hnot|]. split.
  - rewrite (proj1 (record_migration_keeps_versions_unique
                      1 "again" "2024-02-01 08:00:00" _ _ Hrows) Hin).
    reflexivity.
  - destruct (proj2 (record_migration_keeps_versions_unique
                       2 "next" "2024-02-01 08:00:00" _ _ Hrows) Hnot)
      as (f' & Hrun & _ & _ & Hv & _).
    exists f'. split; assumption.
Defined.

(** ** Retention of backups *)

Lemma insert_newest_first_Permutation (x : BackupService.file)
      (l : list BackupService.file) :
  Permutation (BackupService.insert_newest_first x l) (x :: l).
Proof.
  induction l as [|y l IH]; simpl.
  - apply Permutation_refl.
  - destruct (Qle_bool _ _).
    + apply Permutation_refl.
    + eapply perm_trans; [apply perm_skip, IH | apply perm_swap].
Qed.

Lemma sorted_newest_first_Permutation (l : list BackupService.file) :
  Permutation (BackupService.sorted_newest_first l) l.
Proof.
  induction l as [|x l IH]; simpl.
  - constructor.
  - eapply perm_trans; [apply insert_newest_first_Permutation|].
    apply perm_skip, IH.
Qed.

Lemma insert_newest_first_sorted (x : BackupService.file)
      (l : list BackupService.file) :
  StronglySorted BackupService.newer_or_equal l ->
  StronglySorted BackupService.newer_or_equal
                 (BackupService.insert_newest_first x l).
Proof.
  induction 1 as [|y l Hs IH Hy]; simpl.
  - constructor; constructor.
  - destruct (Qle_bool (BackupService.st_mtime y) (BackupService.st_mtime x))
      eqn:E.
    + apply Qle_bool_iff in E.
      constructor; [constructor; assumption|].
      constructor; [exact E|].
      eapply Forall_impl; [|exact Hy].
      intros z Hz. unfold BackupService.newer_or_equal in *.
      eapply Qle_trans; eassumption.
    + constructor; [exact IH|].
      assert (Hyx : BackupService.newer_or_equal y x).
      { unfold BackupService.newer_or_equal.
        destruct (Qlt_le_dec (BackupService.st_mtime y)
                             (BackupService.st_mtime x)) as [Hlt|Hle];
          [|exact Hle].
        apply Qlt_le_weak, Qle_bool_iff in Hlt. congruence. }
      rewrite Forall_forall in *. intros z Hz.
      apply (Permutation_in _ (insert_newest_first_Permutation x l)) in Hz.
      destruct Hz as [<-|Hz]; [exact Hyx | apply Hy; exact Hz].
Qed.

Lemma sorted_newest_first_sorted (l : list BackupService.file) :
  StronglySorted BackupService.newer_or_equal
                 (BackupService.sorted_newest_first l).
Proof.
  induction l as [|x l IH]; simpl.
  - constructor.
  - apply insert_newest_first_sorted, IH.
Qed.

Lemma StronglySorted_app_cross {A : Type} (R : A -> A -> Prop)
      (l1 l2 : list A) :
  StronglySorted R (l1 ++ l2) ->
  forall x y, In x l1 -> In y l2 -> R x y.
Proof.
  induction l1 as [|a l1 IH]; simpl; intros Hs x y Hx Hy; [contradiction|].
  inversion Hs as [|? ? Hs' Ha]; subst.
  destruct Hx as [<-|Hx].
  - rewrite Forall_forall in Ha. apply Ha. apply in_or_app. right. exact Hy.
  - apply IH; assumption.
Qed.

(** The files that [unlink_each] has removed when it stops: the victims up
    to the first one that cannot be unlinked. *)
Lemma unlink_each_run (unlink_ok : string -> bool)
      (victims : list BackupService.file) :
  forall dir,
  exists gone rest,
    victims = (gone ++ rest)%list
    /\ BackupService.unlink_each unlink_ok victims dir
       = filter (fun f =>
                   negb (existsb (fun v => (BackupService.name f
                                            =? BackupService.name v)%string)
                                 gone))
                dir
    /\ ((forall v, In v victims ->
                   unlink_ok (BackupService.name v) = true) ->
        rest = []).
Proof.
  induction victims as [|v victims IH]; intros dir; simpl.
  - exists [], []. split; [reflexivity|]. split; [|reflexivity].
    simpl. symmetry. apply filter_all_true. reflexivity.
  - destruct (unlink_ok (BackupService.name v)) eqn:E.
    + destruct (IH (BackupService.unlink (BackupService.name v) dir))
        as (gone & rest & Hv & Hrun & Hall).
      exists (v :: gone), rest. split; [rewrite Hv; reflexivity|]. split.
      * rewrite Hrun. unfold BackupService.unlink.
        rewrite filter_filter_and. apply filter_ext. intros f. simpl.
        rewrite negb_orb. reflexivity.
      * intros Hok. apply Hall. intros w Hw. apply Hok. right. exact Hw.
    + exists [], (v :: victims). split; [reflexivity|]. split.
      * simpl. symmetry. apply filter_all_true. reflexivity.
      * intros Hok. rewrite (Hok v (or_introl eq_refl)) in E. discriminate.
Qed.

Lemma name_in_list (f : BackupService.file) (l : list BackupService.file) :
  existsb (fun v => (BackupService.name f =? BackupService.name v)%string) l
  = true
  <-> In (BackupService.name f) (map BackupService.name l).
Proof.
  rewrite existsb_exists, in_map_iff. split; intros (v & H1 & H2).
  - exists v. apply String.eqb_eq in H2. split; [congruence | exact H1].
  - exists v. split; [exact H2 | apply String.eqb_eq; congruence].
Qed.

Lemma same_name_same_file (dir : list BackupService.file)
      (f g : BackupService.file) :
  NoDup (map BackupService.name dir) ->
  In f dir -> In g dir -> BackupService.name f = BackupService.name g ->
  f = g.
Proof.
  induction dir as [|h dir IH]; simpl; intros Hnd Hf Hg Hn; [contradiction|].
  inversion Hnd as [|? ? Hh Hd]; subst.
  destruct Hf as [<-|Hf], Hg as [<-|Hg].
  - reflexivity.
  - elim Hh. rewrite Hn. apply in_map. exact Hg.
  - elim Hh. rewrite <- Hn. apply in_map. exact Hf.
  - apply IH; assumption.
Qed.

Lemma NoDup_app_disjoint {A : Type} (l1 l2 : list A) (x : A) :
  NoDup (l1 ++ l2) -> In x l1 -> In x l2 -> False.
Proof.
  induction l1 as [|a l1 IH]; simpl; intros Hnd H1 H2; [contradiction|].
  inversion Hnd as [|? ? Ha Hl]; subst.
  destruct H1 as [<-|H1].
  - apply Ha. apply in_or_app. right. exact H2.
  - apply IH; assumption.
Qed.

(** X15.  [_cleanup_old_backups] in a directory with unique names.  It
    creates nothing, never touches a file that is not a backup, and never
    removes one of the 30 newest backups; whatever it removes is no newer
    than any of those 30.  This holds also when an [unlink] fails and ends
    the loop early.  When every [unlink] succeeds, the backups left are
    exactly the 30 newest, so at most 30. *)
Theorem cleanup_keeps_the_newest_backups
  (unlink_ok : string -> bool) (dir : list BackupService.file) :
  NoDup (map BackupService.name dir) ->
  (forall f, In f (BackupService._cleanup_old_backups unlink_ok dir) ->
             In f dir)
  /\ (forall f, In f dir -> BackupService.is_backup (BackupService.name f) = false ->
                In f (BackupService._cleanup_old_backups unlink_ok dir))
  /\ (forall f,
         In f (firstn BackupService.max_backups
                      (BackupService.get_backup_list dir)) ->
         In f (BackupService._cleanup_old_backups unlink_ok dir))
  /\ (forall kept gone,
         In kept (firstn BackupService.max_backups
                         (BackupService.get_backup_list dir)) ->
         In gone dir ->
         ~ In gone (BackupService._cleanup_old_backups unlink_ok dir) ->
         BackupService.newer_or_equal kept gone)
  /\ ((forall file_name, unlink_ok file_name = true) ->
      Permutation
        (BackupService.glob
           (BackupService._cleanup_old_backups unlink_ok dir))
        (firstn BackupService.max_backups (BackupService.get_backup_list dir))
      /\ (length (BackupService.glob
                    (BackupService._cleanup_old_backups unlink_ok dir))
          <= BackupService.max_backups)%nat).
Proof.
  intros Hnames.
  unfold BackupService._cleanup_old_backups.
  set (S := BackupService.get_backup_list dir).
  set (K := firstn BackupService.max_backups S).
  set (V := skipn BackupService.max_backups S).
  assert (HS : S = (K ++ V)%list) by (symmetry; apply firstn_skipn).
  assert (Hperm : Permutation S (BackupService.glob dir))
    by apply sorted_newest_first_Permutation.
  assert (Hsorted : StronglySorted BackupService.newer_or_equal (K ++ V)%list)
    by (rewrite <- HS; apply sorted_newest_first_sorted).
  assert (HinS : forall f, In f S ->
                 In f dir /\ BackupService.is_backup (BackupService.name f)
                             = true).
  { intros f Hf. apply (Permutation_in _ Hperm) in Hf.
    apply filter_In in Hf. exact Hf. }
  assert (HndS : NoDup (K ++ V)%list).
  { rewrite <- HS. apply (Permutation_NoDup (Permutation_sym Hperm)).
    apply NoDup_filter. apply (NoDup_map_inv _ _ Hnames). }
  assert (HK : forall f, In f K -> In f S)
    by (intros f Hf; rewrite HS; apply in_or_app; left; exact Hf).
  assert (HV : forall f, In f V -> In f S)
    by (intros f Hf; rewrite HS; apply in_or_app; right; exact Hf).
  destruct (unlink_each_run unlink_ok V dir) as (gone & rest & HVg & Hrun & Hall).
  rewrite Hrun. clear Hrun.
  assert (Hgone : forall f, In f gone -> In f V)
    by (intros f Hf; rewrite HVg; apply in_or_app; left; exact Hf).
  (* a file of [dir] whose name is the name of a removed one is that one *)
  assert (Hsame : forall f, In f dir ->
             existsb (fun v => (BackupService.name f
                                =? BackupService.name v)%string) gone = true ->
             In f gone).
  { intros f Hf He. apply existsb_exists in He. destruct He as (v & Hv & Hn).
    apply String.eqb_eq in Hn.
    assert (f = v); [|subst; exact Hv].
    apply (same_name_same_file dir); try assumption.
    apply HinS, HV, Hgone, Hv. }
  assert (Hkept : forall f, In f K ->
             existsb (fun v => (BackupService.name f
                                =? BackupService.name v)%string) gone = false).
  { intros f Hf. destruct (existsb _ gone) eqn:E; [|reflexivity].
    exfalso. apply (NoDup_app_disjoint K V f HndS Hf).
    apply Hgone, Hsame; [apply HinS, HK, Hf | exact E]. }
  split; [|split; [|split; [|split]]].
  - intros f Hf. apply filter_In in Hf. tauto.
  - intros f Hf Hb. apply filter_In. split; [exact Hf|].
    apply negb_true_iff. destruct (existsb _ gone) eqn:E; [|reflexivity].
    pose proof (Hsame f Hf E) as Hg.
    apply Hgone, HV, HinS in Hg. destruct Hg as [_ Hg]. congruence.
  - intros f Hf. apply filter_In. split; [apply HinS, HK, Hf|].
    rewrite (Hkept f Hf). reflexivity.
  - intros kept gone_file Hk Hg Hnot.
    apply (StronglySorted_app_cross _ K V Hsorted); [exact Hk|].
    apply Hgone, Hsame; [exact Hg|].
    destruct (existsb _ gone) eqn:E; [reflexivity|].
    elim Hnot. apply filter_In. rewrite E. split; [exact Hg | reflexivity].
  - intros Hok.
    assert (Hrest : rest = []) by (apply Hall; intros; apply Hok).
    subst rest. rewrite app_nil_r in HVg. subst gone.
    assert (Hp : Permutation
                   (BackupService.glob
                      (filter (fun f =>
                                 negb (existsb
                                         (fun v => (BackupService.name f
                                                    =? BackupService.name v)%string)
                                         V))
                              dir))
                   K).
    { unfold BackupService.glob at 1.
      rewrite filter_filter_and.
      rewrite (filter_ext _
                 (fun f => BackupService.is_backup (BackupService.name f)
                           && negb (existsb
                                      (fun v => (BackupService.name f
                                                 =? BackupService.name v)%string)
                                      V)))
        by (intros f; apply andb_comm).
      rewrite <- filter_filter_and. fold (BackupService.glob dir).
      eapply perm_trans;
        [apply Permutation_filter_bool, Permutation_sym, Hperm|].
      rewrite HS, filter_app.
      rewrite (filter_all_true _ K)
        by (intros f Hf; rewrite (Hkept f Hf); reflexivity).
      rewrite (filter_none _ V); [rewrite app_nil_r; apply Permutation_refl|].
      intros f Hf. apply negb_false_iff, existsb_exists.
      exists f. split; [exact Hf | apply String.eqb_refl]. }
    split; [exact Hp|].
    rewrite (Permutation_length Hp). apply firstn_le_length.
Qed.

Lemma distinct_names_NoDup (names : list string) :
  distinct_names names = true -> NoDup names.
Proof.
  induction names as [|n names IH]; simpl; intros H; [constructor|].
  apply andb_true_iff in H. destruct H as [Hn Hrest].
  constructor; [|apply IH; exact Hrest].
  intros Hin. apply negb_true_iff in Hn.
  assert (existsb (String.eqb n) names = true); [|congruence].
  apply existsb_exists. exists n. split; [exact Hin | apply String.eqb_refl].
Qed.

(** Of 32 backups the two oldest go, the safety copy and the other file
    stay. *)
Lemma cleanup_keeps_the_newest_backups_witness :
  NoDup (map BackupService.name scenario_backup_dir)
  /\ (forall file_name : string, (fun _ => true) file_name = true)
  /\ (length (BackupService.glob
                (BackupService._cleanup_old_backups
                   (fun _ => true) scenario_backup_dir))
      <= BackupService.max_backups)%nat
  /\ map BackupService.name
         (filter (fun f => negb (BackupService.is_backup (BackupService.name f)))
                 (BackupService._cleanup_old_backups
                    (fun _ => true) scenario_backup_dir))
     = [ "pre_restore_socongno_backup_20240101_080000.db"; "notes.txt" ].
Proof.
  assert (Hnd : NoDup (map BackupService.name scenario_backup_dir))
    by (apply distinct_names_NoDup; vm_compute; reflexivity).
  assert (Hok : forall file_name : string, (fun _ => true) file_name = true)
    by reflexivity.
  split; [exact Hnd|]. split; [exact Hok|]. split.
  - exact (proj2 (proj2 (proj2 (proj2 (proj2
             (cleanup_keeps_the_newest_backups
                (fun _ => true) scenario_backup_dir Hnd)))) Hok)).
  - vm_compute. reflexivity.
Defined.

(** ** [backup_now] *)

Lemma string_length_append (a b : string) :
  String.length (a ++ b) = (String.length a + String.length b)%nat.
Proof.
  induction a as [|c a IH]; simpl; [reflexivity|]. rewrite IH. reflexivity.
Qed.

Lemma substring_whole (b : string) : substring 0 (String.length b) b = b.
Proof.
  induction b as [|c b IH]; simpl; [reflexivity|]. rewrite IH. reflexivity.
Qed.

Lemma substring_after (a b : string) :
  substring (String.length a) (String.length b) (a ++ b) = b.
Proof.
  induction a as [|c a IH]; simpl; [apply substring_whole | exact IH].
Qed.

Lemma ends_with_append (a b : string) :
  BackupService.ends_with b (a ++ b) = true.
Proof.
  unfold BackupService.ends_with. rewrite string_length_append.
  replace (String.length a + String.length b - String.length b)%nat
    with (String.length a) by lia.
  rewrite substring_after, String.eqb_refl, andb_true_r.
  apply Nat.leb_le. lia.
Qed.

Lemma string_append_assoc (a b c : string) : (a ++ b) ++ c = a ++ b ++ c.
Proof.
  induction a as [|x a IH]; simpl; [reflexivity|]. rewrite IH. reflexivity.
Qed.

Lemma prefix_append (a b : string) : prefix a (a ++ b) = true.
Proof.
  induction a as [|x a IH]; simpl; [destruct b; reflexivity|].
  destruct (ascii_dec x x) as [_|Hne]; [exact IH | elim Hne; reflexivity].
Qed.

(** Every name that [_get_backup_filename] builds matches the pattern of
    the backups. *)
Lemma backup_filename_is_backup (timestamp : string) :
  BackupService.is_backup (BackupService._get_backup_filename timestamp)
  = true.
Proof.
  unfold BackupService.is_backup, BackupService._get_backup_filename.
  rewrite prefix_append.
  rewrite <- (string_append_assoc "socongno_backup_" timestamp ".db").
  rewrite ends_with_append. simpl.
  rewrite string_length_append, Nat.add_comm. reflexivity.
Qed.

Lemma copy2_names src file_name dir :
  map BackupService.name (BackupService.copy2 src file_name dir)
  = if existsb (fun f => (BackupService.name f =? file_name)%string) dir
    then map BackupService.name dir
    else (map BackupService.name dir ++ [file_name])%list.
Proof.
  unfold BackupService.copy2. destruct (existsb _ dir).
  - rewrite map_map. apply map_ext. intros f.
    destruct (String.eqb_spec (BackupService.name f) file_name) as [E|_];
      [symmetry; exact E | reflexivity].
  - rewrite map_app. reflexivity.
Qed.

Lemma copy2_NoDup src file_name dir :
  NoDup (map BackupService.name dir) ->
  NoDup (map BackupService.name (BackupService.copy2 src file_name dir)).
Proof.
  intros Hnd. rewrite copy2_names.
  destruct (existsb _ dir) eqn:E; [exact Hnd|].
  apply NoDup_snoc; [exact Hnd|]. intros Hin.
  apply in_map_iff in Hin. destruct Hin as (f & Hn & Hf).
  assert (existsb (fun f => (BackupService.name f =? file_name)%string) dir
          = true); [|congruence].
  apply existsb_exists. exists f. split; [exact Hf|].
  apply String.eqb_eq. exact Hn.
Qed.

Lemma copy2_keeps_others src file_name dir f :
  In f dir -> BackupService.name f <> file_name ->
  In f (BackupService.copy2 src file_name dir).
Proof.
  intros Hf Hn. unfold BackupService.copy2. destruct (existsb _ dir).
  - apply in_map_iff. exists f. split; [|exact Hf].
    destruct (String.eqb_spec (BackupService.name f) file_name);
      [contradiction | reflexivity].
  - apply in_or_app. left. exact Hf.
Qed.

Lemma glob_without_name file_name (dir : list BackupService.file) :
  ~ In file_name (map BackupService.name dir) ->
  other_backups file_name dir = BackupService.glob dir.
Proof.
  intros Hn. unfold other_backups. apply filter_all_true. intros f Hf.
  apply negb_true_iff, String.eqb_neq. intros E. apply Hn.
  apply filter_In in Hf. rewrite <- E. apply in_map. tauto.
Qed.

Lemma replace_glob (copy : BackupService.file) (dir : list BackupService.file) :
  BackupService.is_backup (BackupService.name copy) = true ->
  NoDup (map BackupService.name dir) ->
  In (BackupService.name copy) (map BackupService.name dir) ->
  Permutation
    (BackupService.glob
       (map (fun f => if (BackupService.name f
                          =? BackupService.name copy)%string
                      then copy else f) dir))
    (copy :: other_backups (BackupService.name copy) dir).
Proof.
  intros Hb. set (n := BackupService.name copy) in *.
  induction dir as [|h t IH]; simpl; intros Hnd Hin; [contradiction|].
  inversion Hnd as [|? ? Hh Ht]; subst.
  destruct (String.eqb_spec (BackupService.name h) n) as [E|E].
  - (* the file that is replaced; no other file has its name *)
    rewrite E in Hh.
    rewrite map_unchanged.
    + unfold other_backups, BackupService.glob. simpl. fold n.
      rewrite Hb, E, Hb. simpl. rewrite E, String.eqb_refl. simpl.
      fold (BackupService.glob t). fold (other_backups n t).
      rewrite (glob_without_name n t Hh). apply Permutation_refl.
    + intros f Hf.
      destruct (String.eqb_spec (BackupService.name f) n) as [E'|_];
        [|reflexivity].
      elim Hh. rewrite <- E'. apply in_map. exact Hf.
  - destruct Hin as [Hin|Hin]; [contradiction|].
    specialize (IH Ht Hin).
    unfold other_backups, BackupService.glob in *. simpl.
    destruct (BackupService.is_backup (BackupService.name h)); simpl.
    + apply String.eqb_neq in E. rewrite E. simpl.
      eapply perm_trans; [apply perm_skip, IH | apply perm_swap].
    + exact IH.
Qed.

Lemma copy2_glob timestamp db_file dir :
  NoDup (map BackupService.name dir) ->
  Permutation
    (BackupService.glob
       (BackupService.copy2
          db_file (BackupService._get_backup_filename timestamp) dir))
    (backup_copy timestamp db_file
     :: other_backups (BackupService._get_backup_filename timestamp) dir).
Proof.
  set (n := BackupService._get_backup_filename timestamp).
  assert (Hb : BackupService.is_backup n = true)
    by apply backup_filename_is_backup.
  intros Hnd. unfold BackupService.copy2.
  fold (backup_copy timestamp db_file). fold n.
  destruct (existsb _ dir) eqn:E.
  - apply (replace_glob (backup_copy timestamp db_file) dir Hb Hnd).
    apply existsb_exists in E. destruct E as (f & Hf & Hn).
    apply String.eqb_eq in Hn. simpl. fold n. rewrite <- Hn.
    apply in_map. exact Hf.
  - unfold BackupService.glob at 1. rewrite filter_app. simpl.
    fold n. rewrite Hb. fold (BackupService.glob dir).
    rewrite glob_without_name.
    + apply Permutation_sym, Permutation_cons_append.
    + intros Hin. apply in_map_iff in Hin. destruct Hin as (f & Hn & Hf).
      assert (existsb (fun f => (BackupService.name f =? n)%string) dir = true);
        [|congruence].
      apply existsb_exists. exists f. split; [exact Hf|].
      apply String.eqb_eq. exact Hn.
Qed.

Lemma cleanup_run (unlink_ok : string -> bool) (dir : list BackupService.file) :
  exists gone,
    BackupService._cleanup_old_backups unlink_ok dir
    = filter (fun f =>
                negb (existsb (fun v => (BackupService.name f
                                         =? BackupService.name v)%string)
                              gone))
             dir
    /\ forall v, In v gone ->
                 In v dir
                 /\ BackupService.is_backup (BackupService.name v) = true.
Proof.
  unfold BackupService._cleanup_old_backups.
  destruct (unlink_each_run
              unlink_ok
              (skipn BackupService.max_backups
                     (BackupService.get_backup_list dir)) dir)
    as (gone & rest & Hv & Hrun & _).
  exists gone. split; [exact Hrun|]. intros v Hin.
  assert (Hs : In v (BackupService.get_backup_list dir)).
  { rewrite <- (firstn_skipn BackupService.max_backups
                             (BackupService.get_backup_list dir)).
    apply in_or_app. right. rewrite Hv. apply in_or_app. left. exact Hin. }
  apply (Permutation_in _ (sorted_newest_first_Permutation _)) in Hs.
  apply filter_In in Hs. exact Hs.
Qed.

Lemma cleanup_nothing_to_do (unlink_ok : string -> bool)
      (dir : list BackupService.file) :
  (length (BackupService.glob dir) <= BackupService.max_backups)%nat ->
  BackupService._cleanup_old_backups unlink_ok dir = dir.
Proof.
  intros Hlen. unfold BackupService._cleanup_old_backups.
  rewrite skipn_all2; [reflexivity|].
  unfold BackupService.get_backup_list.
  rewrite (Permutation_length (sorted_newest_first_Permutation _)).
  exact Hlen.
Qed.

Lemma copy2_In_inv src file_name dir f :
  In f (BackupService.copy2 src file_name dir) ->
  BackupService.name f <> file_name ->
  In f dir.
Proof.
  unfold BackupService.copy2. intros Hin Hne.
  destruct (existsb _ dir).
  - apply in_map_iff in Hin. destruct Hin as (g & Hg & Hin).
    destruct (String.eqb_spec (BackupService.name g) file_name) as [_|_].
    + subst f. simpl in Hne. contradiction.
    + subst f. exact Hin.
  - apply in_app_or in Hin. destruct Hin as [Hin | [<- | []]];
      [exact Hin | simpl in Hne; contradiction].
Qed.

(** X16.  [backup_now] in a directory with unique names.  Without a
    database file it returns [None] and the directory is as before.  When
    the copy raises it returns [None] and removes nothing: the files under
    other names than that of the backup are those that were there, and the
    directory is as before when the destination was not touched.
    Otherwise it returns the name built from the timestamp, which matches
    the pattern of the backups; names stay unique and no file that is not a
    backup is lost.  When fewer than 30 backups with other names were
    there, nothing is removed: afterwards the directory holds the copy,
    with the bytes and the modification time of the database file, next to
    every file it held under another name. *)
Theorem backup_now_copies_the_database
  (unlink_ok : string -> bool) (timestamp : string)
  (dir : list BackupService.file) :
  NoDup (map BackupService.name dir) ->
  (forall copy,
      BackupService.backup_now unlink_ok copy timestamp None dir
      = (None, dir))
  /\ (forall db_file debris,
       exists dir',
         BackupService.backup_now unlink_ok (BackupService.failed debris)
                                  timestamp (Some db_file) dir
         = (None, dir')
         /\ (debris = None -> dir' = dir)
         /\ (forall f,
               BackupService.name f
               <> BackupService._get_backup_filename timestamp ->
               (In f dir' <-> In f dir)))
  /\ (forall db_file,
       exists dir',
         BackupService.backup_now unlink_ok BackupService.copied timestamp
                                  (Some db_file) dir
         = (Some (BackupService._get_backup_filename timestamp), dir')
         /\ BackupService.is_backup
              (BackupService._get_backup_filename timestamp) = true
         /\ NoDup (map BackupService.name dir')
         /\ (forall f, In f dir ->
                       BackupService.is_backup (BackupService.name f) = false ->
                       In f dir')
         /\ ((length (other_backups
                        (BackupService._get_backup_filename timestamp) dir)
              < BackupService.max_backups)%nat ->
             In (backup_copy timestamp db_file) dir'
             /\ forall f, In f dir ->
                          BackupService.name f
                          <> BackupService._get_backup_filename timestamp ->
                          In f dir')).
Proof.
  intros Hnd. split; [reflexivity|]. split.
  { intros db_file debris. simpl. eexists. split; [reflexivity|].
    split; [intros ->; reflexivity|].
    intros f Hne. destruct debris as [[mtime bytes]|]; simpl; [|tauto].
    split; intros Hin.
    - eapply copy2_In_inv; eassumption.
    - apply copy2_keeps_others; assumption. }
  intros db_file. simpl.
  set (n := BackupService._get_backup_filename timestamp).
  set (dir1 := BackupService.copy2 db_file n dir).
  assert (Hb : BackupService.is_backup n = true)
    by apply backup_filename_is_backup.
  assert (Hnd1 : NoDup (map BackupService.name dir1))
    by (apply copy2_NoDup; exact Hnd).
  assert (Hglob : Permutation (BackupService.glob dir1)
                              (backup_copy timestamp db_file
                               :: other_backups n dir))
    by (apply copy2_glob; exact Hnd).
  eexists. split; [reflexivity|]. split; [exact Hb|].
  destruct (cleanup_run unlink_ok dir1) as (gone & Hrun & Hgone).
  split; [|split].
  - rewrite Hrun. apply NoDup_map_filter. exact Hnd1.
  - intros f Hf Hnb.
    assert (Hne : BackupService.name f <> n) by (intros E; congruence).
    rewrite Hrun. apply filter_In.
    split; [apply copy2_keeps_others; assumption|].
    apply negb_true_iff. destruct (existsb _ gone) eqn:E; [|reflexivity].
    apply existsb_exists in E. destruct E as (v & Hv & Hn).
    apply String.eqb_eq in Hn. apply Hgone in Hv. destruct Hv as [_ Hv].
    congruence.
  - intros Hfew.
    rewrite cleanup_nothing_to_do.
    + split.
      * assert (Hin : In (backup_copy timestamp db_file)
                         (BackupService.glob dir1)).
        { apply (Permutation_in _ (Permutation_sym Hglob)). left. reflexivity. }
        apply filter_In in Hin. tauto.
      * intros f Hf Hne. apply copy2_keeps_others; assumption.
    + rewrite (Permutation_length Hglob). simpl.
      unfold BackupService.max_backups in *. lia.
Qed.

Lemma backup_now_copies_the_database_witness :
  NoDup (map BackupService.name (firstn 3 scenario_backup_dir))
  /\ (length (other_backups
                (BackupService._get_backup_filename "20240201_080000")
                (firstn 3 scenario_backup_dir))
      < BackupService.max_backups)%nat
  /\ (exists dir',
        BackupService.backup_now
          (fun _ => true) BackupService.copied "20240201_080000"
          (Some {| BackupService.name := "socongno.db";
                   BackupService.st_mtime := 40;
                   BackupService.data := "ledger" |})
          (firstn 3 scenario_backup_dir)
        = (Some "socongno_backup_20240201_080000.db", dir')
        /\ In {| BackupService.name := "socongno_backup_20240201_080000.db";
                 BackupService.st_mtime := 40;
                 BackupService.data := "ledger" |} dir'
        /\ map BackupService.name dir'
           = (map BackupService.name (firstn 3 scenario_backup_dir)
              ++ ["socongno_backup_20240201_080000.db"])%list)
  /\ (exists dir',
        BackupService.backup_now
          (fun _ => true) (BackupService.failed (Some (41%Q, "led")))
          "20240201_080000"
          (Some {| BackupService.name := "socongno.db";
                   BackupService.st_mtime := 40;
                   BackupService.data := "ledger" |})
          (firstn 3 scenario_backup_dir)
        = (None, dir')
        /\ (forall f,
              BackupService.name f <> "socongno_backup_20240201_080000.db" ->
              (In f dir' <-> In f (firstn 3 scenario_backup_dir)))
        /\ dir'
           = (firstn 3 scenario_backup_dir
              ++ [ {| BackupService.name := "socongno_backup_20240201_080000.db";
                      BackupService.st_mtime := 41;
                      BackupService.data := "led" |} ])%list).
Proof.
  assert (Hnd : NoDup (map BackupService.name (firstn 3 scenario_backup_dir)))
    by (apply distinct_names_NoDup; vm_compute; reflexivity).
  assert (Hfew : (length (other_backups
                            (BackupService._get_backup_filename
                               "20240201_080000")
                            (firstn 3 scenario_backup_dir))
                  < BackupService.max_backups)%nat)
    by (vm_compute; lia).
  split; [exact Hnd|]. split; [exact Hfew|].
  destruct (backup_now_copies_the_database
              (fun _ => true) "20240201_080000"
              (firstn 3 scenario_backup_dir) Hnd)
    as (_ & Hfailed & Hcopied).
  split.
  - destruct (Hcopied {| BackupService.name := "socongno.db";
                         BackupService.st_mtime := 40;
                         BackupService.data := "ledger" |})
      as (dir' & Hrun & _ & _ & _ & Hcopy).
    exists dir'. split; [exact Hrun|].
    split; [exact (proj1 (Hcopy Hfew))|].
    vm_compute in Hrun. injection Hrun as <-. reflexivity.
  - destruct (Hfailed {| BackupService.name := "socongno.db";
                         BackupService.st_mtime := 40;
                         BackupService.data := "ledger" |}
                      (Some (41%Q, "led")))
      as (dir' & Hrun & _ & Hothers).
    exists dir'. split; [exact Hrun|]. split; [exact Hothers|].
    vm_compute in Hrun. injection Hrun as <-. reflexivity.
Defined.

Lemma cleanup_run_all (unlink_ok : string -> bool)
      (dir : list BackupService.file) :
  (forall file_name, unlink_ok file_name = true) ->
  BackupService._cleanup_old_backups unlink_ok dir
  = filter (fun f =>
              negb (existsb (fun v => (BackupService.name f
                                       =? BackupService.name v)%string)
                            (skipn BackupService.max_backups
                                   (BackupService.get_backup_list dir))))
           dir.
Proof.
  intros Hok. unfold BackupService._cleanup_old_backups.
  destruct (unlink_each_run
              unlink_ok
              (skipn BackupService.max_backups
                     (BackupService.get_backup_list dir)) dir)
    as (gone & rest & Hv & Hrun & Hall).
  rewrite (Hall (fun v _ => Hok (BackupService.name v))), app_nil_r in Hv.
  rewrite Hrun, Hv. reflexivity.
Qed.

(** X17.  [shutil.copy2] gives the backup the modification time of the
    database file, and the retention sorts by that time.  So when the
    directory already holds 30 backups under other names that are all
    newer than the database file, [backup_now] returns the name of its
    copy although the clean-up that it runs has already removed that
    copy. *)
Theorem backup_now_can_prune_its_own_copy
  (unlink_ok : string -> bool) (timestamp : string)
  (db_file : BackupService.file) (dir newer : list BackupService.file) :
  NoDup (map BackupService.name dir) ->
  (forall file_name, unlink_ok file_name = true) ->
  NoDup newer ->
  (BackupService.max_backups <= length newer)%nat ->
  (forall f, In f newer ->
             In f (other_backups
                     (BackupService._get_backup_filename timestamp) dir)
             /\ (BackupService.st_mtime db_file < BackupService.st_mtime f)%Q) ->
  exists dir',
    BackupService.backup_now unlink_ok BackupService.copied timestamp
                             (Some db_file) dir
    = (Some (BackupService._get_backup_filename timestamp), dir')
    /\ ~ In (BackupService._get_backup_filename timestamp)
            (map BackupService.name dir').
Proof.
  intros Hnd Hok Hndn Hlen Hnewer. simpl.
  set (n := BackupService._get_backup_filename timestamp) in *.
  set (dir1 := BackupService.copy2 db_file n dir).
  set (c := backup_copy timestamp db_file).
  assert (Hglob : Permutation (BackupService.glob dir1)
                              (c :: other_backups n dir))
    by (apply copy2_glob; exact Hnd).
  set (S := BackupService.get_backup_list dir1).
  set (K := firstn BackupService.max_backups S).
  set (V := skipn BackupService.max_backups S).
  assert (HS : S = (K ++ V)%list) by (symmetry; apply firstn_skipn).
  assert (Hperm : Permutation S (BackupService.glob dir1))
    by apply sorted_newest_first_Permutation.
  assert (Hsorted : StronglySorted BackupService.newer_or_equal (K ++ V)%list)
    by (rewrite <- HS; apply sorted_newest_first_sorted).
  assert (HinS : forall f, In f (c :: other_backups n dir) -> In f S).
  { intros f Hf. apply (Permutation_in _ (Permutation_sym Hperm)).
    apply (Permutation_in _ (Permutation_sym Hglob)). exact Hf. }
  assert (HcV : In c V).
  { assert (Hc : In c S) by (apply HinS; left; reflexivity).
    rewrite HS in Hc. apply in_app_or in Hc.
    destruct Hc as [HcK|HcV]; [exfalso | exact HcV].
    assert (Hincl : incl (c :: newer) K).
    { intros f [<-|Hf]; [exact HcK|].
      destruct (Hnewer f Hf) as [Hfo Hlt].
      assert (HfS : In f S) by (apply HinS; right; exact Hfo).
      rewrite HS in HfS. apply in_app_or in HfS.
      destruct HfS as [HfK|HfV]; [exact HfK | exfalso].
      pose proof (StronglySorted_app_cross _ K V Hsorted c f HcK HfV) as Hle.
      unfold BackupService.newer_or_equal in Hle. simpl in Hle.
      exact (Qlt_not_le _ _ Hlt Hle). }
    assert (Hndc : NoDup (c :: newer)).
    { constructor; [|exact Hndn]. intros Hin.
      destruct (Hnewer c Hin) as [Hco _].
      unfold other_backups in Hco. apply filter_In in Hco.
      destruct Hco as [_ Hne]. simpl in Hne. fold n in Hne.
      rewrite String.eqb_refl in Hne. discriminate. }
    pose proof (NoDup_incl_length Hndc Hincl) as Hl.
    pose proof (firstn_le_length BackupService.max_backups S) as Hk.
    fold K in Hk. simpl in Hl. lia. }
  eexists. split; [reflexivity|].
  rewrite (cleanup_run_all unlink_ok dir1 Hok). fold S. fold V.
  intros Hin. apply in_map_iff in Hin. destruct Hin as (g & Hn & Hg).
  apply filter_In in Hg. destruct Hg as [_ Hg].
  apply negb_true_iff in Hg.
  assert (existsb (fun v => (BackupService.name g
                             =? BackupService.name v)%string) V = true);
    [|congruence].
  apply existsb_exists. exists c. split; [exact HcV|].
  apply String.eqb_eq. exact Hn.
Qed.

Lemma backup_now_can_prune_its_own_copy_witness :
  NoDup (map BackupService.name scenario_full_dir)
  /\ (forall file_name : string, (fun _ => true) file_name = true)
  /\ NoDup scenario_full_dir
  /\ (BackupService.max_backups <= length scenario_full_dir)%nat
  /\ exists dir',
       BackupService.backup_now (fun _ => true) BackupService.copied
                                "20240301_080000"
                                (Some scenario_old_db) scenario_full_dir
       = (Some "socongno_backup_20240301_080000.db", dir')
       /\ ~ In "socongno_backup_20240301_080000.db"
               (map BackupService.name dir').
Proof.
  assert (Hnd : NoDup (map BackupService.name scenario_full_dir))
    by (apply distinct_names_NoDup; vm_compute; reflexivity).
  assert (Hok : forall file_name : string, (fun _ => true) file_name = true)
    by reflexivity.
  assert (Hndn : NoDup scenario_full_dir)
    by exact (NoDup_map_inv _ _ Hnd).
  assert (Hlen : (BackupService.max_backups <= length scenario_full_dir)%nat)
    by (vm_compute; lia).
  assert (Hothers : other_backups
                      (BackupService._get_backup_filename "20240301_080000")
                      scenario_full_dir
                    = scenario_full_dir)
    by (vm_compute; reflexivity).
  assert (Hnewer : forall f, In f scenario_full_dir ->
             In f (other_backups
                     (BackupService._get_backup_filename "20240301_080000")
                     scenario_full_dir)
             /\ (BackupService.st_mtime scenario_old_db
                 < BackupService.st_mtime f)%Q).
  { intros f Hf. rewrite Hothers. split; [exact Hf|].
    revert f Hf. apply Forall_forall.
    unfold scenario_full_dir. simpl. repeat constructor. }
  split; [exact Hnd|]. split; [exact Hok|]. split; [exact Hndn|].
  split; [exact Hlen|].
  exact (backup_now_can_prune_its_own_copy
           (fun _ => true) "20240301_080000" scenario_old_db
           scenario_full_dir scenario_full_dir Hnd Hok Hndn Hlen Hnewer).
Defined.

(** ** Restoring from a backup *)

Lemma copy2_In_copy src file_name dir :
  In {| BackupService.name := file_name;
        BackupService.st_mtime := BackupService.st_mtime src;
        BackupService.data := BackupService.data src |}
     (BackupService.copy2 src file_name dir).
Proof.
  unfold BackupService.copy2. destruct (existsb _ dir) eqn:E.
  - apply existsb_exists in E. destruct E as (f & Hf & Hn).
    apply in_map_iff. exists f. rewrite Hn. split; [reflexivity | exact Hf].
  - apply in_or_app. right. left. reflexivity.
Qed.

Lemma lookup_copy2_other src file_name other dir :
  other <> file_name ->
  Restore.lookup other (BackupService.copy2 src file_name dir)
  = Restore.lookup other dir.
Proof.
  intros Hne. unfold Restore.lookup, BackupService.copy2.
  destruct (existsb _ dir).
  - induction dir as [|f dir IH]; simpl; [reflexivity|].
    destruct (String.eqb_spec (BackupService.name f) file_name) as [E|E];
      simpl.
    + destruct (String.eqb_spec file_name other) as [E'|_];
        [elim Hne; symmetry; exact E'|].
      destruct (String.eqb_spec (BackupService.name f) other) as [E'|_];
        [elim Hne; congruence | exact IH].
    + destruct (BackupService.name f =? other)%string; [reflexivity | exact IH].
  - induction dir as [|f dir IH]; simpl.
    + destruct (String.eqb_spec file_name other) as [E'|_];
        [elim Hne; symmetry; exact E' | reflexivity].
    + destruct (BackupService.name f =? other)%string; [reflexivity | exact IH].
Qed.


Lemma safety_backup_is_no_backup (timestamp : string) :
  BackupService.is_backup (Restore.safety_backup timestamp) = false.
Proof. reflexivity. Qed.


(** X18.  [restore_from_backup].  A path at which there is no file gives
    [False] and changes nothing.  Otherwise, when both copies go through
    and the path is not the one of the safety copy itself, the result is
    [True] and the database file has the bytes and the modification time
    of the backup.  The database file that was there before is kept in the
    backup directory under the name that starts with [pre_restore_]; that
    name does not match the pattern of the backups, so the safety copy is
    neither listed by [get_backup_list] nor ever removed by the retention.
    Every other file of the directory stays. *)
Theorem restore_puts_the_backup_in_place
  (timestamp : string) (backup_path : Restore.path)
  (db : option BackupService.file) (dir : list BackupService.file) :
  (Restore.resolve backup_path dir = None ->
   forall safety_ok restore_ok,
     Restore.restore_from_backup safety_ok restore_ok timestamp backup_path
                                 db dir
     = (false, db, dir))
  /\ (forall src,
        Restore.resolve backup_path dir = Some src ->
        backup_path <> Restore.in_backup_dir (Restore.safety_backup timestamp) ->
        exists db' dir',
          Restore.restore_from_backup true true timestamp backup_path db dir
          = (true, Some db', dir')
          /\ BackupService.data db' = BackupService.data src
          /\ BackupService.st_mtime db' = BackupService.st_mtime src
          /\ (forall old, db = Some old ->
                In {| BackupService.name := Restore.safety_backup timestamp;
                      BackupService.st_mtime := BackupService.st_mtime old;
                      BackupService.data := BackupService.data old |} dir')
          /\ BackupService.is_backup (Restore.safety_backup timestamp) = false
          /\ ~ In (Restore.safety_backup timestamp)
                  (map BackupService.name
                       (BackupService.get_backup_list dir'))
          /\ (forall f, In f dir ->
                        BackupService.name f <> Restore.safety_backup timestamp ->
                        In f dir')).
Proof.
  split.
  - intros Hnone safety_ok restore_ok.
    unfold Restore.restore_from_backup. rewrite Hnone. reflexivity.
  - intros src Hsrc Hpath. unfold Restore.restore_from_backup. rewrite Hsrc.
    set (s := Restore.safety_backup timestamp) in *.
    assert (Hlist : forall d,
               ~ In s (map BackupService.name
                           (BackupService.get_backup_list d))).
    { intros d Hin. apply in_map_iff in Hin. destruct Hin as (f & Hn & Hf).
      apply (Permutation_in _ (sorted_newest_first_Permutation _)) in Hf.
      apply filter_In in Hf. destruct Hf as [_ Hb].
      rewrite Hn in Hb. discriminate. }
    destruct db as [old|].
    + assert (Hsrc' : Restore.resolve
                        backup_path (BackupService.copy2 old s dir)
                      = Some src).
      { destruct backup_path as [n|f]; simpl in *; [|exact Hsrc].
        rewrite lookup_copy2_other; [exact Hsrc|].
        intros E. apply Hpath. rewrite E. reflexivity. }
      rewrite Hsrc'. do 2 eexists. split; [reflexivity|]. simpl.
      split; [reflexivity|]. split; [reflexivity|].
      split; [intros o Ho; injection Ho as <-; apply copy2_In_copy|].
      split; [reflexivity|]. split; [apply Hlist|].
      intros f Hf Hn. apply copy2_keeps_others; assumption.
    + rewrite Hsrc. do 2 eexists. split; [reflexivity|]. simpl.
      split; [reflexivity|]. split; [reflexivity|].
      split; [intros o Ho; discriminate|].
      split; [reflexivity|]. split; [apply Hlist|].
      intros f Hf _. exact Hf.
Qed.

Lemma restore_puts_the_backup_in_place_witness :
  Restore.resolve (Restore.in_backup_dir "socongno_backup_3.db")
                  scenario_backup_dir
  = Some (numbered_backup 3)
  /\ Restore.in_backup_dir "socongno_backup_3.db"
     <> Restore.in_backup_dir (Restore.safety_backup "20240301_080000")
  /\ exists db' dir',
       Restore.restore_from_backup
         true true "20240301_080000"
         (Restore.in_backup_dir "socongno_backup_3.db")
         (Some scenario_old_db) scenario_backup_dir
       = (true, Some db', dir')
       /\ BackupService.st_mtime db' = BackupService.st_mtime (numbered_backup 3)
       /\ In {| BackupService.name :=
                  "pre_restore_socongno_backup_20240301_080000.db";
                BackupService.st_mtime := 0;
                BackupService.data := "restored" |} dir'.
Proof.
  assert (Hsrc : Restore.resolve (Restore.in_backup_dir "socongno_backup_3.db")
                                 scenario_backup_dir
                 = Some (numbered_backup 3))
    by (vm_compute; reflexivity).
  assert (Hpath : Restore.in_backup_dir "socongno_backup_3.db"
                  <> Restore.in_backup_dir
                       (Restore.safety_backup "20240301_080000"))
    by discriminate.
  split; [exact Hsrc|]. split; [exact Hpath|].
  destruct (proj2 (restore_puts_the_backup_in_place
                     "20240301_080000"
                     (Restore.in_backup_dir "socongno_backup_3.db")
                     (Some scenario_old_db) scenario_backup_dir)
                  (numbered_backup 3) Hsrc Hpath)
    as (db' & dir' & Hrun & _ & Hm & Hsafe & _).
  exists db', dir'. split; [exact Hrun|]. split; [exact Hm|].
  exact (Hsafe scenario_old_db eq_refl).
Defined.




(** X20.  [get_backup_list] changes nothing and lists exactly the files of
    the directory whose names match the pattern of the backups, each once,
    from the newest to the oldest. *)
Theorem get_backup_list_newest_first (dir : list BackupService.file) :
  Permutation (BackupService.get_backup_list dir) (BackupService.glob dir)
  /\ StronglySorted BackupService.newer_or_equal
                    (BackupService.get_backup_list dir)
  /\ (forall f,
         In f (BackupService.get_backup_list dir)
         <-> In f dir
             /\ BackupService.is_backup (BackupService.name f) = true).
Proof.
  assert (Hperm : Permutation (BackupService.get_backup_list dir)
                              (BackupService.glob dir))
    by apply sorted_newest_first_Permutation.
  split; [exact Hperm|]. split; [apply sorted_newest_first_sorted|].
  intros f. split.
  - intros Hf. apply (Permutation_in _ Hperm) in Hf.
    apply filter_In in Hf. exact Hf.
  - intros Hf. apply (Permutation_in _ (Permutation_sym Hperm)).
    apply filter_In. exact Hf.
Qed.

(** ** Customers through the controller *)

Lemma fresh_customer_has_no_rows db :
  well_formed db ->
  rows_of (Sql.next_rowid (map c_id (customers db)) (customers_seq db)) db = [].
Proof.
  intros Hwf. unfold rows_of. apply filter_none. intros row Hin.
  apply Z.eqb_neq. intros E.
  pose proof (wf_foreign_key db Hwf) as Hfk.
  rewrite Forall_forall in Hfk. specialize (Hfk row Hin).
  apply customer_exists_In in Hfk. rewrite E in Hfk.
  exact (next_rowid_fresh _ _ Hfk).
Qed.

(** X21.  A customer created through the controller starts from nothing.
    In a well-formed store [create_customer] with a name that is not blank
    succeeds, the customer carries the stripped name, which is not empty,
    and a new id; for that id the debt is the number 0 and the history is
    empty. *)
Theorem new_customer_starts_at_zero
  (name phone address now : string) (db : Database) :
  well_formed db ->
  CustomerController.blank name = false ->
  exists customer id db',
    CustomerController.create_customer name phone address now db
    = (Returned (true, "Tạo khách hàng thành công", Some customer), db')
    /\ Customer.id customer = Some id
    /\ Customer.name customer = PyStr.strip name
    /\ Customer.name customer <> ""
    /\ CustomerController.get_customer_debt id db'
       = (Returned (true, "", 0%float), db')
    /\ DebtService.get_customer_history id db' = (Returned [], db').
Proof.
  intros Hwf Hb.
  set (id := Sql.next_rowid (map c_id (customers db)) (customers_seq db)).
  set (customer := stripped_customer name phone address now).
  exists (Customer.set_id customer id), id, (snd (CustomerRepository.create customer db)).
  assert (Hrun : CustomerRepository.create customer db
                 = (Returned (Customer.set_id customer id),
                    snd (CustomerRepository.create customer db)))
    by (rewrite customer_create_run; reflexivity).
  assert (Hex : customer_exists id (snd (CustomerRepository.create customer db))
                = true).
  { rewrite customer_create_run. apply customer_exists_In. simpl.
    rewrite map_app. apply in_or_app. right. left. reflexivity. }
  assert (Hrows : rows_of id (snd (CustomerRepository.create customer db)) = []).
  { rewrite customer_create_run. unfold rows_of. simpl.
    apply (fresh_customer_has_no_rows db Hwf). }
  split; [|split; [|split; [|split; [|split]]]].
  - run_controller. rewrite Hb. fold customer.
    unfold bind, ret in Hrun. rewrite customer_create_run.
    rewrite customer_create_run. reflexivity.
  - reflexivity.
  - reflexivity.
  - simpl. unfold CustomerController.blank in Hb.
    apply orb_false_iff in Hb. destruct Hb as [_ Hb].
    apply String.eqb_neq. exact Hb.
  - rewrite (get_customer_debt_present _ _ Hex). unfold balance_of.
    rewrite !(amounts_of_no_rows _ _ _ Hrows). reflexivity.
  - run_service. destruct (get_by_id_present _ _ Hex) as [c ->].
    rewrite get_by_customer_id_run, Hrows. reflexivity.
Qed.

Lemma new_customer_starts_at_zero_witness :
  well_formed scenario_db_payment
  /\ CustomerController.blank "  Binh " = false
  /\ exists customer db',
       CustomerController.create_customer
         "  Binh " "0912 " "Hue" "2024-01-03T12:00:00" scenario_db_payment
       = (Returned (true, "Tạo khách hàng thành công", Some customer), db')
       /\ Customer.name customer = "Binh"
       /\ CustomerController.get_customer_debt 2 db'
          = (Returned (true, "", 0%float), db').
Proof.
  assert (Hwf : well_formed scenario_db_payment)
    by (apply well_formed_add_payment, well_formed_scenario_db_loan).
  assert (Hb : CustomerController.blank "  Binh " = false) by reflexivity.
  split; [exact Hwf|]. split; [exact Hb|].
  destruct (new_customer_starts_at_zero
              "  Binh " "0912 " "Hue" "2024-01-03T12:00:00"
              scenario_db_payment Hwf Hb)
    as (customer & id & db' & Hrun & Hid & Hname & _ & Hdebt & _).
  exists customer, db'. split; [exact Hrun|]. split.
  - rewrite Hname. reflexivity.
  - vm_compute in Hrun. injection Hrun as <- <-.
    injection Hid as <-. exact Hdebt.
Defined.

Lemma get_by_id_after_update customer id db :
  Customer.id customer = Some id ->
  customer_exists id db = true ->
  CustomerRepository.update customer db
  = (Returned true, snd (CustomerRepository.update customer db))
  /\ exists row,
       In row (customers db)
       /\ c_id row = id
       /\ CustomerRepository.get_by_id
            id (snd (CustomerRepository.update customer db))
          = (Returned
               (Some (CustomerRepository.of_row
                        (CustomerRepository.set_fields customer row))),
             snd (CustomerRepository.update customer db)).
Proof.
  intros Hid Hc.
  assert (Hfind : exists row,
             find (fun r => c_id r =? id) (customers db) = Some row).
  { unfold customer_exists in Hc. apply existsb_exists in Hc.
    destruct Hc as (row & Hin & Hrow).
    destruct (find _ _) as [row'|] eqn:F; [eauto|].
    apply (find_none _ _ F) in Hin. congruence. }
  destruct Hfind as [row Hfind].
  pose proof (find_some _ _ Hfind) as [Hin Hrow]. apply Z.eqb_eq in Hrow.
  assert (Hm : CustomerRepository.matches (Customer.id customer) row = true)
    by (apply matches_iff; congruence).
  split.
  - rewrite update_run. simpl. f_equal. f_equal.
    apply existsb_exists. exists row. split; assumption.
  - exists row. split; [exact Hin|]. split; [exact Hrow|].
    rewrite get_by_id_run, update_run. simpl.
    rewrite find_map_same_key.
    + rewrite Hfind. simpl. rewrite Hm. reflexivity.
    + intros r. destruct (CustomerRepository.matches _ r); reflexivity.
Qed.

(** X22.  [update_customer] of the controller checks that the name is not
    blank but, unlike [create_customer], does not strip it.  For a customer
    object with a non-blank name and the id of an existing row it reports
    success, and [get_by_id] then returns name, phone and address exactly
    as the object carried them, surrounding whitespace included. *)
Theorem update_customer_stores_fields_as_given
  (customer : Customer.t) (id : Z) (db : Database) :
  Customer.id customer = Some id ->
  id <> 0 ->
  CustomerController.blank (Customer.name customer) = false ->
  customer_exists id db = true ->
  exists db' fetched,
    CustomerController.update_customer customer db
    = (Returned (true, "Cập nhật khách hàng thành công", tt), db')
    /\ CustomerRepository.get_by_id id db' = (Returned (Some fetched), db')
    /\ Customer.name fetched = Customer.name customer
    /\ Customer.phone fetched = Customer.phone customer
    /\ Customer.address fetched = Customer.address customer
    /\ Customer.id fetched = Some id.
Proof.
  intros Hid Hne Hb Hc.
  destruct (get_by_id_after_update customer id db Hid Hc)
    as (Hrun & row & Hin & Hrow & Hget).
  exists (snd (CustomerRepository.update customer db)),
         (CustomerRepository.of_row
            (CustomerRepository.set_fields customer row)).
  split; [|split; [exact Hget|]].
  - run_controller. rewrite Hb, Hid. simpl.
    apply Z.eqb_neq in Hne. rewrite Hne. rewrite Hrun. reflexivity.
  - simpl. repeat split. congruence.
Qed.

Lemma update_customer_stores_fields_as_given_witness :
  1 <> 0
  /\ CustomerController.blank "  An  " = false
  /\ customer_exists 1 scenario_db_payment = true
  /\ exists db' fetched,
       CustomerController.update_customer
         {| Customer.name := "  An  ";
            Customer.phone := " 0909";
            Customer.address := "";
            Customer.id := Some 1;
            Customer.created_at := "2024-02-01T00:00:00" |}
         scenario_db_payment
       = (Returned (true, "Cập nhật khách hàng thành công", tt), db')
       /\ CustomerRepository.get_by_id 1 db' = (Returned (Some fetched), db')
       /\ Customer.name fetched = "  An  ".
Proof.
  assert (Hne : 1 <> 0) by lia.
  assert (Hb : CustomerController.blank "  An  " = false) by reflexivity.
  assert (Hc : customer_exists 1 scenario_db_payment = true) by reflexivity.
  split; [exact Hne|]. split; [exact Hb|]. split; [exact Hc|].
  destruct (update_customer_stores_fields_as_given
              {| Customer.name := "  An  ";
                 Customer.phone := " 0909";
                 Customer.address := "";
                 Customer.id := Some 1;
                 Customer.created_at := "2024-02-01T00:00:00" |}
              1 scenario_db_payment eq_refl Hne Hb Hc)
    as (db' & fetched & Hrun & Hget & Hname & _).
  exists db', fetched. repeat split; assumption.
Defined.
